(** * EduMaster order bot: session store, pricing engine and conversation
      state machine of [src/tlgbot.py], embedded in Rocq.

    The Python program keeps one [UserSession] object per chat user in a
    dictionary owned by a single [SessionManager]; handlers receive transport
    events (button presses, text messages, attachments), mutate the session
    objects in place and answer through the transport.  The embedding keeps
    that shape:

    - Python [float] is IEEE-754 binary64, given by the Standard Library's
      [spec_float] with [prec = 53] and [emax = 1024];
    - session objects live in a heap addressed by location, the manager's
      dictionary maps user ids to locations, so that a handler's local
      variable [session] keeps denoting the same object across manager calls;
    - [datetime.now()] and the transport are oracles read through counters of
      the world state;
    - exceptions are values of a small error monad; state changes made before
      a [raise] persist, as they do in Python. *)

From Stdlib Require Import ZArith Lia Bool List Ascii String.
From Stdlib Require Import Floats.SpecFloat.
From stdpp Require Import base gmap strings list fin_maps pretty.

Open Scope string_scope.
Open Scope Z_scope.

(** ** Python exceptions and outcomes *)

Inductive exn :=
| ValueError
| KeyError
| TypeError
| AttributeError
| OverflowError
| TransportError.

Inductive outcome (A : Type) :=
| Ok (a : A)
| Raise (e : exn).
Arguments Ok {A} a.
Arguments Raise {A} e.

Definition obind {A B} (o : outcome A) (k : A → outcome B) : outcome B :=
  match o with
  | Ok a => k a
  | Raise e => Raise e
  end.

(** ** Binary64 arithmetic *)

Module B64.

Definition prec : Z := 53.
Definition emax : Z := 1024.

Definition mul : spec_float → spec_float → spec_float := SFmul prec emax.
Definition div : spec_float → spec_float → spec_float := SFdiv prec emax.
Definition ltb : spec_float → spec_float → bool := SFltb.
Definition leb : spec_float → spec_float → bool := SFleb.

(** Correctly rounded (nearest, ties to even) value of an integer. *)
Definition of_Z (z : Z) : spec_float := binary_normalize prec emax z 0 false.

(** The decimal literal [n / 10^k] as the Python parser reads it: both
    operands are exact for the literals of the program, so the correctly
    rounded quotient is the correctly rounded literal. *)
Definition lit (n : Z) (k : nat) : spec_float :=
  match k with
  | O => of_Z n
  | _ => div (of_Z n) (of_Z (10 ^ Z.of_nat k))
  end.

Definition is_nan (x : spec_float) : bool :=
  match x with
  | S754_nan => true
  | _ => false
  end.

Definition is_finite (x : spec_float) : bool :=
  match x with
  | S754_zero _ | S754_finite _ _ _ => true
  | _ => false
  end.

(** [int -> float] as done by [float * int]: [OverflowError] when the
    rounded value does not fit. *)
Definition of_int (z : Z) : outcome spec_float :=
  match of_Z z with
  | S754_infinity _ => Raise OverflowError
  | f => Ok f
  end.

(** The exact value of a finite float as a fraction [num / 2^den_log]. *)
Definition exact_num_shift (x : spec_float) : option (Z * Z) :=
  match x with
  | S754_zero _ => Some (0, 0)
  | S754_finite s m e => Some (if s then Z.neg m else Z.pos m, e)
  | _ => None
  end.

End B64.

Arguments B64.mul : simpl never.
Arguments B64.div : simpl never.
Arguments B64.of_Z : simpl never.
Arguments B64.lit : simpl never.
Arguments B64.of_int : simpl never.

(** Python's two-argument [min]: the first argument wins unless the second
    is strictly smaller. *)
Definition py_min (a b : spec_float) : spec_float :=
  if B64.ltb b a then b else a.

(** ** Dynamic values stored in a session's [data] dictionary *)

Inductive value :=
| VStr (s : string)
| VInt (z : Z)
| VFloat (f : spec_float).

(** [float * v] for a Python value [v]. *)
Definition float_mul (x : spec_float) (v : value) : outcome spec_float :=
  match v with
  | VInt z => obind (B64.of_int z) (λ f, Ok (B64.mul x f))
  | VFloat f => Ok (B64.mul x f)
  | VStr _ => Raise TypeError
  end.

(** ** Configuration and catalog *)

Module Config.
Definition MAX_SESSIONS : nat := 100.
(** [SESSION_TIMEOUT] is in seconds; times are counted in microseconds,
    the resolution of [datetime]. *)
Definition SESSION_TIMEOUT : Z := 1800.
Definition MAX_FILES_PER_ORDER : nat := 5.
End Config.

Record AcademicLevel := {
  name : string;
  emoji : string;
  base_price : spec_float
}.

Module AcademicConfig.

Definition LEVELS_list : list (string * AcademicLevel) :=
  [ ("lycee", {| name := "Lycée"; emoji := "🎓"; base_price := B64.lit 18 0 |});
    ("bachelor", {| name := "Licence"; emoji := "📚"; base_price := B64.lit 22 0 |});
    ("master", {| name := "Master"; emoji := "🎯"; base_price := B64.lit 26 0 |});
    ("phd", {| name := "Doctorat"; emoji := "🔬"; base_price := B64.lit 32 0 |}) ].

Definition LEVELS : gmap string AcademicLevel := list_to_map LEVELS_list.

Definition DEADLINES_list : list (string * (string * spec_float)) :=
  [ ("6h", ("Express - 6h", B64.lit 18 1));
    ("12h", ("Urgent - 12h", B64.lit 17 1));
    ("24h", ("Rapide - 24h", B64.lit 15 1));
    ("48h", ("Standard - 48h", B64.lit 13 1));
    ("3d", ("Normal - 3j", B64.lit 12 1));
    ("7d", ("Planifié - 7j", B64.lit 1 0));
    ("14d", ("Économique - 14j", B64.lit 9 1)) ].

Definition DEADLINES : gmap string (string * spec_float) :=
  list_to_map DEADLINES_list.

Record crypto := {
  crypto_name : string;
  crypto_emoji : string;
  crypto_address : string
}.

Definition CRYPTO_list : list (string * crypto) :=
  [ ("BTC", {| crypto_name := "Bitcoin"; crypto_emoji := "₿";
               crypto_address := "bc1qxy2kgdygjrsqtzq2n0yrf2493p83kkfjhx0wlh" |});
    ("ETH", {| crypto_name := "Ethereum"; crypto_emoji := "Ξ";
               crypto_address := "0x742d35Cc6641C02e8743C1C5C1fEa8efCa7fA6B8" |});
    ("USDT", {| crypto_name := "Tether"; crypto_emoji := "₮";
                crypto_address := "TQrZ2GZkfYZjqokhS7H2FfJ6AvL9vE8RbA" |}) ].

Definition CRYPTO : gmap string crypto := list_to_map CRYPTO_list.

(** [LEVELS.get(k)] for an arbitrary Python value or [None]: only a string
    can equal one of the keys. *)
Definition LEVELS_get (k : option value) : option AcademicLevel :=
  match k with
  | Some (VStr s) => LEVELS !! s
  | _ => None
  end.

Definition DEADLINES_get (k : option value) : option (string * spec_float) :=
  match k with
  | Some (VStr s) => DEADLINES !! s
  | _ => None
  end.

End AcademicConfig.

(** ** Utils *)

Module Utils.

Definition calculate_price (level : option value) (deadline : string)
    (pages : value) : outcome spec_float :=
  match AcademicConfig.LEVELS_get level with
  | None => Ok (B64.lit 0 0)
  | Some level_data =>
      let multiplier := (default ("", B64.lit 1 0) (AcademicConfig.DEADLINES !! deadline)).2 in
      obind (float_mul (B64.mul (base_price level_data) multiplier) pages) (λ base_price,
      obind (float_mul (B64.lit 50 0) pages) (λ ceiling,
      Ok (py_min base_price ceiling)))
  end.

(** Nearest integer, ties to even, of [a * 2^e]. *)
Definition round_half_even_scaled (a e : Z) : Z :=
  if 0 <=? e then a * 2 ^ e
  else
    let d := 2 ^ (- e) in
    let q := a / d in
    let r := a mod d in
    if 2 * r <? d then q
    else if d <? 2 * r then q + 1
    else if Z.even q then q else q + 1.

Definition two_digits (n : Z) : string :=
  if n <? 10 then "0" +:+ pretty n else pretty n.

(** [f"{x:.2f}"] for a float: the exact binary value, correctly rounded to
    two decimals. *)
Definition format_2f (x : spec_float) : string :=
  match x with
  | S754_nan => "nan"
  | S754_infinity s => if s then "-inf" else "inf"
  | S754_zero s => if s then "-0.00" else "0.00"
  | S754_finite s m e =>
      let n := round_half_even_scaled (Z.pos m * 100) e in
      (if s then "-" else "") +:+ pretty (n / 100) +:+ "." +:+ two_digits (n mod 100)
  end.

(** [format_price(price)]: an [int] is converted to a float by the format
    code, a [str] has no format code [f]. *)
Definition format_price (price : value) : outcome string :=
  match price with
  | VFloat f => Ok (format_2f f +:+ "€")
  | VInt z => obind (B64.of_int z) (λ f, Ok (format_2f f +:+ "€"))
  | VStr _ => Raise ValueError
  end.

End Utils.

(** The multiplier [calculate_price] applies for a deadline key. *)
Definition multiplier_of (D : string) : spec_float :=
  (default ("", B64.lit 1 0) (AcademicConfig.DEADLINES !! D)).2.

(** ** Python string builtins used by the handlers

    A text is the UTF-8 encoding of the Python string: [chars] cuts it into
    its characters and [code_point] decodes one.  [str.strip] and [int]
    consult the Unicode character database for every character; [whitespace]
    and [decimal_zeros] are its white space and its decimal digits in
    CPython 3.11 (Unicode 14.0.0).  [lower] is only compared with an ASCII
    word without [i] or [k], the two ASCII letters that a character outside
    ASCII lower-cases to, so that ASCII lower-casing decides the
    comparison. *)

Module PyStr.

(** A byte [10xxxxxx] continues the character before it. *)
Definition is_continuation (a : ascii) : bool :=
  let n := nat_of_ascii a in ((128 <=? n) && (n <=? 191))%nat.

Definition continues (c : string) : bool :=
  match c with
  | String b _ => is_continuation b
  | EmptyString => false
  end.

(** The characters of a text, each with its continuation bytes. *)
Fixpoint chars (s : string) : list string :=
  match s with
  | EmptyString => []
  | String a s' =>
      match chars s' with
      | c :: cs =>
          if continues c then String a c :: cs
          else String a EmptyString :: c :: cs
      | [] => [String a EmptyString]
      end
  end.

(** [ord(c)] of one character. *)
Definition code_point (c : string) : option N :=
  let tail (a : ascii) : N := (N_of_ascii a - 128)%N in
  match c with
  | String a EmptyString =>
      let n := N_of_ascii a in
      if (n <? 128)%N then Some n else None
  | String a (String b EmptyString) =>
      let n := N_of_ascii a in
      if ((194 <=? n) && (n <? 224))%N
      then Some ((n - 192) * 64 + tail b)%N else None
  | String a (String b (String c EmptyString)) =>
      let n := N_of_ascii a in
      if ((224 <=? n) && (n <? 240))%N
      then Some ((n - 224) * 4096 + tail b * 64 + tail c)%N else None
  | String a (String b (String c (String d EmptyString))) =>
      let n := N_of_ascii a in
      if ((240 <=? n) && (n <? 245))%N
      then Some ((n - 240) * 262144 + tail b * 4096 + tail c * 64 + tail d)%N
      else None
  | _ => None
  end.

(** [str.isspace] of a code point: the white space of the Unicode character
    database (bidirectional type WS, B or S, or category Zs). *)
Definition whitespace : list (N * N) :=
  [ (9, 13); (28, 32); (133, 133); (160, 160); (5760, 5760); (8192, 8202);
    (8232, 8233); (8239, 8239); (8287, 8287); (12288, 12288) ]%N.

Definition is_space (cp : N) : bool :=
  existsb (λ r, (r.1 <=? cp) && (cp <=? r.2))%N whitespace.

(** The digit zero of every script with decimal digits (category Nd); the
    digits 1 to 9 of the script follow it. *)
Definition decimal_zeros : list N :=
  [ 48; 1632; 1776; 1984; 2406; 2534; 2662; 2790; 2918; 3046; 3174; 3302;
    3430; 3558; 3664; 3792; 3872; 4160; 4240; 6112; 6160; 6470; 6608; 6784;
    6800; 6992; 7088; 7232; 7248; 42528; 43216; 43264; 43472; 43504; 43600;
    44016; 65296; 66720; 68912; 69734; 69872; 69942; 70096; 70384; 70736;
    70864; 71248; 71360; 71472; 71904; 72016; 72784; 73040; 73120; 92768;
    92864; 93008; 120782; 120792; 120802; 120812; 120822; 123200; 123632;
    125264; 130032 ]%N.

(** [unicodedata.decimal] of a code point. *)
Definition decimal (cp : N) : option N :=
  (λ zero, cp - zero)%N
    <$> List.find (λ zero, (zero <=? cp) && (cp <? zero + 10))%N decimal_zeros.

Definition is_space_char (c : string) : bool :=
  match code_point c with
  | Some cp => is_space cp
  | None => false
  end.

Fixpoint lstrip (cs : list string) : list string :=
  match cs with
  | c :: cs' => if is_space_char c then lstrip cs' else cs
  | [] => []
  end.

Definition rstrip (cs : list string) : list string := rev (lstrip (rev cs)).

(** [s.strip()] *)
Definition strip (s : string) : string :=
  String.concat "" (rstrip (lstrip (chars s))).

(** What [int] reads in place of a character: an ASCII character stands for
    itself, any other white space for a blank and any other decimal digit
    for its ASCII digit; no other character is read. *)
Definition to_ascii (c : string) : option ascii :=
  match code_point c with
  | Some cp =>
      if (cp <? 127)%N then Some (ascii_of_N cp)
      else if is_space cp then Some " "%char
      else (λ d, ascii_of_N (48 + d)) <$> decimal cp
  | None => None
  end.

(** The blanks [int] skips around the numeral (C [isspace]). *)
Definition is_blank (a : ascii) : bool :=
  let n := nat_of_ascii a in ((9 <=? n) && (n <=? 13) || (n =? 32))%nat.

Fixpoint skip_blanks (s : string) : string :=
  match s with
  | String a s' => if is_blank a then skip_blanks s' else s
  | EmptyString => EmptyString
  end.

Fixpoint drop_blanks (s : string) : string :=
  match s with
  | String a s' =>
      match drop_blanks s' with
      | EmptyString => if is_blank a then EmptyString else String a EmptyString
      | r => String a r
      end
  | EmptyString => EmptyString
  end.

Definition is_digit (a : ascii) : bool :=
  let n := nat_of_ascii a in ((48 <=? n) && (n <=? 57))%nat.

Definition digit_val (a : ascii) : Z := Z.of_nat (nat_of_ascii a) - 48.

(** Digits with single underscores between them. *)
Fixpoint digits (acc : Z) (after_digit : bool) (s : string) : option Z :=
  match s with
  | EmptyString => if after_digit then Some acc else None
  | String a s' =>
      if is_digit a then digits (10 * acc + digit_val a) true s'
      else if Ascii.eqb a "_"%char then
        if after_digit then digits acc false s' else None
      else None
  end.

Fixpoint count_digits (s : string) : N :=
  match s with
  | String a s' => ((if is_digit a then 1 else 0) + count_digits s')%N
  | EmptyString => 0%N
  end.

(** [sys.int_info.default_max_str_digits] *)
Definition max_str_digits : N := 4300.

(** [int(s)]: [ValueError] unless [s] is an optionally signed decimal
    numeral of at most [max_str_digits] digits, surrounded by optional white
    space. *)
Definition int (s : string) : outcome Z :=
  let parsed :=
    numeral ← drop_blanks ∘ skip_blanks ∘ string_of_list_ascii
              <$> mapM to_ascii (chars s);
    if (max_str_digits <? count_digits numeral)%N then None
    else
      match numeral with
      | String "+"%char s' => digits 0 false s'
      | String "-"%char s' => Z.opp <$> digits 0 false s'
      | s' => digits 0 false s'
      end in
  match parsed with
  | Some z => Ok z
  | None => Raise ValueError
  end.

(** [s.startswith(p)] *)
Definition startswith (s p : string) : bool := String.prefix p s.

(** [s.replace(old, "")] for a non-empty [old]: every non-overlapping
    occurrence, found left to right, is removed.  [skip] counts the
    characters of the current occurrence still to drop. *)
Fixpoint remove_all_from (old : string) (skip : nat) (s : string) : string :=
  match s with
  | EmptyString => EmptyString
  | String a s' =>
      match skip with
      | S k => remove_all_from old k s'
      | O =>
          if String.prefix old s
          then remove_all_from old (String.length old - 1) s'
          else String a (remove_all_from old 0 s')
      end
  end.

Definition remove_all (s old : string) : string := remove_all_from old 0 s.

(** [s[:n]]: the first [n] characters. *)
Fixpoint take_chars (n : nat) (s : string) : string :=
  match s with
  | EmptyString => EmptyString
  | String a s' =>
      if is_continuation a then String a (take_chars n s')
      else
        match n with
        | O => EmptyString
        | S k => String a (take_chars k s')
        end
  end.

(** ASCII lower-casing; enough to decide equality with an ASCII word. *)
Definition lower_ascii (a : ascii) : ascii :=
  let n := nat_of_ascii a in
  if ((65 <=? n) && (n <=? 90))%nat then ascii_of_nat (n + 32) else a.

Fixpoint lower (s : string) : string :=
  match s with
  | EmptyString => EmptyString
  | String a s' => String (lower_ascii a) (lower s')
  end.

End PyStr.

(** ** Sessions *)

Record FileEntry := {
  file_id : string;
  file_name : string;
  file_size : Z;
  uploaded_at : Z
}.

Record UserSession := {
  user_id : Z;
  step : string;
  data : gmap string value;
  created_at : Z;
  last_activity : Z;
  files : list FileEntry
}.

Definition set_step (st : string) (s : UserSession) : UserSession :=
  {| user_id := user_id s; step := st; data := data s;
     created_at := created_at s; last_activity := last_activity s;
     files := files s |}.

Definition set_data (d : gmap string value) (s : UserSession) : UserSession :=
  {| user_id := user_id s; step := step s; data := d;
     created_at := created_at s; last_activity := last_activity s;
     files := files s |}.

Definition set_last_activity (t : Z) (s : UserSession) : UserSession :=
  {| user_id := user_id s; step := step s; data := data s;
     created_at := created_at s; last_activity := t;
     files := files s |}.

Definition set_files (fs : list FileEntry) (s : UserSession) : UserSession :=
  {| user_id := user_id s; step := step s; data := data s;
     created_at := created_at s; last_activity := last_activity s;
     files := fs |}.

(** A location names a session object; objects are never freed, a session
    removed from the store simply stops being referenced by it. *)
Abbreviation loc := nat (only parsing).

(** ** Transport: events in, messages out *)

Record User := {
  uid : Z;
  username : option string
}.

Record Document := {
  doc_file_id : string;
  doc_file_name : option string;
  doc_file_size : option Z
}.

Record PhotoSize := {
  photo_file_id : string;
  photo_file_size : option Z
}.

(** The attachment part of a message: [message.document] and
    [message.photo]. *)
Record Attachment := {
  document : option Document;
  photo : list PhotoSize
}.

Inductive event :=
| CmdStart (u : User)
| CmdMenu (u : User)
| CmdReply (u : User) (args : list string)
| CallbackQuery (u : User) (query_data : string)
| FileMessage (u : User) (att : Attachment)
| TextMessage (u : User) (text : string).

(** Outbound content.  A constructor stands for one message template of the
    source and carries the values interpolated into it. *)
Inductive reply :=
| WelcomeText
| MenuText
| PricingText
| InfoText
| OrderSubjectPrompt
| SupportPrompt
| TemporaryError
| SupportToAdmin (thread_id : string) (username : string) (user : Z) (text : string)
| SupportConfirmation (thread_id : string)
| SupportSendError
| UnexpectedFile
| FileLimitReached
| UnsupportedFileType
| FileTooLarge
| FileAdded (fname : string) (fsize : Z) (files_count : nat)
| FileUploadError
| ReplyUsage
| AdminAnswer (text : string)
| ReplySent (user : Z)
| InvalidUserId
| ReplyError
| PagesPrompt (level : AcademicLevel)
| InstructionsPrompt
| SessionExpired
| SummaryText (subject : value) (level : AcademicLevel) (pages : option value)
    (deadline_label : string) (instructions : string) (files_count : nat)
    (price : string)
| CryptoChoice
| TransferInstructions (order_number : string) (price : string)
| CryptoInstructions (c : AcademicConfig.crypto) (order_number : string) (price : string)
| AdminNotification (order_number : string) (username : string) (user : Z)
    (subject : option value) (level_name : string) (pages : option value)
    (deadline_label : string) (price : string) (payment_type : string)
    (files_count : nat) (instructions : option string)
| AdminDocument (fid : string) (index : nat) (files_count : nat)
    (order_number : string) (fname : string)
| LostNavigation
| SubjectConfirmation (text : string)
| PagesConfirmation (pages : Z)
| PagesFormatError
| FilesPrompt
| TextError.

(** ** The world: session store, heap of session objects, oracles' counters *)

Record World := {
  heap : list UserSession;
  sessions : gmap Z nat;
  ticks : nat;
  sent : nat;
  tokens : nat;
  outbox : list (Z * reply)
}.

Definition initial_world : World :=
  {| heap := []; sessions := ∅; ticks := 0; sent := 0; tokens := 0; outbox := [] |}.

Definition set_heap (h : list UserSession) (w : World) : World :=
  {| heap := h; sessions := sessions w; ticks := ticks w; sent := sent w;
     tokens := tokens w; outbox := outbox w |}.

Definition set_sessions (m : gmap Z nat) (w : World) : World :=
  {| heap := heap w; sessions := m; ticks := ticks w; sent := sent w;
     tokens := tokens w; outbox := outbox w |}.

(** ** The monad of handlers: state and exceptions *)

Definition M (A : Type) : Type := World → outcome A * World.

Definition ret {A} (a : A) : M A := λ w, (Ok a, w).

Definition raise {A} (e : exn) : M A := λ w, (Raise e, w).

Definition bind {A B} (m : M A) (k : A → M B) : M B :=
  λ w, match m w with
       | (Ok a, w') => k a w'
       | (Raise e, w') => (Raise e, w')
       end.

Definition lift {A} (o : outcome A) : M A := λ w, (o, w).

(** [try: body except Exception: handler] *)
Definition try_except {A} (body : M A) (handler : M A) : M A :=
  λ w, match body w with
       | (Ok a, w') => (Ok a, w')
       | (Raise _, w') => handler w'
       end.

(** [try: body except ValueError: on_value except Exception: on_other]; an
    exception raised by one clause is not caught by the other. *)
Definition try_except_clauses {A} (body : M A) (on_value on_other : M A) : M A :=
  λ w, match body w with
       | (Ok a, w') => (Ok a, w')
       | (Raise ValueError, w') => on_value w'
       | (Raise _, w') => on_other w'
       end.

(** [try: body except ValueError: handler] *)
Definition try_except_ValueError {A} (body : M A) (handler : M A) : M A :=
  λ w, match body w with
       | (Raise ValueError, w') => handler w'
       | r => r
       end.

Notation "'let*' x ':=' m 'in' k" := (bind m (λ x, k))
  (at level 10, x pattern, m at level 100, k at level 200).
Notation "m ';;' k" := (bind m (λ _, k))
  (at level 100, k at level 200, right associativity).

Section Bot.

(** The readings [datetime.now()] returns, in microseconds, in call order. *)
Variable clock : nat → Z.
(** Whether the n-th call to the messaging API succeeds. *)
Variable transport_ok : nat → bool.
(** The n-th value of [secrets.token_hex(4).upper()]. *)
Variable token_hex : nat → string.
(** [hashlib.md5(f"{user_id}_{date}").hexdigest()[:8]], for the date of a
    clock reading. *)
Variable thread_ref : Z → Z → string.
(** [Config.ADMIN_ID], read from the environment at start-up. *)
Variable ADMIN_ID : Z.

(** [datetime.now()] *)
Definition now : M Z :=
  λ w, (Ok (clock (ticks w)),
        {| heap := heap w; sessions := sessions w; ticks := S (ticks w);
           sent := sent w; tokens := tokens w; outbox := outbox w |}).

(** One call to the messaging API delivering [r] to chat [target]. *)
Definition send (target : Z) (r : reply) : M unit :=
  λ w, if transport_ok (sent w)
       then (Ok (),
             {| heap := heap w; sessions := sessions w; ticks := ticks w;
                sent := S (sent w); tokens := tokens w;
                outbox := outbox w ++ [(target, r)] |})
       else (Raise TransportError,
             {| heap := heap w; sessions := sessions w; ticks := ticks w;
                sent := S (sent w); tokens := tokens w; outbox := outbox w |}).

(** [query.answer()]: an API call that delivers no content. *)
Definition answer : M unit :=
  λ w, let w' := {| heap := heap w; sessions := sessions w; ticks := ticks w;
                    sent := S (sent w); tokens := tokens w; outbox := outbox w |} in
       if transport_ok (sent w) then (Ok (), w') else (Raise TransportError, w').

Definition next_token : M string :=
  λ w, (Ok (token_hex (tokens w)),
        {| heap := heap w; sessions := sessions w; ticks := ticks w;
           sent := sent w; tokens := S (tokens w); outbox := outbox w |}).

(** Reading and writing the object at a location.  Locations handed out by
    the store always name an object; reading any other raises. *)
Definition read (l : loc) : M UserSession :=
  λ w, match heap w !! l with
       | Some s => (Ok s, w)
       | None => (Raise AttributeError, w)
       end.

Definition modify (l : loc) (f : UserSession → UserSession) : M unit :=
  λ w, (Ok (), set_heap (alter f l (heap w)) w).

Definition alloc (s : UserSession) : M loc :=
  λ w, (Ok (length (heap w)), set_heap (heap w ++ [s]) w).

Definition get_sessions : M (gmap Z nat) := λ w, (Ok (sessions w), w).

Definition put_sessions (m : gmap Z nat) : M unit :=
  λ w, (Ok (), set_sessions m w).

(** *** UserSession.add_file *)

Definition add_file (self : loc) (fid fname : string) (fsize : Z) : M bool :=
  let* s := read self in
  if (length (files s) <? Config.MAX_FILES_PER_ORDER)%nat then
    let* t := now in
    modify self (λ s, set_files (files s ++
      [{| file_id := fid; file_name := fname; file_size := fsize;
          uploaded_at := t |}]) s);;
    ret true
  else ret false.

(** *** SessionManager *)

(** [now - session.last_activity > timedelta(seconds=SESSION_TIMEOUT)] *)
Definition expired (t : Z) (s : UserSession) : bool :=
  Config.SESSION_TIMEOUT * 1000000 <? t - last_activity s.

Definition expired_at (h : list UserSession) (t : Z) (l : loc) : bool :=
  match h !! l with
  | Some s => expired t s
  | None => false
  end.

Definition cleanup_old_sessions : M unit :=
  let* t := now in
  λ w, (Ok (),
        set_sessions
          (filter (λ kv, expired_at (heap w) t kv.2 = false) (sessions w)) w).

Definition get_session (user : Z) : M (option loc) :=
  let* m := get_sessions in
  (if (Config.MAX_SESSIONS <? size m)%nat then cleanup_old_sessions else ret ());;
  let* m := get_sessions in
  match m !! user with
  | Some l =>
      let* t := now in
      modify l (set_last_activity t);;
      ret (Some l)
  | None => ret None
  end.

Definition create_session (user : Z) (st : string) : M loc :=
  let* t1 := now in
  let* t2 := now in
  let* l := alloc {| user_id := user; step := st; data := ∅;
                     created_at := t1; last_activity := t2; files := [] |} in
  let* m := get_sessions in
  put_sessions (<[user := l]> m);;
  ret l.

(** Truth value of an optional string / an optional dictionary. *)
Definition truthy_str (s : option string) : option string :=
  match s with
  | Some EmptyString | None => None
  | Some s => Some s
  end.

Definition truthy_dict (d : option (gmap string value)) : option (gmap string value) :=
  match d with
  | Some d => if decide (d = ∅) then None else Some d
  | None => None
  end.

Definition update_session (user : Z) (st : option string)
    (patch : option (gmap string value)) : M unit :=
  let* found := get_session user in
  let* l := match found with
            | Some l => ret l
            | None => create_session user "menu"
            end in
  match truthy_str st with
  | Some st => modify l (set_step st)
  | None => ret ()
  end;;
  match truthy_dict patch with
  | Some d => modify l (λ s, set_data (d ∪ data s) s)
  | None => ret ()
  end;;
  let* t := now in
  modify l (set_last_activity t).

Definition clear_session (user : Z) : M unit :=
  let* m := get_sessions in
  put_sessions (delete user m).

(** [session.data.get(key)] on a possibly absent session. *)
Definition data_get (session : option loc) (key : string) : M (option value) :=
  match session with
  | Some l => let* s := read l in ret (data s !! key)
  | None => raise AttributeError
  end.

(** *** Handlers *)

Definition start_command (u : User) : M unit :=
  send (uid u) WelcomeText.

Definition main_menu (u : User) : M unit :=
  clear_session (uid u);;
  send (uid u) MenuText.

Definition pricing_display (u : User) : M unit :=
  send (uid u) PricingText.

Definition info_display (u : User) : M unit :=
  send (uid u) InfoText.

Definition start_order_flow (u : User) : M unit :=
  create_session (uid u) "order_subject";;
  send (uid u) OrderSubjectPrompt.

Definition support_interface (u : User) : M unit :=
  update_session (uid u) (Some "support") None;;
  send (uid u) SupportPrompt.

Definition handle_level_selection (u : User) (query_data : string) : M unit :=
  let level_key := PyStr.remove_all query_data "level_" in
  update_session (uid u) (Some "order_pages") (Some {[ "level" := VStr level_key ]});;
  match AcademicConfig.LEVELS !! level_key with
  | None => raise KeyError
  | Some level => send (uid u) (PagesPrompt level)
  end.

Definition handle_deadline_selection (u : User) (query_data : string) : M unit :=
  let deadline_key := PyStr.remove_all query_data "deadline_" in
  let* session := get_session (uid u) in
  update_session (uid u) (Some "order_instructions")
    (Some {[ "deadline" := VStr deadline_key ]});;
  let* level := data_get session "level" in
  let* pages := data_get session "pages" in
  let* final_price :=
    lift (Utils.calculate_price level deadline_key (default (VInt 1) pages)) in
  update_session (uid u) None (Some {[ "final_price" := VFloat final_price ]});;
  send (uid u) InstructionsPrompt.

(** [d.get(key, dflt)[:50]]: only a string can be sliced. *)
Definition first_50 (v : value) : outcome string :=
  match v with
  | VStr s => Ok (PyStr.take_chars 50 s)
  | _ => Raise TypeError
  end.

Definition catalog_level (k : option value) : outcome AcademicLevel :=
  match AcademicConfig.LEVELS_get k with
  | Some level => Ok level
  | None => Raise KeyError
  end.

Definition catalog_deadline_label (k : option value) : outcome string :=
  match AcademicConfig.DEADLINES_get k with
  | Some d => Ok d.1
  | None => Raise KeyError
  end.

Definition display_order_summary (u : User) : M unit :=
  let* session := get_session (uid u) in
  match session with
  | None => send (uid u) SessionExpired
  | Some l =>
      let* s := read l in
      let* level := lift (catalog_level (data s !! "level")) in
      let* deadline_label := lift (catalog_deadline_label (data s !! "deadline")) in
      let files_count := length (files s) in
      let* instructions :=
        lift (first_50 (default (VStr "Aucune") (data s !! "instructions_text"))) in
      let* price :=
        lift (Utils.format_price (default (VInt 0) (data s !! "final_price"))) in
      send (uid u)
        (SummaryText (default (VStr "Non défini") (data s !! "subject")) level
           (data s !! "pages") deadline_label instructions files_count price)
  end.

(** [text and text.lower() != 'aucune'] as the condition for quoting the
    instructions to the operator. *)
Definition quoted_instructions (v : option value) : outcome (option string) :=
  match v with
  | None | Some (VStr EmptyString) | Some (VInt 0) => Ok None
  | Some (VStr s) =>
      Ok (if String.eqb (PyStr.lower s) "aucune" then None else Some s)
  | Some (VFloat f) =>
      match f with
      | S754_zero _ => Ok None
      | _ => Raise AttributeError
      end
  | Some (VInt _) => Raise AttributeError
  end.

Fixpoint send_documents (order_number : string) (files_count : nat)
    (index : nat) (fs : list FileEntry) : M unit :=
  match fs with
  | [] => ret ()
  | f :: fs' =>
      try_except
        (send ADMIN_ID
           (AdminDocument (file_id f) index files_count order_number (file_name f)))
        (ret ());;
      send_documents order_number files_count (S index) fs'
  end.

Definition send_admin_notification (u : User) (session : loc)
    (order_number payment_type : string) : M unit :=
  try_except
    (let* s := read session in
     let* level := lift (catalog_level (data s !! "level")) in
     let* deadline_label := lift (catalog_deadline_label (data s !! "deadline")) in
     let files_count := length (files s) in
     let* price :=
       lift (Utils.format_price (default (VInt 0) (data s !! "final_price"))) in
     let* instructions := lift (quoted_instructions (data s !! "instructions_text")) in
     send ADMIN_ID
       (AdminNotification order_number
          (default "Sans username" (truthy_str (username u))) (uid u)
          (data s !! "subject") (name level) (data s !! "pages") deadline_label
          price payment_type files_count instructions);;
     send_documents order_number files_count 1 (files s))
    (ret ()).

Definition send_payment_info (u : User) (payment_type : string) : M unit :=
  let* session := get_session (uid u) in
  match session with
  | None => ret ()
  | Some l =>
      let* hex := next_token in
      let order_number := "EDU" +:+ hex in
      let* s := read l in
      let* payment_text :=
        if String.eqb payment_type "transfer" then
          let* price :=
            lift (Utils.format_price (default (VInt 0) (data s !! "final_price"))) in
          ret (TransferInstructions order_number price)
        else
          match AcademicConfig.CRYPTO !! payment_type with
          | None => raise KeyError
          | Some crypto_config =>
              let* price :=
                lift (Utils.format_price (default (VInt 0) (data s !! "final_price"))) in
              ret (CryptoInstructions crypto_config order_number price)
          end in
      send (uid u) payment_text;;
      send_admin_notification u l order_number payment_type;;
      clear_session (uid u)
  end.

Definition handle_payment_transfer (u : User) : M unit :=
  send_payment_info u "transfer".

Definition handle_payment_crypto (u : User) : M unit :=
  send (uid u) CryptoChoice.

Definition handle_crypto_selection (u : User) (query_data : string) : M unit :=
  send_payment_info u (PyStr.remove_all query_data "crypto_").

Definition button_handler (u : User) (query_data : string) : M unit :=
  answer;;
  try_except
    (if String.eqb query_data "menu" then main_menu u
     else if String.eqb query_data "back" then main_menu u
     else if String.eqb query_data "new_order" then start_order_flow u
     else if String.eqb query_data "pricing" then pricing_display u
     else if String.eqb query_data "info" then info_display u
     else if String.eqb query_data "support" then support_interface u
     else if PyStr.startswith query_data "level_" then handle_level_selection u query_data
     else if PyStr.startswith query_data "deadline_" then handle_deadline_selection u query_data
     else if String.eqb query_data "order_summary" then display_order_summary u
     else if String.eqb query_data "payment_transfer" then handle_payment_transfer u
     else if String.eqb query_data "payment_crypto" then handle_payment_crypto u
     else if PyStr.startswith query_data "crypto_" then handle_crypto_selection u query_data
     else if String.eqb query_data "skip_files" then display_order_summary u
     else ret ())
    (send (uid u) TemporaryError).

Definition handle_support_message (u : User) (message_text : string) : M unit :=
  let* t := now in
  let thread_id := thread_ref (uid u) t in
  try_except
    (send ADMIN_ID
       (SupportToAdmin thread_id (default "Utilisateur" (truthy_str (username u)))
          (uid u) message_text);;
     send (uid u) (SupportConfirmation thread_id);;
     clear_session (uid u))
    (send (uid u) SupportSendError).

Definition or_default {A} (x : option A) (falsy : A → bool) (dflt : A) : A :=
  match x with
  | Some a => if falsy a then dflt else a
  | None => dflt
  end.

Definition file_handler (u : User) (att : Attachment) : M unit :=
  let* session := get_session (uid u) in
  let* at_files :=
    match session with
    | None => ret None
    | Some l =>
        let* s := read l in
        ret (if String.eqb (step s) "order_files" then Some l else None)
    end in
  match at_files with
  | None => send (uid u) UnexpectedFile
  | Some l =>
      let* s := read l in
      if (Config.MAX_FILES_PER_ORDER <=? length (files s))%nat then
        send (uid u) FileLimitReached
      else
        try_except
          (let chosen :=
             match document att with
             | Some d =>
                 Some (doc_file_id d,
                       or_default (doc_file_name d) (String.eqb "") "document",
                       or_default (doc_file_size d) (Z.eqb 0) 0)
             | None =>
                 match last (photo att) with
                 | Some ph =>
                     Some (photo_file_id ph,
                           "image_" +:+ pretty (length (files s) + 1)%nat +:+ ".jpg",
                           or_default (photo_file_size ph) (Z.eqb 0) 0)
                 | None => None
                 end
             end in
           match chosen with
           | None => send (uid u) UnsupportedFileType
           | Some (fid, fname, fsize) =>
               if 20 * 1024 * 1024 <? fsize then send (uid u) FileTooLarge
               else
                 let* added := add_file l fid fname fsize in
                 if added : bool then
                   let* s' := read l in
                   send (uid u) (FileAdded fname fsize (length (files s')))
                 else ret ()
           end)
          (send (uid u) FileUploadError)
  end.

Definition admin_reply (u : User) (args : list string) : M unit :=
  if negb (uid u =? ADMIN_ID) then ret ()
  else
    try_except_clauses
      (match args with
       | a0 :: _ :: _ =>
           let* target := lift (PyStr.int a0) in
           let admin_message := String.concat " " (tail args) in
           send target (AdminAnswer admin_message);;
           send (uid u) (ReplySent target)
       | _ => send (uid u) ReplyUsage
       end)
      (send (uid u) InvalidUserId)
      (send (uid u) ReplyError).

Definition text_handler (u : User) (message_text : string) : M unit :=
  let* session := get_session (uid u) in
  match session with
  | None => send (uid u) LostNavigation
  | Some l =>
      try_except
        (let* s := read l in
         let st := step s in
         if String.eqb st "order_subject" then
           update_session (uid u) (Some "order_level")
             (Some {[ "subject" := VStr message_text ]});;
           send (uid u) (SubjectConfirmation message_text)
         else if String.eqb st "order_pages" then
           try_except_ValueError
             (let* pages := lift (PyStr.int (PyStr.strip message_text)) in
              (if (pages <=? 0) || (50 <? pages) then raise ValueError else ret ());;
              update_session (uid u) (Some "order_deadline")
                (Some {[ "pages" := VInt pages ]});;
              send (uid u) (PagesConfirmation pages))
             (send (uid u) PagesFormatError)
         else if String.eqb st "order_instructions" then
           update_session (uid u) (Some "order_files")
             (Some {[ "instructions_text" := VStr message_text ]});;
           send (uid u) FilesPrompt
         else if String.eqb st "support" then
           handle_support_message u message_text
         else ret ())
        (send (uid u) TextError)
  end.

(** The application's handler table. *)
Definition handle (ev : event) : M unit :=
  match ev with
  | CmdStart u => start_command u
  | CmdMenu u => main_menu u
  | CmdReply u args => admin_reply u args
  | CallbackQuery u d => button_handler u d
  | FileMessage u att => file_handler u att
  | TextMessage u text => text_handler u text
  end.

(** The world after an event: an exception that escapes a handler is logged
    by the framework, the changes made so far stay. *)
Definition after (ev : event) (w : World) : World := (handle ev w).2.

Fixpoint run (evs : list event) (w : World) : World :=
  match evs with
  | [] => w
  | ev :: evs' => run evs' (after ev w)
  end.

End Bot.

(** ** Vocabulary of the statements *)

Definition TIMEOUT_us : Z := Config.SESSION_TIMEOUT * 1000000.

(** The store after the sweep that [get_session] runs when over capacity. *)
Definition swept (clock : nat → Z) (w : World) : World :=
  if (Config.MAX_SESSIONS <? size (sessions w))%nat
  then (cleanup_old_sessions clock w).2
  else w.

(** No reading in the window of the next [n] readings is more than the
    timeout after an earlier one. *)
Definition steady (clock : nat → Z) (w : World) (n : nat) : Prop :=
  ∀ i j : nat, (ticks w ≤ i)%nat → (i ≤ j)%nat → (j < ticks w + n)%nat →
               clock j - clock i ≤ TIMEOUT_us.

(** The session [s] is not past the timeout at any of the next [n]
    readings. *)
Definition unexpired (clock : nat → Z) (w : World) (s : UserSession) (n : nat) : Prop :=
  ∀ j : nat, (ticks w ≤ j)%nat → (j < ticks w + n)%nat →
             clock j - last_activity s ≤ TIMEOUT_us.

(** The session [s] is not evicted by a sweep during the next [n] readings:
    either the store is within capacity, so that no sweep runs, or the
    session is recent enough and the clock is steady. *)
Definition live (clock : nat → Z) (w : World) (s : UserSession) (n : nat) : Prop :=
  (size (sessions w) ≤ Config.MAX_SESSIONS)%nat
  ∨ (unexpired clock w s n ∧ steady clock w n).

(** Two worlds with the same transport and token history. *)
Definition same_io (w w' : World) : Prop :=
  sent w' = sent w ∧ tokens w' = tokens w ∧ outbox w' = outbox w.

(** What [update_session] does to the session object, the stamp apart. *)
Definition stepped (st : option string) (s : UserSession) : UserSession :=
  match truthy_str st with
  | Some st => set_step st s
  | None => s
  end.

Definition patched (patch : option (gmap string value)) (s : UserSession) : UserSession :=
  match truthy_dict patch with
  | Some d => set_data (d ∪ data s) s
  | None => s
  end.

(** A computation that only talks to the transport leaves the store, the
    heap and the clock alone. *)
Definition io_only {A} (m : M A) : Prop :=
  ∀ w, heap (m w).2 = heap w ∧ sessions (m w).2 = sessions w
       ∧ ticks (m w).2 = ticks w.

(** A computation under which messages only accumulate. *)
Definition appends {A} (m : M A) : Prop :=
  ∀ w, ∃ rest, outbox (m w).2 = (outbox w ++ rest)%list.

(** How the page-count step rejects a text: the corrective message, then, if
    that send fails, the handler's generic error message. *)
Definition reject_pages (transport_ok : nat → bool) (u : User) : M unit :=
  try_except (send transport_ok (uid u) PagesFormatError)
             (send transport_ok (uid u) TextError).

(** A computation that keeps the heap property [P]. *)
Definition keeps (P : list UserSession → Prop) {A} (m : M A) : Prop :=
  ∀ w, P (heap w) → P (heap (m w).2).

(** A button press that reaches the deadline handler. *)
Definition is_deadline_press (ev : event) : bool :=
  match ev with
  | CallbackQuery _ d => PyStr.startswith d "deadline_"
  | _ => false
  end.

Definition within_cap (s : UserSession) : Prop :=
  (length (files s) ≤ Config.MAX_FILES_PER_ORDER)%nat.

(** The [final_price] entries of the objects of [h0] are those of the same
    objects in [h]. *)
Definition same_final_price (h0 h : list UserSession) : Prop :=
  ∀ l s, h0 !! l = Some s →
         ∃ s', h !! l = Some s' ∧ data s' !! "final_price" = data s !! "final_price".

(** The text [send_payment_info] shows for a payment type. *)
Definition payment_text (payment_type order_number price : string) : option reply :=
  if String.eqb payment_type "transfer"
  then Some (TransferInstructions order_number price)
  else (λ c, CryptoInstructions c order_number price)
         <$> AcademicConfig.CRYPTO !! payment_type.

(** The world once the callback query has been acknowledged. *)
Definition acked (w : World) : World :=
  {| heap := heap w; sessions := sessions w; ticks := ticks w;
     sent := S (sent w); tokens := tokens w; outbox := outbox w |}.

(** ** Concrete environments and worlds for the examples *)

Module Sample.

Definition clock (n : nat) : Z := Z.of_nat n.

(** A clock that starts more than the timeout after time 0. *)
Definition late_clock (n : nat) : Z := 1800000001 + Z.of_nat n.

Definition transport_up (n : nat) : bool := true.

Definition token_hex (n : nat) : string := "0A1B2C3D".

Definition thread_ref (user t : Z) : string := "5f4dcc3b".

Definition ADMIN_ID : Z := 1.

Definition alice : User := {| uid := 7; username := Some "alice" |}.

(** U+00A0 no-break space, U+200B zero width space (not white space) and
    U+001C file separator (white space for [str.strip], not for [int]). *)
Definition nbsp : string := String (ascii_of_nat 194) (String (ascii_of_nat 160) "").

Definition zwsp : string :=
  String (ascii_of_nat 226) (String (ascii_of_nat 128) (String (ascii_of_nat 139) "")).

Definition file_separator : string := String (ascii_of_nat 28) "".

(** Alice's session object at a given step, last active at time 0. *)
Definition session_at (st : string) (d : gmap string value) (fs : list FileEntry)
    : UserSession :=
  {| user_id := 7; step := st; data := d; created_at := 0; last_activity := 0;
     files := fs |}.

(** A store holding that one session. *)
Definition world_with (s : UserSession) : World :=
  {| heap := [s]; sessions := {[ 7 := 0%nat ]}; ticks := 0; sent := 0;
     tokens := 0; outbox := [] |}.

Definition order_data : gmap string value :=
  <["pages" := VInt 2]> (<["level" := VStr "bachelor"]> {[ "subject" := VStr "X" ]}).

Definition at_level : UserSession :=
  session_at "order_level" {[ "subject" := VStr "X" ]} [].

Definition at_pages : UserSession :=
  session_at "order_pages"
    (<["level" := VStr "bachelor"]> {[ "subject" := VStr "X" ]}) [].

Definition at_deadline : UserSession := session_at "order_deadline" order_data [].

(** A session at the deadline step that never recorded a page count. *)
Definition no_pages : UserSession :=
  session_at "order_deadline"
    (<["level" := VStr "bachelor"]> {[ "subject" := VStr "X" ]}) [].

(** A store over capacity: 101 users, every session last active at time 0. *)
Definition crowd : World :=
  {| heap := (λ i : nat, {| user_id := Z.of_nat i; step := "menu"; data := ∅;
                            created_at := 0; last_activity := 0; files := [] |})
               <$> seq 0 101;
     sessions := list_to_map ((λ i : nat, (Z.of_nat i, i)) <$> seq 0 101);
     ticks := 0; sent := 0; tokens := 0; outbox := [] |}.

Definition photo_message : Attachment :=
  {| document := None;
     photo := [{| photo_file_id := "p"; photo_file_size := Some 2048 |}] |}.

(** An order from the first button to six uploaded photos. *)
Definition upload_session : list event :=
  [ CallbackQuery alice "new_order"; TextMessage alice "X";
    CallbackQuery alice "level_bachelor"; TextMessage alice "2";
    CallbackQuery alice "deadline_24h"; TextMessage alice "aucune";
    FileMessage alice photo_message; FileMessage alice photo_message;
    FileMessage alice photo_message; FileMessage alice photo_message;
    FileMessage alice photo_message; FileMessage alice photo_message ].

(** An order placed up to the files step, priced for the 24h deadline. *)
Definition order_placed : list event :=
  [ CallbackQuery alice "new_order"; TextMessage alice "X";
    CallbackQuery alice "level_bachelor"; TextMessage alice "2";
    CallbackQuery alice "deadline_24h"; TextMessage alice "aucune" ].

(** The session such an order leaves: at the files step, price 66.00. *)
Definition priced : UserSession :=
  session_at "order_files"
    (<["instructions_text" := VStr "aucune"]>
       (<["final_price" := VFloat (B64.lit 66 0)]>
          (<["deadline" := VStr "24h"]> order_data))) [].

End Sample.

(** ** Utils.format_file_size *)

(** [a / 2^k] for Python integers: the correctly rounded quotient, or
    [OverflowError] when it is too large for a float. *)
Definition true_div_pow2 (a k : Z) : outcome spec_float :=
  match binary_normalize B64.prec B64.emax a (- k) false with
  | S754_infinity _ => Raise OverflowError
  | f => Ok f
  end.

(** The decimal numeral of [n] tenths. *)
Definition tenths (n : Z) : string := pretty (n / 10) +:+ "." +:+ pretty (n mod 10).

(** [f"{x:.1f}"] for a float: the exact binary value, correctly rounded to
    one decimal. *)
Definition format_1f (x : spec_float) : string :=
  match x with
  | S754_nan => "nan"
  | S754_infinity s => if s then "-inf" else "inf"
  | S754_zero s => if s then "-0.0" else "0.0"
  | S754_finite s m e =>
      (if s then "-" else "")
      +:+ tenths (Utils.round_half_even_scaled (Z.pos m * 10) e)
  end.

Definition format_file_size (size_bytes : Z) : outcome string :=
  if size_bytes <? 1024 then Ok (pretty size_bytes +:+ " B")
  else if size_bytes <? 1024 ^ 2 then
    obind (true_div_pow2 size_bytes 10) (λ x, Ok (format_1f x +:+ " KB"))
  else
    obind (true_div_pow2 size_bytes 20) (λ x, Ok (format_1f x +:+ " MB")).

(** ** Vocabulary of the further properties *)

(** Every entry of the store names an object of the heap, and that object
    carries the user id it is stored under. *)
Definition well_formed (w : World) : Prop :=
  ∀ user l, sessions w !! user = Some l →
            ∃ s, heap w !! l = Some s ∧ user_id s = user.

(** The user an event comes from. *)
Definition sender (ev : event) : User :=
  match ev with
  | CmdStart u | CmdMenu u | CmdReply u _ | CallbackQuery u _
  | FileMessage u _ | TextMessage u _ => u
  end.

(** Whatever [w] holds for a user other than [me], [w0] held already: the
    same object, with the same content. *)
Definition others_untouched (me : Z) (w0 w : World) : Prop :=
  ∀ other l, other ≠ me → sessions w !! other = Some l →
             sessions w0 !! other = Some l ∧ heap w !! l = heap w0 !! l.

(** A computation that keeps the world property [I]. *)
Definition preserves (I : World → Prop) {A} (m : M A) : Prop :=
  ∀ w, I w → I (m w).2.

(** What [update_session] makes of a session object found in the store. *)
Definition updated (t : Z) (st : option string) (patch : option (gmap string value))
    (s : UserSession) : UserSession :=
  set_last_activity t (patched patch (stepped st s)).

(** Well-formedness together with the frame around the sender [me]. *)
Definition apart (me : Z) (w0 w : World) : Prop :=
  well_formed w ∧ others_untouched me w0 w.

(** A computation whose messages, if any, all go to [target], and which
    leaves the store and the heap alone. *)
Definition only_to (target : Z) {A} (m : M A) : Prop :=
  ∀ w, heap (m w).2 = heap w ∧ sessions (m w).2 = sessions w
       ∧ ∃ rest, outbox (m w).2 = (outbox w ++ rest)%list
                 ∧ Forall (λ x, x.1 = target) rest.

(** The transport delivers each of the next [n] calls. *)
Definition transport_up_for (transport_ok : nat → bool) (w : World) (n : nat) : Prop :=
  ∀ i, (i < n)%nat → transport_ok (sent w + i)%nat = true.

(** ** Inline keyboards

    [InlineKeyboardButton(text, callback_data=...)]; a keyboard is a list of
    rows of buttons. *)
Record InlineKeyboardButton := {
  button_text : string;
  callback_data : string
}.

Module UI.

Definition main_keyboard : list (list InlineKeyboardButton) :=
  [ [ {| button_text := "📝 Nouvelle commande"; callback_data := "new_order" |} ];
    [ {| button_text := "💰 Tarification"; callback_data := "pricing" |};
      {| button_text := "💬 Support"; callback_data := "support" |} ];
    [ {| button_text := "ℹ️ Informations"; callback_data := "info" |} ] ].

Definition back_keyboard : list (list InlineKeyboardButton) :=
  [ [ {| button_text := "← Retour"; callback_data := "back" |};
      {| button_text := "🏠 Menu"; callback_data := "menu" |} ] ].

Definition level_keyboard : list (list InlineKeyboardButton) :=
  ((λ kv : string * AcademicLevel,
      [ {| button_text := emoji kv.2 +:+ " " +:+ name kv.2;
           callback_data := "level_" +:+ kv.1 |} ])
     <$> AcademicConfig.LEVELS_list) ++ back_keyboard.

Definition deadline_keyboard : list (list InlineKeyboardButton) :=
  ((λ kv : string * (string * spec_float),
      [ {| button_text := kv.2.1; callback_data := "deadline_" +:+ kv.1 |} ])
     <$> AcademicConfig.DEADLINES_list) ++ back_keyboard.

Definition payment_keyboard : list (list InlineKeyboardButton) :=
  [ [ {| button_text := "🏦 Virement bancaire"; callback_data := "payment_transfer" |} ];
    [ {| button_text := "₿ Cryptomonnaie"; callback_data := "payment_crypto" |} ] ]
  ++ back_keyboard.

Definition crypto_keyboard : list (list InlineKeyboardButton) :=
  ((λ kv : string * AcademicConfig.crypto,
      [ {| button_text := AcademicConfig.crypto_emoji kv.2 +:+ " " +:+ kv.1;
           callback_data := "crypto_" +:+ kv.1 |} ])
     <$> AcademicConfig.CRYPTO_list) ++ back_keyboard.

End UI.

(** The one-button keyboard that leads back to the menu. *)
Definition menu_button : list (list InlineKeyboardButton) :=
  [ [ {| button_text := "🏠 Menu"; callback_data := "menu" |} ] ].

(** The [reply_markup] each message template is sent with; a template sent
    without one has no buttons. *)
Definition reply_markup (r : reply) : list (list InlineKeyboardButton) :=
  match r with
  | WelcomeText => [ [ {| button_text := "Accéder au service"; callback_data := "menu" |} ] ]
  | MenuText | LostNavigation => UI.main_keyboard
  | PricingText =>
      [ [ {| button_text := "📝 Passer commande"; callback_data := "new_order" |} ];
        [ {| button_text := "🏠 Menu"; callback_data := "menu" |} ] ]
  | InfoText =>
      [ [ {| button_text := "📝 Commencer"; callback_data := "new_order" |} ];
        [ {| button_text := "🏠 Menu"; callback_data := "menu" |} ] ]
  | OrderSubjectPrompt | PagesPrompt _ | InstructionsPrompt => UI.back_keyboard
  | SupportPrompt | TemporaryError | SupportConfirmation _ | UnexpectedFile
  | SessionExpired | TextError => menu_button
  | FileAdded _ _ _ =>
      [ [ {| button_text := "✅ Continuer vers le récapitulatif"; callback_data := "order_summary" |} ] ]
  | SummaryText _ _ _ _ _ _ _ => UI.payment_keyboard
  | CryptoChoice => UI.crypto_keyboard
  | TransferInstructions _ _ | CryptoInstructions _ _ _ =>
      [ [ {| button_text := "✅ Paiement effectué"; callback_data := "payment_done" |} ];
        [ {| button_text := "🏠 Menu"; callback_data := "menu" |} ] ]
  | SubjectConfirmation _ => UI.level_keyboard
  | PagesConfirmation _ => UI.deadline_keyboard
  | FilesPrompt =>
      [ {| button_text := "↩ Passer cette étape"; callback_data := "skip_files" |} ]
      :: take 1 UI.back_keyboard
  | SupportToAdmin _ _ _ _ | SupportSendError | FileLimitReached
  | UnsupportedFileType | FileTooLarge | FileUploadError | ReplyUsage
  | AdminAnswer _ | ReplySent _ | InvalidUserId | ReplyError
  | AdminNotification _ _ _ _ _ _ _ _ _ _ _ | AdminDocument _ _ _ _ _
  | PagesFormatError => []
  end.

(** A computation that neither calls the transport nor sends. *)
Definition quiet {A} (m : M A) : Prop :=
  ∀ w, sent (m w).2 = sent w ∧ outbox (m w).2 = outbox w.

(** The world [w'] holds a message to [user] that [w] did not hold yet. *)
Definition spoken (user : Z) (w w' : World) : Prop :=
  ∃ r rest, outbox w' = (outbox w ++ (user, r) :: rest)%list.

(** With the transport delivering its next call, the computation sends
    [user] a message, unless it raises before any call to the transport. *)
Definition speaks (transport_ok : nat → bool) (user : Z) {A} (m : M A) : Prop :=
  ∀ w, transport_ok (sent w) = true →
       match m w with
       | (Ok _, w') => spoken user w w'
       | (Raise _, w') =>
           (sent w' = sent w ∧ outbox w' = outbox w) ∨ spoken user w w'
       end.

(** The entries the handlers store in a session's [data], with the type of
    their values: texts, a page count from 1 to 50, a float. *)
Inductive well_typed_entry : string → value → Prop :=
| typed_subject (text : string) : well_typed_entry "subject" (VStr text)
| typed_level (key : string) : well_typed_entry "level" (VStr key)
| typed_pages (pages : Z) : 1 ≤ pages ≤ 50 → well_typed_entry "pages" (VInt pages)
| typed_deadline (key : string) : well_typed_entry "deadline" (VStr key)
| typed_final_price (price : spec_float) :
    well_typed_entry "final_price" (VFloat price)
| typed_instructions_text (text : string) :
    well_typed_entry "instructions_text" (VStr text).

Definition well_typed (s : UserSession) : Prop :=
  ∀ k v, data s !! k = Some v → well_typed_entry k v.

(** An order in progress: in [w] the user's session is at step [st] with
    data [d] and no files, the user has been sent the messages [said] since
    [w0], no order number has been drawn, and the store is within capacity. *)
Definition order_at (w0 w : World) (u : User) (st : string)
    (d : gmap string value) (said : list reply) : Prop :=
  (∃ l s, sessions w !! uid u = Some l ∧ heap w !! l = Some s
          ∧ step s = st ∧ data s = d ∧ files s = [])
  ∧ outbox w = (outbox w0 ++ ((λ r, (uid u, r)) <$> said))%list
  ∧ tokens w = tokens w0
  ∧ (size (sessions w) ≤ Config.MAX_SESSIONS)%nat.

(** ** Further concrete worlds *)

Module Scenario.

Definition bob : User := {| uid := 1000; username := None |}.

Definition bob_session : UserSession :=
  {| user_id := 1000; step := "order_pages"; data := {[ "level" := VStr "phd" ]};
     created_at := 0; last_activity := 0; files := [] |}.

Definition at_subject : UserSession := Sample.session_at "order_subject" ∅ [].

(** Alice at the subject step, Bob at the pages step. *)
Definition duo : World :=
  {| heap := [at_subject; bob_session];
     sessions := <[7 := 0%nat]> {[ 1000 := 1%nat ]};
     ticks := 0; sent := 0; tokens := 0; outbox := [] |}.

Definition at_files : UserSession :=
  Sample.session_at "order_files"
    (<["instructions_text" := VStr "aucune"]> Sample.order_data) [].

Definition at_support : UserSession := Sample.session_at "support" ∅ [].

(** A document sent without a name. *)
Definition report : Attachment :=
  {| document := Some {| doc_file_id := "d"; doc_file_name := None;
                         doc_file_size := Some 4096 |};
     photo := [] |}.

(** The operator, as a sender. *)
Definition operator : User := {| uid := Sample.ADMIN_ID; username := None |}.

End Scenario.

(** ** Facts about binary64 rounding *)

Section Rounding_facts.

Lemma shr_1_nonneg mrs : 0 ≤ shr_m mrs → 0 ≤ shr_m (shr_1 mrs).
Proof.
  destruct mrs as [m r s]; simpl.
  destruct m as [|p|p]; [simpl; lia| |lia].
  destruct p; simpl; lia.
Qed.

Lemma iter_pos_shr_1_nonneg n mrs :
  0 ≤ shr_m mrs → 0 ≤ shr_m (SpecFloat.iter_pos shr_1 n mrs).
Proof.
  revert mrs. induction n as [n IH|n IH|]; intros mrs H; simpl.
  - apply IH, IH, shr_1_nonneg, H.
  - apply IH, IH, H.
  - apply shr_1_nonneg, H.
Qed.

Lemma shr_nonneg mrs e n : 0 ≤ shr_m mrs → 0 ≤ shr_m (shr mrs e n).1.
Proof.
  intros H. destruct n; simpl; try exact H.
  apply iter_pos_shr_1_nonneg, H.
Qed.

Lemma shr_record_of_loc_m m l : shr_m (shr_record_of_loc m l) = m.
Proof. destruct l as [|[| |]]; reflexivity. Qed.

Lemma shr_fexp_nonneg p e m ex l :
  0 ≤ m → 0 ≤ shr_m (shr_fexp p e m ex l).1.
Proof.
  intros H. unfold shr_fexp. apply shr_nonneg.
  rewrite shr_record_of_loc_m. exact H.
Qed.

Lemma round_nearest_even_nonneg m l : 0 ≤ m → 0 ≤ round_nearest_even m l.
Proof.
  intros H. destruct l as [|[| |]]; simpl; try lia.
  destruct (Z.even m); lia.
Qed.

(** Rounding a non-negative mantissa never produces a NaN. *)
Lemma binary_round_aux_not_nan p e s m ex l :
  0 ≤ m → B64.is_nan (binary_round_aux p e s m ex l) = false.
Proof.
  intros H. unfold binary_round_aux.
  pose proof (shr_fexp_nonneg p e m ex l H) as H1.
  destruct (shr_fexp p e m ex l) as [mrs1 e1]; simpl in H1.
  pose proof (shr_fexp_nonneg p e _ e1 loc_Exact
                (round_nearest_even_nonneg _ (loc_of_shr_record mrs1) H1)) as H2.
  destruct (shr_fexp p e _ e1 loc_Exact) as [mrs2 e2]; simpl in H2.
  destruct (shr_m mrs2) as [|q|q]; [reflexivity| |lia].
  destruct (e2 <=? e - p); reflexivity.
Qed.

Lemma of_Z_not_nan z : B64.is_nan (B64.of_Z z) = false.
Proof.
  unfold B64.of_Z, binary_normalize.
  destruct z as [|q|q]; [reflexivity| |]; unfold binary_round;
    destruct (shl_align _ _ _) as [mz ez];
    apply binary_round_aux_not_nan; lia.
Qed.

(** A product is a NaN only for a NaN operand or for [inf * 0]. *)
Lemma mul_finite_not_nan x y :
  B64.is_finite x = true → B64.is_nan y = false →
  match y with S754_infinity _ => x ≠ S754_zero false ∧ x ≠ S754_zero true | _ => True end →
  B64.is_nan (B64.mul x y) = false.
Proof.
  intros Hx Hy Hinf.
  destruct x as [sx|sx| |sx mx ex]; try discriminate Hx;
    destruct y as [sy|sy| |sy my ey]; try discriminate Hy; try reflexivity.
  - destruct Hinf as [H1 H2]. destruct sx; congruence.
  - apply binary_round_aux_not_nan. lia.
Qed.

Lemma of_int_Ok z f :
  B64.of_int z = Ok f → f = B64.of_Z z ∧ B64.is_finite f = true.
Proof.
  unfold B64.of_int. pose proof (of_Z_not_nan z) as Hn.
  destruct (B64.of_Z z); try discriminate Hn; intros [= <-]; try discriminate; auto.
Qed.

Lemma SFcompare_refl_not_nan x :
  B64.is_nan x = false → SFcompare x x = Some Eq.
Proof.
  destruct x as [s|s| |s m e]; try discriminate; intros _; simpl;
    try (destruct s; reflexivity).
  rewrite Z.compare_refl.
  assert (Pos.compare_cont Eq m m = Eq) as -> by apply Pos.compare_cont_refl.
  destruct s; reflexivity.
Qed.

Lemma SFcompare_antisym x y c :
  SFcompare x y = Some c → SFcompare y x = Some (CompOpp c).
Proof.
  destruct x as [sx|sx| |sx mx ex], y as [sy|sy| |sy my ey]; simpl;
    try discriminate; intros [= <-];
    try (destruct sx; try destruct sy; reflexivity);
    try (destruct sy; reflexivity).
  rewrite (Z.compare_antisym ex ey).
  assert (Pos.compare_cont Eq my mx = CompOpp (Pos.compare_cont Eq mx my)) as ->.
  { change (Pos.compare_cont Eq my mx) with (Pos.compare my mx).
    change (Pos.compare_cont Eq mx my) with (Pos.compare mx my).
    apply Pos.compare_antisym. }
  destruct sx, sy, (ex ?= ey), (Pos.compare_cont Eq mx my); reflexivity.
Qed.

Lemma SFcompare_not_nan x y :
  B64.is_nan x = false → B64.is_nan y = false → is_Some (SFcompare x y).
Proof.
  destruct x, y; simpl; try discriminate; intros _ _; eauto.
Qed.

(** [min(a, b) <= b] for numbers. *)
Lemma py_min_le_r a b :
  B64.is_nan a = false → B64.is_nan b = false →
  B64.leb (py_min a b) b = true.
Proof.
  intros Ha Hb. unfold py_min, B64.ltb, B64.leb, SFltb, SFleb.
  destruct (SFcompare_not_nan b a Hb Ha) as [c Hc].
  rewrite Hc. pose proof (SFcompare_antisym _ _ _ Hc) as Hc'.
  destruct c; simpl in Hc'.
  - rewrite Hc'. reflexivity.
  - rewrite (SFcompare_refl_not_nan b Hb). reflexivity.
  - rewrite Hc'. reflexivity.
Qed.

(** [min(a, b)] is [a] whenever [a <= b]. *)
Lemma py_min_l a b : B64.leb a b = true → py_min a b = a.
Proof.
  unfold py_min, B64.ltb, B64.leb, SFltb, SFleb. intros H.
  destruct (SFcompare a b) as [c|] eqn:Hc; [|discriminate].
  rewrite (SFcompare_antisym _ _ _ Hc).
  destruct c; simpl; try reflexivity. discriminate.
Qed.

End Rounding_facts.

(** ** Conversion of integers to binary64 *)

Section Conversion.

Lemma digits2_pos_bounds p :
  2 ^ (Z.pos (digits2_pos p) - 1) ≤ Z.pos p < 2 ^ Z.pos (digits2_pos p).
Proof.
  induction p as [p IH|p IH|]; simpl digits2_pos.
  - rewrite Pos2Z.inj_succ.
    replace (Z.succ (Z.pos (digits2_pos p)) - 1) with (Z.succ (Z.pos (digits2_pos p) - 1)) by lia.
    rewrite !Z.pow_succ_r by lia. lia.
  - rewrite Pos2Z.inj_succ.
    replace (Z.succ (Z.pos (digits2_pos p)) - 1) with (Z.succ (Z.pos (digits2_pos p) - 1)) by lia.
    rewrite !Z.pow_succ_r by lia. lia.
  - simpl. lia.
Qed.

Lemma digits2_pos_unique p d :
  2 ^ (d - 1) ≤ Z.pos p < 2 ^ d → Z.pos (digits2_pos p) = d.
Proof.
  intros [Hlo Hhi]. pose proof (digits2_pos_bounds p) as [Blo Bhi].
  set (k := Z.pos (digits2_pos p)) in *.
  assert (0 < d).
  { destruct (Z_lt_le_dec 0 d); [done|].
    assert (2 ^ d ≤ 2 ^ 0) by (destruct (Z_lt_le_dec d 0);
      [rewrite Z.pow_neg_r by lia; simpl; lia | apply Z.pow_le_mono_r; lia]).
    simpl in *. lia. }
  destruct (Z_lt_le_dec k d) as [Hlt|Hge].
  - assert (2 ^ k ≤ 2 ^ (d - 1)) by (apply Z.pow_le_mono_r; lia). lia.
  - destruct (Z_lt_le_dec d k) as [Hlt|Hge']; [|lia].
    assert (2 ^ d ≤ 2 ^ (k - 1)) by (apply Z.pow_le_mono_r; lia). lia.
Qed.

Lemma iter_pos_nat {A} (f : A → A) n x :
  SpecFloat.iter_pos f n x = Nat.iter (Pos.to_nat n) f x.
Proof.
  revert x. induction n as [n IH|n IH|]; intros x; cbn [SpecFloat.iter_pos].
  - rewrite !IH, Pos2Nat.inj_xI.
    replace (S (2 * Pos.to_nat n))%nat with (Pos.to_nat n + S (Pos.to_nat n))%nat by lia.
    rewrite Nat.iter_add, Nat.iter_succ_r. reflexivity.
  - rewrite !IH, Pos2Nat.inj_xO.
    replace (2 * Pos.to_nat n)%nat with (Pos.to_nat n + Pos.to_nat n)%nat by lia.
    rewrite Nat.iter_add. reflexivity.
  - reflexivity.
Qed.

(** After [k] one-bit shifts the mantissa is the quotient by [2^k], and the
    round bit tells that the remainder is at least half. *)
Lemma shr_1_iter m0 k :
  0 ≤ m0 →
  let mrs := Nat.iter k shr_1 {| shr_m := m0; shr_r := false; shr_s := false |} in
  shr_m mrs = m0 / 2 ^ Z.of_nat k
  ∧ (shr_r mrs = true → 2 ^ Z.of_nat k ≤ 2 * (m0 mod 2 ^ Z.of_nat k)).
Proof.
  intros Hm0. induction k as [|k IH]; simpl.
  - split; [rewrite Z.div_1_r; reflexivity | discriminate].
  - destruct IH as [IHm IHr].
    set (mrs := Nat.iter k shr_1 _) in *.
    assert (0 < 2 ^ Z.of_nat k) as Hpow by (apply Z.pow_pos_nonneg; lia).
    assert (2 ^ Z.of_nat (S k) = 2 * 2 ^ Z.of_nat k) as Hpow2.
    { rewrite Nat2Z.inj_succ, Z.pow_succ_r by lia. reflexivity. }
    pose proof (Z.div_mod m0 (2 ^ Z.of_nat k) ltac:(lia)) as Hdm.
    pose proof (Z.mod_pos_bound m0 (2 ^ Z.of_nat k) Hpow) as Hr0.
    rewrite <- IHm in Hdm.
    assert (0 ≤ shr_m mrs) as Hnn by (rewrite IHm; apply Z.div_pos; lia).
    rewrite Hpow2.
    destruct mrs as [m r s]; simpl in *.
    clear IHr IHm.
    destruct m as [|[q|q|]|q]; simpl; try lia.
    + split; [|discriminate].
      apply (Z.div_unique _ _ _ (m0 mod 2 ^ Z.of_nat k)); lia.
    + split.
      * apply (Z.div_unique _ _ _ (2 ^ Z.of_nat k + m0 mod 2 ^ Z.of_nat k)); lia.
      * intros _.
        rewrite <- (Z.mod_unique m0 (2 * 2 ^ Z.of_nat k) (Z.pos q) (2 ^ Z.of_nat k + m0 mod 2 ^ Z.of_nat k)) by lia. lia.
    + split; [|discriminate].
      apply (Z.div_unique _ _ _ (m0 mod 2 ^ Z.of_nat k)); lia.
    + split.
      * apply (Z.div_unique _ _ _ (2 ^ Z.of_nat k + m0 mod 2 ^ Z.of_nat k)); lia.
      * intros _.
        rewrite <- (Z.mod_unique m0 (2 * 2 ^ Z.of_nat k) 0 (2 ^ Z.of_nat k + m0 mod 2 ^ Z.of_nat k)) by lia. lia.
Qed.

Lemma Pos_iter_xO p k : Z.pos (Pos.iter xO p k) = Z.pos p * 2 ^ Z.pos k.
Proof.
  induction k as [|k IH] using Pos.peano_ind.
  - simpl. lia.
  - rewrite Pos.iter_succ, Pos2Z.inj_xO, IH, Pos2Z.inj_succ, Z.pow_succ_r by lia. lia.
Qed.

Lemma fexp_normal e : -1021 ≤ e → fexp B64.prec B64.emax e = e - 53.
Proof. unfold fexp, emin, B64.prec, B64.emax. lia. Qed.

(** A 53-bit mantissa is left alone by the shift to the canonical exponent. *)
Lemma shr_fexp_canonical q e :
  Z.pos (digits2_pos q) = 53 → -1074 ≤ e →
  shr_fexp B64.prec B64.emax (Z.pos q) e loc_Exact
  = ({| shr_m := Z.pos q; shr_r := false; shr_s := false |}, e).
Proof.
  intros Hd He. unfold shr_fexp. cbn [Zdigits2 shr_record_of_loc].
  rewrite Hd, fexp_normal by lia.
  replace (53 + e - 53 - e) with 0 by lia. reflexivity.
Qed.

(** A carry out of the 53 bits is absorbed by one exact shift. *)
Lemma shr_fexp_carry e :
  -1074 ≤ e →
  shr_fexp B64.prec B64.emax (2 ^ 53) e loc_Exact
  = ({| shr_m := 2 ^ 52; shr_r := false; shr_s := false |}, e + 1).
Proof.
  intros He. unfold shr_fexp.
  change (Zdigits2 (2 ^ 53)) with 54.
  rewrite fexp_normal by lia.
  replace (54 + e - 53 - e) with 1 by lia. reflexivity.
Qed.

Lemma round_nearest_even_cases mrs :
  round_nearest_even (shr_m mrs) (loc_of_shr_record mrs) = shr_m mrs
  ∨ (round_nearest_even (shr_m mrs) (loc_of_shr_record mrs) = shr_m mrs + 1
     ∧ shr_r mrs = true).
Proof.
  destruct mrs as [m [|] [|]]; simpl; auto.
  destruct (Z.even m); auto.
Qed.

Lemma binary_round_aux_canonical s q e :
  Z.pos (digits2_pos q) = 53 → -1074 ≤ e ≤ 971 →
  binary_round_aux B64.prec B64.emax s (Z.pos q) e loc_Exact = S754_finite s q e.
Proof.
  intros Hd He. unfold binary_round_aux.
  rewrite shr_fexp_canonical by lia. cbn [shr_m loc_of_shr_record round_nearest_even].
  rewrite shr_fexp_canonical by lia. cbn [shr_m].
  unfold B64.prec, B64.emax.
  destruct (Z.leb_spec e (1024 - 53)); [reflexivity|lia].
Qed.

(** Integers below [2^1024 - 2^970] in magnitude round to a finite float. *)
Lemma binary_round_int_finite s p :
  Z.pos p < 2 ^ 1024 - 2 ^ 970 →
  B64.is_finite (binary_round B64.prec B64.emax s p 0) = true.
Proof.
  intros Hp. pose proof (digits2_pos_bounds p) as [Blo Bhi].
  set (d := Z.pos (digits2_pos p)) in *.
  assert (1 ≤ d) as Hd1 by (unfold d; lia).
  assert (d ≤ 1024) as Hd2.
  { destruct (Z_lt_le_dec 1024 d) as [Hgt|]; [|lia].
    assert (2 ^ 1024 ≤ 2 ^ (d - 1)) by (apply Z.pow_le_mono_r; lia).
    assert (0 < 2 ^ 970) by (apply Z.pow_pos_nonneg; lia). lia. }
  unfold binary_round. rewrite Z.add_0_r. fold d.
  rewrite fexp_normal by lia. unfold shl_align.
  destruct (d - 53 - 0) as [|n|k] eqn:Hn.
  - rewrite binary_round_aux_canonical; [reflexivity|unfold d in *; lia|lia].
  - (* more than 53 bits: shift right by [n], round, renormalise *)
    unfold binary_round_aux, shr_fexp at 1. cbn [Zdigits2 shr_record_of_loc].
    fold d. rewrite Z.add_0_r, fexp_normal by lia.
    replace (d - 53 - 0) with (Z.pos n) by lia. cbn [shr].
    rewrite iter_pos_nat.
    destruct (shr_1_iter (Z.pos p) (Pos.to_nat n) ltac:(lia)) as [Hm Hr].
    rewrite positive_nat_Z in Hm, Hr.
    set (mrs := Nat.iter _ shr_1 _) in *.
    assert (0 < 2 ^ Z.pos n) as Hpow by (apply Z.pow_pos_nonneg; lia).
    pose proof (Z.div_mod (Z.pos p) (2 ^ Z.pos n) ltac:(lia)) as Hdm.
    pose proof (Z.mod_pos_bound (Z.pos p) (2 ^ Z.pos n) Hpow) as Hrem.
    rewrite <- Hm in Hdm.
    assert (2 ^ d = 2 ^ 53 * 2 ^ Z.pos n) as Hsplit.
    { rewrite <- Z.pow_add_r by lia. f_equal. lia. }
    assert (2 ^ (d - 1) = 2 ^ 52 * 2 ^ Z.pos n) as Hsplit'.
    { rewrite <- Z.pow_add_r by lia. f_equal. lia. }
    assert (2 ^ 52 ≤ shr_m mrs < 2 ^ 53) as Hrange by nia.
    assert (2 ^ 53 = 2 * 2 ^ 52) as H5352 by reflexivity.
    assert (0 < 2 ^ 52) as H52 by reflexivity.
    destruct (round_nearest_even_cases mrs) as [Hrne|[Hrne Hrb]]; rewrite Hrne.
    + destruct (shr_m mrs) as [|q|q] eqn:Hq; try lia.
      rewrite shr_fexp_canonical; [|apply digits2_pos_unique; lia|lia].
      cbn [shr_m]. unfold B64.prec, B64.emax.
      destruct (Z.leb_spec (0 + Z.pos n) (1024 - 53)); [reflexivity|lia].
    + destruct (Z.eq_dec (shr_m mrs + 1) (2 ^ 53)) as [Hcarry|Hnocarry].
      * rewrite Hcarry, shr_fexp_carry by lia. 
        change (shr_m {| shr_m := 2 ^ 52; shr_r := false; shr_s := false |})
          with (Z.pos (2 ^ 52)).
        cbv iota beta. unfold B64.prec, B64.emax.
        destruct (Z.leb_spec (0 + Z.pos n + 1) (1024 - 53)) as [|Hover]; [reflexivity|].
        exfalso. specialize (Hr Hrb).
        assert (Z.pos n = 971) as Hn971 by lia.
        rewrite Hn971 in *.
        assert (2 ^ 1024 = 2 ^ 53 * 2 ^ 971) as H1024 by reflexivity.
        assert (2 ^ 971 = 2 * 2 ^ 970) as H971 by reflexivity.
        nia.
      * destruct (shr_m mrs + 1) as [|q|q] eqn:Hq; try lia.
        rewrite shr_fexp_canonical; [|apply digits2_pos_unique; lia|lia].
        cbn [shr_m]. unfold B64.prec, B64.emax.
        destruct (Z.leb_spec (0 + Z.pos n) (1024 - 53)); [reflexivity|lia].
  - (* fewer than 53 bits: exact after a left shift *)
    rewrite binary_round_aux_canonical; [reflexivity| |lia].
    apply digits2_pos_unique. rewrite Pos_iter_xO.
    assert (2 ^ (53 - 1) = 2 ^ (d - 1) * 2 ^ Z.pos k) as ->.
    { rewrite <- Z.pow_add_r by lia. f_equal. lia. }
    assert (2 ^ 53 = 2 ^ d * 2 ^ Z.pos k) as ->.
    { rewrite <- Z.pow_add_r by lia. f_equal. lia. }
    assert (0 < 2 ^ Z.pos k) by (apply Z.pow_pos_nonneg; lia).
    nia.
Qed.

Lemma of_int_bounded z :
  Z.abs z < 2 ^ 1024 - 2 ^ 970 → ∃ f, B64.of_int z = Ok f.
Proof.
  intros Hz. unfold B64.of_int, B64.of_Z, binary_normalize.
  destruct z as [|p|p].
  - eauto.
  - pose proof (binary_round_int_finite false p ltac:(lia)) as Hf.
    destruct (binary_round _ _ _ _ _); try discriminate Hf; eauto.
  - pose proof (binary_round_int_finite true p ltac:(lia)) as Hf.
    destruct (binary_round _ _ _ _ _); try discriminate Hf; eauto.
Qed.

End Conversion.

(** ** The pricing engine *)

Section Pricing.

Lemma LEVELS_inv L lvl :
  AcademicConfig.LEVELS !! L = Some lvl →
  (L, lvl) ∈ AcademicConfig.LEVELS_list.
Proof. apply elem_of_list_to_map_2. Qed.

Lemma DEADLINES_inv D d :
  AcademicConfig.DEADLINES !! D = Some d →
  (D, d) ∈ AcademicConfig.DEADLINES_list.
Proof. apply elem_of_list_to_map_2. Qed.

Ltac list_cases H :=
  repeat (apply elem_of_cons in H as [H|H]; [injection H as -> ->|]);
  [..|apply elem_of_nil in H; destruct H].

Lemma multiplier_of_cases D :
  multiplier_of D ∈
    [B64.lit 18 1; B64.lit 17 1; B64.lit 15 1; B64.lit 13 1; B64.lit 12 1;
     B64.lit 1 0; B64.lit 9 1].
Proof.
  unfold multiplier_of.
  destruct (AcademicConfig.DEADLINES !! D) as [d|] eqn:HD; simpl.
  - apply DEADLINES_inv in HD. unfold AcademicConfig.DEADLINES_list in HD.
    list_cases HD; simpl; repeat first [apply list_elem_of_here | apply list_elem_of_further].
  - repeat first [apply list_elem_of_here | apply list_elem_of_further].
Qed.

Lemma catalog_product_finite L lvl D :
  AcademicConfig.LEVELS !! L = Some lvl →
  B64.is_finite (B64.mul (base_price lvl) (multiplier_of D)) = true.
Proof.
  intros HL. apply LEVELS_inv in HL. unfold AcademicConfig.LEVELS_list in HL.
  pose proof (multiplier_of_cases D) as HD.
  list_cases HL; cbn [base_price];
    repeat (apply elem_of_cons in HD as [HD|HD];
            [rewrite HD; vm_compute; reflexivity|]);
    apply elem_of_nil in HD; destruct HD.
Qed.

Lemma is_finite_not_nan x : B64.is_finite x = true → B64.is_nan x = false.
Proof. destruct x; simpl; congruence. Qed.

Lemma mul_finite_finite_not_nan x y :
  B64.is_finite x = true → B64.is_finite y = true →
  B64.is_nan (B64.mul x y) = false.
Proof.
  intros Hx Hy. apply mul_finite_not_nan; auto using is_finite_not_nan.
  destruct y; simpl in *; try discriminate; exact I.
Qed.

Lemma calculate_price_known L lvl D P f :
  AcademicConfig.LEVELS !! L = Some lvl →
  B64.of_int P = Ok f →
  Utils.calculate_price (Some (VStr L)) D (VInt P)
  = Ok (py_min (B64.mul (B64.mul (base_price lvl) (multiplier_of D)) f)
               (B64.mul (B64.lit 50 0) f)).
Proof.
  intros HL Hf. unfold Utils.calculate_price, AcademicConfig.LEVELS_get.
  rewrite HL. unfold float_mul. rewrite Hf. reflexivity.
Qed.

(** C1 (amended): for a catalog level, any deadline key and any page count
    [P >= 1] that converts to a float ([P < 2^1024 - 2^970]), the price is
    [min(base_price * multiplier * P, 50.0 * P)] in binary64 arithmetic; it
    is at most [50.0 * P], and it is the uncapped product whenever that is
    at most [50.0 * P].  bachelor/24h/2 costs 66.00 and phd/6h/3 costs
    150.00. *)
Theorem calculate_price_capped (L D : string) (lvl : AcademicLevel) (P : Z) :
  AcademicConfig.LEVELS !! L = Some lvl →
  1 ≤ P < 2 ^ 1024 - 2 ^ 970 →
  (∃ f, B64.of_int P = Ok f ∧
     let raw := B64.mul (B64.mul (base_price lvl) (multiplier_of D)) f in
     let ceiling := B64.mul (B64.lit 50 0) f in
     Utils.calculate_price (Some (VStr L)) D (VInt P) = Ok (py_min raw ceiling)
     ∧ B64.leb (py_min raw ceiling) ceiling = true
     ∧ (B64.leb raw ceiling = true → py_min raw ceiling = raw))
  ∧ Utils.calculate_price (Some (VStr "bachelor")) "24h" (VInt 2) = Ok (B64.lit 66 0)
  ∧ Utils.format_price (VFloat (B64.lit 66 0)) = Ok "66.00€"
  ∧ Utils.calculate_price (Some (VStr "phd")) "6h" (VInt 3) = Ok (B64.lit 150 0)
  ∧ Utils.format_price (VFloat (B64.lit 150 0)) = Ok "150.00€".
Proof.
  intros HL HP. split; [|repeat split; vm_compute; reflexivity].
  destruct (of_int_bounded P ltac:(lia)) as [f Hf]. exists f.
  split; [exact Hf|]. cbv zeta.
  destruct (of_int_Ok _ _ Hf) as [_ Hfin].
  split; [apply calculate_price_known; assumption|].
  split; [|apply py_min_l].
  apply py_min_le_r.
  - apply mul_finite_finite_not_nan; [|exact Hfin].
    apply (catalog_product_finite L); exact HL.
  - apply mul_finite_finite_not_nan; [reflexivity|exact Hfin].
Qed.

(** C2 (amended): an unknown level key prices at 0.0 for every deadline and
    every pages value, without raising; a catalog level with an unknown
    deadline key is priced with the multiplier 1.0, for every page count
    that converts to a float. *)
Theorem calculate_price_unknown_keys :
  (∀ (L D : string) (pages : value),
     AcademicConfig.LEVELS !! L = None →
     Utils.calculate_price (Some (VStr L)) D pages = Ok (B64.lit 0 0))
  ∧ (∀ (L D : string) (lvl : AcademicLevel) (P : Z),
       AcademicConfig.LEVELS !! L = Some lvl →
       AcademicConfig.DEADLINES !! D = None →
       Z.abs P < 2 ^ 1024 - 2 ^ 970 →
       ∃ f, B64.of_int P = Ok f
         ∧ Utils.calculate_price (Some (VStr L)) D (VInt P)
           = Ok (py_min (B64.mul (B64.mul (base_price lvl) (B64.lit 1 0)) f)
                        (B64.mul (B64.lit 50 0) f))
         ∧ B64.mul (base_price lvl) (B64.lit 1 0) = base_price lvl).
Proof.
  split.
  - intros L D pages HL. unfold Utils.calculate_price, AcademicConfig.LEVELS_get.
    rewrite HL. reflexivity.
  - intros L D lvl P HL HD HP.
    destruct (of_int_bounded P HP) as [f Hf]. exists f.
    split; [exact Hf|]. split.
    + rewrite (calculate_price_known L lvl D P f HL Hf).
      unfold multiplier_of. rewrite HD. reflexivity.
    + apply LEVELS_inv in HL. unfold AcademicConfig.LEVELS_list in HL.
      list_cases HL; vm_compute; reflexivity.
Qed.

End Pricing.

(** The page count [2^1024 - 2^970], the least integer that does not convert
    to a float, makes [calculate_price] raise. *)
Lemma calculate_price_overflow :
  AcademicConfig.LEVELS !! "bachelor" = Some {| name := "Licence"; emoji := "📚"; base_price := B64.lit 22 0 |}
  ∧ 1 ≤ 2 ^ 1024 - 2 ^ 970
  ∧ Utils.calculate_price (Some (VStr "bachelor")) "24h" (VInt (2 ^ 1024 - 2 ^ 970))
    = Raise OverflowError
  ∧ ¬ ∃ v, Utils.calculate_price (Some (VStr "bachelor")) "24h" (VInt (2 ^ 1024 - 2 ^ 970)) = Ok v.
Proof.
  assert (Utils.calculate_price (Some (VStr "bachelor")) "24h" (VInt (2 ^ 1024 - 2 ^ 970))
          = Raise OverflowError) as H by (vm_compute; reflexivity).
  split; [reflexivity|]. split; [vm_compute; congruence|]. split; [exact H|].
  intros [v Hv]. rewrite H in Hv. discriminate.
Qed.

Lemma calculate_price_unknown_deadline_overflow :
  AcademicConfig.LEVELS !! "phd" = Some {| name := "Doctorat"; emoji := "🔬"; base_price := B64.lit 32 0 |}
  ∧ AcademicConfig.DEADLINES !! "1h" = None
  ∧ Utils.calculate_price (Some (VStr "phd")) "1h" (VInt (2 ^ 1024)) = Raise OverflowError
  ∧ ¬ ∃ v, Utils.calculate_price (Some (VStr "phd")) "1h" (VInt (2 ^ 1024)) = Ok v.
Proof.
  assert (Utils.calculate_price (Some (VStr "phd")) "1h" (VInt (2 ^ 1024))
          = Raise OverflowError) as H by (vm_compute; reflexivity).
  split; [reflexivity|]. split; [reflexivity|]. split; [exact H|].
  intros [v Hv]. rewrite H in Hv. discriminate.
Qed.

Lemma calculate_price_capped_witness :
  (∃ f, B64.of_int 2 = Ok f ∧
     let raw := B64.mul (B64.mul (B64.lit 22 0) (multiplier_of "24h")) f in
     let ceiling := B64.mul (B64.lit 50 0) f in
     Utils.calculate_price (Some (VStr "bachelor")) "24h" (VInt 2) = Ok (py_min raw ceiling)
     ∧ B64.leb (py_min raw ceiling) ceiling = true
     ∧ (B64.leb raw ceiling = true → py_min raw ceiling = raw))
  ∧ Utils.calculate_price (Some (VStr "bachelor")) "24h" (VInt 2) = Ok (B64.lit 66 0)
  ∧ Utils.format_price (VFloat (B64.lit 66 0)) = Ok "66.00€"
  ∧ Utils.calculate_price (Some (VStr "phd")) "6h" (VInt 3) = Ok (B64.lit 150 0)
  ∧ Utils.format_price (VFloat (B64.lit 150 0)) = Ok "150.00€".
Proof.
  apply (calculate_price_capped "bachelor" "24h"
           {| name := "Licence"; emoji := "📚"; base_price := B64.lit 22 0 |} 2).
  - reflexivity.
  - split; [lia|reflexivity].
Defined.

(** ** The session store and the handlers *)

(** ** Running the monad *)

Lemma bind_Ok {A B} (m : M A) (k : A → M B) w a w' :
  m w = (Ok a, w') → bind m k w = k a w'.
Proof. intros H. unfold bind. rewrite H. reflexivity. Qed.

Lemma bind_Raise {A B} (m : M A) (k : A → M B) w e w' :
  m w = (Raise e, w') → bind m k w = (Raise e, w').
Proof. intros H. unfold bind. rewrite H. reflexivity. Qed.

Section SessionManager_facts.

Variable clock : nat → Z.

Lemma cleanup_old_sessions_run w :
  cleanup_old_sessions clock w =
  (Ok (),
   {| heap := heap w;
      sessions := filter (λ kv, expired_at (heap w) (clock (ticks w)) kv.2 = false)
                         (sessions w);
      ticks := S (ticks w); sent := sent w; tokens := tokens w;
      outbox := outbox w |}).
Proof. reflexivity. Qed.

Lemma get_session_run w user :
  get_session clock user w =
  let w1 := swept clock w in
  match sessions w1 !! user with
  | Some l =>
      (Ok (Some l),
       {| heap := alter (set_last_activity (clock (ticks w1))) l (heap w1);
          sessions := sessions w1; ticks := S (ticks w1); sent := sent w1;
          tokens := tokens w1; outbox := outbox w1 |})
  | None => (Ok None, w1)
  end.
Proof.
  unfold get_session, swept, bind, get_sessions. cbn beta iota.
  destruct (Config.MAX_SESSIONS <? size (sessions w))%nat.
  - rewrite cleanup_old_sessions_run. cbn [snd sessions].
    destruct (_ !! user); reflexivity.
  - unfold ret. destruct (sessions w !! user); reflexivity.
Qed.

Lemma create_session_run w user st :
  create_session clock user st w =
  (Ok (length (heap w)),
   {| heap := heap w ++ [{| user_id := user; step := st; data := ∅;
                            created_at := clock (ticks w);
                            last_activity := clock (S (ticks w)); files := [] |}];
      sessions := <[user := length (heap w)]> (sessions w);
      ticks := S (S (ticks w)); sent := sent w; tokens := tokens w;
      outbox := outbox w |}).
Proof. reflexivity. Qed.


Lemma expired_false t s : expired t s = false ↔ t - last_activity s ≤ TIMEOUT_us.
Proof. unfold expired, TIMEOUT_us. apply Z.ltb_ge. Qed.

Lemma swept_heap w : heap (swept clock w) = heap w.
Proof. unfold swept. destruct (_ <? _)%nat; reflexivity. Qed.

Lemma swept_same_io w : same_io w (swept clock w).
Proof. unfold swept, same_io. destruct (_ <? _)%nat; auto. Qed.

Lemma swept_ticks w : (ticks w ≤ ticks (swept clock w) ≤ S (ticks w))%nat.
Proof. unfold swept. destruct (_ <? _)%nat; simpl; lia. Qed.

Lemma swept_sessions_subseteq w : sessions (swept clock w) ⊆ sessions w.
Proof.
  unfold swept. destruct (_ <? _)%nat; [|reflexivity].
  rewrite cleanup_old_sessions_run. cbn [snd sessions]. apply map_filter_subseteq.
Qed.

Lemma swept_size w : (size (sessions (swept clock w)) ≤ size (sessions w))%nat.
Proof. apply map_subseteq_size, swept_sessions_subseteq. Qed.

(** The sweep runs only over capacity and then keeps exactly the sessions
    that are not expired at its clock reading. *)
Lemma swept_lookup w user l :
  sessions (swept clock w) !! user = Some l ↔
  sessions w !! user = Some l
  ∧ ((Config.MAX_SESSIONS < size (sessions w))%nat →
     expired_at (heap w) (clock (ticks w)) l = false).
Proof.
  unfold swept. destruct (Nat.ltb_spec Config.MAX_SESSIONS (size (sessions w))) as [Hlt|Hge].
  - rewrite cleanup_old_sessions_run. cbn [snd sessions].
    rewrite map_lookup_filter_Some. cbn [snd]. tauto.
  - split; [intros H; split; [exact H|lia]|tauto].
Qed.

Lemma swept_lookup_live w user l s n :
  sessions w !! user = Some l → heap w !! l = Some s → live clock w s (S n) →
  sessions (swept clock w) !! user = Some l.
Proof.
  intros Hu Hl Hlive. apply swept_lookup. split; [exact Hu|].
  intros Hover. unfold expired_at. rewrite Hl. apply expired_false.
  destruct Hlive as [Hcap|[Hfresh _]]; [lia|].
  apply Hfresh; lia.
Qed.

Lemma alter_insert_same {A} (f : A → A) (h : list A) l x :
  alter f l (<[l := x]> h) = <[l := f x]> h.
Proof.
  apply list_eq. intros i. destruct (decide (i = l)) as [->|Hne].
  - rewrite list_lookup_alter_eq.
    destruct (decide (l < length h)%nat) as [Hlt|Hge].
    + rewrite !list_lookup_insert_eq by lia. reflexivity.
    + rewrite !list_insert_ge by lia.
      rewrite (lookup_ge_None_2 h l) by lia. reflexivity.
  - rewrite list_lookup_alter_ne, !list_lookup_insert_ne by congruence. reflexivity.
Qed.

Lemma alter_lookup_insert {A} (f : A → A) (h : list A) l x :
  h !! l = Some x → alter f l h = <[l := f x]> h.
Proof.
  intros H. rewrite <- (list_insert_id h l x H) at 1. apply alter_insert_same.
Qed.

Lemma live_advance w w' s t n k :
  live clock w s (k + n) →
  (size (sessions w') ≤ size (sessions w))%nat →
  (ticks w ≤ ticks w' ≤ ticks w + k)%nat →
  (last_activity s = t ∨ ∃ i, (ticks w ≤ i < ticks w')%nat ∧ t = clock i) →
  live clock w' (set_last_activity t s) n.
Proof.
  intros [Hcap|[Hfresh Hsteady]] Hsize Hticks Ht; [left; lia|right].
  split.
  - intros j Hj1 Hj2. cbn [last_activity set_last_activity].
    destruct Ht as [<-|(i & Hi & ->)].
    + apply Hfresh; lia.
    + apply Hsteady; lia.
  - intros i j Hi Hij Hj. apply Hsteady; lia.
Qed.

Lemma get_session_live w user l s n :
  sessions w !! user = Some l → heap w !! l = Some s → live clock w s (2 + n) →
  ∃ w' t, get_session clock user w = (Ok (Some l), w')
    ∧ sessions w' !! user = Some l
    ∧ heap w' = <[l := set_last_activity t s]> (heap w)
    ∧ live clock w' (set_last_activity t s) n
    ∧ same_io w w'
    ∧ (size (sessions w') ≤ size (sessions w))%nat
    ∧ (ticks w ≤ ticks w' ≤ ticks w + 2)%nat.
Proof.
  intros Hu Hl Hlive. rewrite get_session_run. cbv zeta.
  rewrite (swept_lookup_live w user l s (S n) Hu Hl Hlive).
  pose proof (swept_ticks w) as Ht. pose proof (swept_size w) as Hsz.
  pose proof (swept_same_io w) as (Hs1 & Hs2 & Hs3).
  eexists _, (clock (ticks (swept clock w))). split; [reflexivity|].
  cbn [sessions heap ticks sent tokens outbox].
  split; [eapply swept_lookup_live; eassumption|].
  split; [rewrite swept_heap; apply alter_lookup_insert; exact Hl|].
  split.
  { eapply (live_advance w _ s _ n 2); [exact Hlive|cbn; lia|cbn; lia|].
    right. exists (ticks (swept clock w)). cbn. split; [lia|reflexivity]. }
  split; [repeat split; cbn; assumption|].
  split; cbn; lia.
Qed.


Lemma touch_patched_stepped t t1 st patch s :
  set_last_activity t (patched patch (stepped st (set_last_activity t1 s)))
  = set_last_activity t (patched patch (stepped st s)).
Proof.
  unfold patched, stepped. destruct (truthy_str st), (truthy_dict patch); reflexivity.
Qed.

Lemma update_session_live w user l s st patch n :
  sessions w !! user = Some l → heap w !! l = Some s → live clock w s (3 + n) →
  ∃ w' t, update_session clock user st patch w = (Ok (), w')
    ∧ sessions w' !! user = Some l
    ∧ heap w' = <[l := set_last_activity t (patched patch (stepped st s))]> (heap w)
    ∧ live clock w' (set_last_activity t (patched patch (stepped st s))) n
    ∧ same_io w w'
    ∧ (size (sessions w') ≤ size (sessions w))%nat
    ∧ (ticks w ≤ ticks w' ≤ ticks w + 3)%nat.
Proof.
  intros Hu Hl Hlive.
  destruct (get_session_live w user l s (1 + n) Hu Hl Hlive)
    as (w1 & t1 & Hget & Hu1 & Hh1 & Hlive1 & (Hs1 & Hk1 & Ho1) & Hsz1 & Ht1).
  unfold update_session. rewrite (bind_Ok _ _ _ _ _ Hget).
  exists {| heap := <[l := set_last_activity (clock (ticks w1))
                            (patched patch (stepped st s))]> (heap w);
            sessions := sessions w1; ticks := S (ticks w1); sent := sent w1;
            tokens := tokens w1; outbox := outbox w1 |}, (clock (ticks w1)).
  split.
  { unfold bind, ret, modify, now, set_heap, patched, stepped.
    destruct (truthy_str st), (truthy_dict patch);
      cbn [heap sessions ticks sent tokens outbox];
      rewrite Hh1, ?alter_insert_same; reflexivity. }
  cbn [heap sessions ticks sent tokens outbox].
  split; [exact Hu1|]. split; [reflexivity|].
  split.
  { rewrite <- (touch_patched_stepped _ t1).
    eapply (live_advance w1 _ _ _ n 1); [|cbn; lia|cbn; lia|].
    - destruct Hlive1 as [Hcap|[Hfresh Hsteady]]; [left; exact Hcap|right].
      split; [|exact Hsteady].
      intros j Hj1 Hj2. specialize (Hfresh j Hj1 Hj2).
      unfold patched, stepped.
      destruct (truthy_str st), (truthy_dict patch); exact Hfresh.
    - right. exists (ticks w1). cbn. split; [lia|reflexivity]. }
  split; [repeat split; assumption|].
  split; lia.
Qed.

End SessionManager_facts.

Section Handler_facts.

Variable clock : nat → Z.
Variable transport_ok : nat → bool.
Variable token_hex : nat → string.
Variable thread_ref : Z → Z → string.
Variable ADMIN_ID : Z.

Lemma read_run w l s : heap w !! l = Some s → read l w = (Ok s, w).
Proof. intros H. unfold read. rewrite H. reflexivity. Qed.

Lemma io_only_send target r : io_only (send transport_ok target r).
Proof. intros w. unfold send. destruct (transport_ok (sent w)); auto. Qed.

Lemma io_only_ret {A} (a : A) : io_only (ret a).
Proof. intros w. auto. Qed.

Lemma io_only_raise {A} e : io_only (@raise A e).
Proof. intros w. auto. Qed.

Lemma io_only_lift {A} (o : outcome A) : io_only (lift o).
Proof. intros w. auto. Qed.

Lemma io_only_bind {A B} (m : M A) (k : A → M B) :
  io_only m → (∀ a, io_only (k a)) → io_only (bind m k).
Proof.
  intros Hm Hk w. unfold bind. specialize (Hm w).
  destruct (m w) as [[a|e] w1]; cbn [snd] in *; [|exact Hm].
  destruct (Hk a w1) as (H1 & H2 & H3), Hm as (H4 & H5 & H6).
  rewrite H1, H2, H3. auto.
Qed.

Lemma io_only_try_except {A} (m h : M A) :
  io_only m → io_only h → io_only (try_except m h).
Proof.
  intros Hm Hh w. unfold try_except. specialize (Hm w).
  destruct (m w) as [[a|e] w1]; cbn [snd] in *; [exact Hm|].
  destruct (Hh w1) as (H1 & H2 & H3), Hm as (H4 & H5 & H6).
  rewrite H1, H2, H3. auto.
Qed.

Lemma io_only_try_except_ValueError {A} (m h : M A) :
  io_only m → io_only h → io_only (try_except_ValueError m h).
Proof.
  intros Hm Hh w. unfold try_except_ValueError. specialize (Hm w).
  destruct (m w) as [[a|[]] w1]; cbn [snd] in *; try exact Hm.
  destruct (Hh w1) as (H1 & H2 & H3), Hm as (H4 & H5 & H6).
  rewrite H1, H2, H3. auto.
Qed.

Lemma try_except_Ok {A} (m h : M A) w a w' :
  m w = (Ok a, w') → try_except m h w = (Ok a, w').
Proof. intros H. unfold try_except. rewrite H. reflexivity. Qed.

Lemma try_except_Raise {A} (m h : M A) w e w' :
  m w = (Raise e, w') → try_except m h w = h w'.
Proof. intros H. unfold try_except. rewrite H. reflexivity. Qed.

Lemma send_ok target r w :
  transport_ok (sent w) = true →
  send transport_ok target r w =
  (Ok (), {| heap := heap w; sessions := sessions w; ticks := ticks w;
             sent := S (sent w); tokens := tokens w;
             outbox := outbox w ++ [(target, r)] |}).
Proof. intros H. unfold send. rewrite H. reflexivity. Qed.

Lemma text_handler_order_pages w u l s text n :
  sessions w !! uid u = Some l → heap w !! l = Some s →
  step s = "order_pages" → live clock w s (2 + n) →
  ∃ w1 t, get_session clock (uid u) w = (Ok (Some l), w1)
    ∧ sessions w1 !! uid u = Some l
    ∧ heap w1 = <[l := set_last_activity t s]> (heap w)
    ∧ live clock w1 (set_last_activity t s) n
    ∧ same_io w w1
    ∧ text_handler clock transport_ok thread_ref ADMIN_ID u text w =
      try_except
        (try_except_ValueError
           (let* pages := lift (PyStr.int (PyStr.strip text)) in
            (if (pages <=? 0) || (50 <? pages) then raise ValueError else ret ());;
            update_session clock (uid u) (Some "order_deadline")
              (Some {[ "pages" := VInt pages ]});;
            send transport_ok (uid u) (PagesConfirmation pages))
           (send transport_ok (uid u) PagesFormatError))
        (send transport_ok (uid u) TextError) w1.
Proof.
  intros Hu Hl Hstep Hlive.
  destruct (get_session_live clock w (uid u) l s n Hu Hl Hlive)
    as (w1 & t & Hget & Hu1 & Hh1 & Hlive1 & Hio & Hsz & Ht).
  exists w1, t. repeat (split; [assumption|]).
  unfold text_handler. rewrite (bind_Ok _ _ _ _ _ Hget).
  assert (heap w1 !! l = Some (set_last_activity t s)) as Hl1.
  { rewrite Hh1. apply list_lookup_insert_eq. eapply lookup_lt_Some, Hl. }
  unfold try_except at 1 2. unfold bind at 1.
  rewrite (read_run _ _ _ Hl1). cbn [step set_last_activity]. rewrite Hstep.
  reflexivity.
Qed.


Lemma lookup_insert_heap (h : list UserSession) l s x :
  h !! l = Some s → <[l := x]> h !! l = Some x.
Proof. intros H. apply list_lookup_insert_eq. eapply lookup_lt_Some, H. Qed.

Lemma patched_singleton k v s :
  patched (Some {[ k := v ]}) s = set_data (<[k := v]> (data s)) s.
Proof.
  unfold patched, truthy_dict. destruct (decide _) as [Hempty|_].
  - exfalso. exact (map_non_empty_singleton (M := gmap string) k v Hempty).
  - rewrite insert_union_singleton_l. reflexivity.
Qed.

(** C3: at step [order_pages] a text that [int] does not read as an integer
    once stripped, or whose value is not in 1..50, leaves the session as it
    is (step and data unchanged, no [pages] entry added; only the activity
    stamp moves) and is answered by the corrective message; a numeral in
    1..50, such as [5], stores [pages] and moves the session to
    [order_deadline].  The empty text, [abc], [5 pages], [2.5] and [1__2]
    are not read as integers; [0], [-3] and [51] are out of range; [5]
    between blanks, between no-break spaces or after a file separator (all
    of which [strip] removes), [+5], [1_2], the Arabic-Indic [٥] and the
    full-width [５０] are read as 5, 5, 5, 5, 12, 5 and 50. *)
Theorem order_pages_validation (w : World) (u : User) (l : nat)
    (s : UserSession) (text : string) :
  sessions w !! uid u = Some l → heap w !! l = Some s →
  step s = "order_pages" → live clock w s 5 →
  let w' := (text_handler clock transport_ok thread_ref ADMIN_ID u text w).2 in
  ((PyStr.int (PyStr.strip text) = Raise ValueError
    ∨ ∃ pages, PyStr.int (PyStr.strip text) = Ok pages ∧ (pages ≤ 0 ∨ 50 < pages)) →
   sessions w' !! uid u = Some l
   ∧ (∃ s', heap w' !! l = Some s' ∧ step s' = "order_pages"
            ∧ data s' = data s ∧ files s' = files s)
   ∧ (transport_ok (sent w) = true →
      outbox w' = (outbox w ++ [(uid u, PagesFormatError)])%list))
  ∧ (∀ pages, PyStr.int (PyStr.strip text) = Ok pages → 1 ≤ pages ≤ 50 →
     sessions w' !! uid u = Some l
     ∧ (∃ s', heap w' !! l = Some s' ∧ step s' = "order_deadline"
              ∧ data s' = <["pages" := VInt pages]> (data s)
              ∧ data s' !! "pages" = Some (VInt pages) ∧ files s' = files s)
     ∧ (transport_ok (sent w) = true →
        outbox w' = (outbox w ++ [(uid u, PagesConfirmation pages)])%list))
  ∧ PyStr.int (PyStr.strip "5") = Ok 5
  ∧ (PyStr.int (PyStr.strip "") = Raise ValueError
     ∧ PyStr.int (PyStr.strip "abc") = Raise ValueError
     ∧ PyStr.int (PyStr.strip "5 pages") = Raise ValueError
     ∧ PyStr.int (PyStr.strip "2.5") = Raise ValueError
     ∧ PyStr.int (PyStr.strip "1__2") = Raise ValueError)
  ∧ (PyStr.int (PyStr.strip "0") = Ok 0
     ∧ PyStr.int (PyStr.strip "-3") = Ok (-3)
     ∧ PyStr.int (PyStr.strip "51") = Ok 51)
  ∧ (PyStr.int (PyStr.strip " 5 ") = Ok 5
     ∧ PyStr.int (PyStr.strip (Sample.nbsp +:+ "5" +:+ Sample.nbsp)) = Ok 5
     ∧ PyStr.int (PyStr.strip (Sample.file_separator +:+ "5")) = Ok 5
     ∧ PyStr.int (PyStr.strip "+5") = Ok 5
     ∧ PyStr.int (PyStr.strip "1_2") = Ok 12
     ∧ PyStr.int (PyStr.strip "٥") = Ok 5
     ∧ PyStr.int (PyStr.strip "５０") = Ok 50).
Proof.
  intros Hu Hl Hstep Hlive w'.
  destruct (text_handler_order_pages w u l s text 3 Hu Hl Hstep Hlive)
    as (w1 & t & Hget & Hu1 & Hh1 & Hlive1 & (Hs1 & Hk1 & Ho1) & Hrun).
  assert (heap w1 !! l = Some (set_last_activity t s)) as Hl1
    by (rewrite Hh1; eapply lookup_insert_heap, Hl).
  subst w'. rewrite Hrun. clear Hrun.
  split; [|split; [|vm_compute; repeat split]].
  - (* rejected input *)
    intros Hbad.
    assert (try_except
              (try_except_ValueError
                 (let* pages := lift (PyStr.int (PyStr.strip text)) in
                  (if (pages <=? 0) || (50 <? pages) then raise ValueError else ret ());;
                  update_session clock (uid u) (Some "order_deadline")
                    (Some {[ "pages" := VInt pages ]});;
                  send transport_ok (uid u) (PagesConfirmation pages))
                 (send transport_ok (uid u) PagesFormatError))
              (send transport_ok (uid u) TextError) w1
            = reject_pages transport_ok u w1) as ->.
    { unfold reject_pages, try_except, try_except_ValueError, bind, lift.
      destruct Hbad as [->|(pages & -> & Hrange)]; [reflexivity|].
      assert ((pages <=? 0) || (50 <? pages) = true) as ->.
      { apply orb_true_iff. rewrite Z.leb_le, Z.ltb_lt. exact Hrange. }
      reflexivity. }
    assert (io_only (reject_pages transport_ok u)) as Hio
      by (apply io_only_try_except; apply io_only_send).
    destruct (Hio w1) as (Hh & Hss & _).
    rewrite Hh, Hss. split; [exact Hu1|]. split.
    + exists (set_last_activity t s). repeat split; [exact Hl1|exact Hstep].
    + intros Hok. unfold reject_pages.
      rewrite (try_except_Ok _ _ _ _ _ (send_ok _ _ _ ltac:(rewrite Hs1; exact Hok))).
      cbn [snd outbox]. rewrite Ho1. reflexivity.
  - (* accepted input *)
    intros pages Hint Hrange.
    destruct (update_session_live clock w1 (uid u) l _ (Some "order_deadline")
                (Some {[ "pages" := VInt pages ]}) 0 Hu1 Hl1 Hlive1)
      as (w2 & t2 & Hupd & Hu2 & Hh2 & _ & (Hs2 & Hk2 & Ho2) & _).
    assert ((pages <=? 0) || (50 <? pages) = false) as Hin.
    { apply orb_false_iff. rewrite Z.leb_gt, Z.ltb_ge. lia. }
    assert (try_except
              (try_except_ValueError
                 (let* pages := lift (PyStr.int (PyStr.strip text)) in
                  (if (pages <=? 0) || (50 <? pages) then raise ValueError else ret ());;
                  update_session clock (uid u) (Some "order_deadline")
                    (Some {[ "pages" := VInt pages ]});;
                  send transport_ok (uid u) (PagesConfirmation pages))
                 (send transport_ok (uid u) PagesFormatError))
              (send transport_ok (uid u) TextError) w1
            = try_except (send transport_ok (uid u) (PagesConfirmation pages))
                         (send transport_ok (uid u) TextError) w2) as ->.
    { unfold try_except, try_except_ValueError, bind at 1 2 3, lift. rewrite Hint.
      cbn beta iota. rewrite Hin. unfold ret at 1. cbn beta iota.
      rewrite Hupd.
      unfold send. destruct (transport_ok (sent w2)); reflexivity. }
    assert (io_only (try_except (send transport_ok (uid u) (PagesConfirmation pages))
                                (send transport_ok (uid u) TextError))) as Hio
      by (apply io_only_try_except; apply io_only_send).
    destruct (Hio w2) as (Hh & Hss & _).
    rewrite Hh, Hss, Hh2, Hh1, list_insert_insert_eq.
    split; [exact Hu2|]. split.
    + eexists. split; [eapply lookup_insert_heap, Hl|].
      rewrite patched_singleton. cbn. rewrite lookup_insert_eq. auto.
    + intros Hok.
      rewrite (try_except_Ok _ _ _ _ _
                 (send_ok _ _ _ ltac:(rewrite Hs2, Hs1; exact Hok))).
      cbn [snd outbox]. rewrite Ho2, Ho1. reflexivity.
Qed.

End Handler_facts.

(** ** Invariants of the heap of session objects

    A property [P] of the heap that is stable under the five ways the program
    changes a session object is kept by every store operation and by every
    handler.  Patches are restricted to the keys [ok_key] allows, so that the
    same development serves invariants that one of the keys would break. *)

Section Heap_invariants.

Variable clock : nat → Z.
Variable transport_ok : nat → bool.
Variable token_hex : nat → string.
Variable thread_ref : Z → Z → string.
Variable ADMIN_ID : Z.

Variable P : list UserSession → Prop.
Variable ok_key : string → Prop.

Hypothesis P_touch : ∀ h l t, P h → P (alter (set_last_activity t) l h).
Hypothesis P_step : ∀ h l st, P h → P (alter (set_step st) l h).
Hypothesis P_patch : ∀ h l (d : gmap string value),
  (∀ k, is_Some (d !! k) → ok_key k) →
  P h → P (alter (λ s, set_data (d ∪ data s) s) l h).
Hypothesis P_file : ∀ h l s e,
  h !! l = Some s → (length (files s) < Config.MAX_FILES_PER_ORDER)%nat →
  P h → P (alter (λ s, set_files (files s ++ [e]) s) l h).
Hypothesis P_alloc : ∀ h user st t1 t2,
  P h → P (h ++ [{| user_id := user; step := st; data := ∅; created_at := t1;
                    last_activity := t2; files := [] |}]).

Lemma keeps_ret {A} (a : A) : keeps P (ret a).
Proof. intros w H. exact H. Qed.

Lemma keeps_raise {A} e : keeps P (@raise A e).
Proof. intros w H. exact H. Qed.

Lemma keeps_lift {A} (o : outcome A) : keeps P (lift o).
Proof. intros w H. exact H. Qed.

Lemma keeps_bind {A B} (m : M A) (k : A → M B) :
  keeps P m → (∀ a, keeps P (k a)) → keeps P (bind m k).
Proof.
  intros Hm Hk w H. unfold bind. specialize (Hm w H).
  destruct (m w) as [[a|e] w1]; cbn [snd] in *; [apply Hk, Hm|exact Hm].
Qed.

Lemma keeps_try_except {A} (m h : M A) :
  keeps P m → keeps P h → keeps P (try_except m h).
Proof.
  intros Hm Hh w H. unfold try_except. specialize (Hm w H).
  destruct (m w) as [[a|e] w1]; cbn [snd] in *; [exact Hm|apply Hh, Hm].
Qed.

Lemma keeps_try_except_ValueError {A} (m h : M A) :
  keeps P m → keeps P h → keeps P (try_except_ValueError m h).
Proof.
  intros Hm Hh w H. unfold try_except_ValueError. specialize (Hm w H).
  destruct (m w) as [[a|[]] w1]; cbn [snd] in *; try exact Hm. apply Hh, Hm.
Qed.

Lemma keeps_try_except_clauses {A} (m h1 h2 : M A) :
  keeps P m → keeps P h1 → keeps P h2 → keeps P (try_except_clauses m h1 h2).
Proof.
  intros Hm Hh1 Hh2 w H. unfold try_except_clauses. specialize (Hm w H).
  destruct (m w) as [[a|[]] w1]; cbn [snd] in *;
    first [exact Hm | apply Hh1, Hm | apply Hh2, Hm].
Qed.

Lemma keeps_now : keeps P (now clock).
Proof. intros w H. exact H. Qed.

Lemma keeps_send target r : keeps P (send transport_ok target r).
Proof. intros w H. unfold send. destruct (transport_ok (sent w)); exact H. Qed.

Lemma keeps_answer : keeps P (answer transport_ok).
Proof. intros w H. unfold answer. destruct (transport_ok (sent w)); exact H. Qed.

Lemma keeps_next_token : keeps P (next_token token_hex).
Proof. intros w H. exact H. Qed.

Lemma keeps_read l : keeps P (read l).
Proof. intros w H. unfold read. destruct (heap w !! l); exact H. Qed.

Lemma keeps_get_sessions : keeps P get_sessions.
Proof. intros w H. exact H. Qed.

Lemma keeps_put_sessions m : keeps P (put_sessions m).
Proof. intros w H. exact H. Qed.

Lemma keeps_touch l t : keeps P (modify l (set_last_activity t)).
Proof. intros w H. apply P_touch, H. Qed.

Lemma keeps_set_step l st : keeps P (modify l (set_step st)).
Proof. intros w H. apply P_step, H. Qed.

Lemma keeps_patch l (d : gmap string value) :
  (∀ k, is_Some (d !! k) → ok_key k) →
  keeps P (modify l (λ s, set_data (d ∪ data s) s)).
Proof. intros Hd w H. apply P_patch; assumption. Qed.

Lemma keeps_alloc user st t1 t2 :
  keeps P (alloc {| user_id := user; step := st; data := ∅; created_at := t1;
                  last_activity := t2; files := [] |}).
Proof. intros w H. apply P_alloc, H. Qed.

Lemma keeps_add_file self fid fname fsize :
  keeps P (add_file clock self fid fname fsize).
Proof.
  intros w H. unfold add_file, bind, read.
  destruct (heap w !! self) as [s|] eqn:Hs; [|exact H].
  destruct (Nat.ltb_spec (length (files s)) Config.MAX_FILES_PER_ORDER) as [Hlt|Hge];
    [|exact H].
  cbn. eapply P_file; eassumption.
Qed.

Lemma keeps_cleanup_old_sessions : keeps P (cleanup_old_sessions clock).
Proof. intros w H. exact H. Qed.

Lemma keeps_get_session user : keeps P (get_session clock user).
Proof.
  unfold get_session.
  apply keeps_bind; [apply keeps_get_sessions|intros m].
  apply keeps_bind.
  { destruct (_ <? _)%nat; [apply keeps_cleanup_old_sessions|apply keeps_ret]. }
  intros _. apply keeps_bind; [apply keeps_get_sessions|intros m'].
  destruct (m' !! user) as [l|]; [|apply keeps_ret].
  apply keeps_bind; [apply keeps_now|intros t].
  apply keeps_bind; [apply keeps_touch|intros _]. apply keeps_ret.
Qed.

Lemma keeps_create_session user st : keeps P (create_session clock user st).
Proof.
  unfold create_session.
  apply keeps_bind; [apply keeps_now|intros t1].
  apply keeps_bind; [apply keeps_now|intros t2].
  apply keeps_bind; [apply keeps_alloc|intros l].
  apply keeps_bind; [apply keeps_get_sessions|intros m].
  apply keeps_bind; [apply keeps_put_sessions|intros _]. apply keeps_ret.
Qed.

Lemma truthy_dict_sub patch d k :
  truthy_dict patch = Some d → is_Some (d !! k) →
  ∃ d0, patch = Some d0 ∧ is_Some (d0 !! k).
Proof.
  unfold truthy_dict. destruct patch as [d0|]; [|discriminate].
  destruct (decide (d0 = ∅)); [discriminate|]. intros [= ->] Hk. eauto.
Qed.

Lemma keeps_update_session user st patch :
  (∀ d k, patch = Some d → is_Some (d !! k) → ok_key k) →
  keeps P (update_session clock user st patch).
Proof.
  intros Hpatch. unfold update_session.
  apply keeps_bind; [apply keeps_get_session|intros found].
  apply keeps_bind.
  { destruct found; [apply keeps_ret|apply keeps_create_session]. }
  intros l. apply keeps_bind.
  { destruct (truthy_str st); [apply keeps_set_step|apply keeps_ret]. }
  intros _. apply keeps_bind.
  { destruct (truthy_dict patch) as [d|] eqn:Hd; [|apply keeps_ret].
    apply keeps_patch. intros k Hk.
    destruct (truthy_dict_sub _ _ _ Hd Hk) as (d0 & -> & Hk0). eauto. }
  intros _. apply keeps_bind; [apply keeps_now|intros t]. apply keeps_touch.
Qed.

Lemma keeps_update_session_key user st k v :
  ok_key k → keeps P (update_session clock user st (Some {[ k := v ]})).
Proof.
  intros Hk. apply keeps_update_session. intros d k' [= <-] [x Hx].
  apply lookup_singleton_Some in Hx as [<- _]. exact Hk.
Qed.

Lemma keeps_update_session_None user st :
  keeps P (update_session clock user st None).
Proof. apply keeps_update_session. intros d k [=]. Qed.

Lemma keeps_clear_session user : keeps P (clear_session user).
Proof.
  unfold clear_session.
  apply keeps_bind; [apply keeps_get_sessions|intros m]. apply keeps_put_sessions.
Qed.

Lemma keeps_data_get session key : keeps P (data_get session key).
Proof.
  unfold data_get. destruct session; [|apply keeps_raise].
  apply keeps_bind; [apply keeps_read|intros s]. apply keeps_ret.
Qed.


Ltac keeps_step :=
  lazymatch goal with
  | |- keeps _ (ret _) => apply keeps_ret
  | |- keeps _ (raise _) => apply keeps_raise
  | |- keeps _ (lift _) => apply keeps_lift
  | |- keeps _ (send _ _ _) => apply keeps_send
  | |- keeps _ (answer _) => apply keeps_answer
  | |- keeps _ (next_token _) => apply keeps_next_token
  | |- keeps _ (now _) => apply keeps_now
  | |- keeps _ (read _) => apply keeps_read
  | |- keeps _ get_sessions => apply keeps_get_sessions
  | |- keeps _ (put_sessions _) => apply keeps_put_sessions
  | |- keeps _ (get_session _ _) => apply keeps_get_session
  | |- keeps _ (create_session _ _ _) => apply keeps_create_session
  | |- keeps _ (clear_session _) => apply keeps_clear_session
  | |- keeps _ (data_get _ _) => apply keeps_data_get
  | |- keeps _ (add_file _ _ _ _ _) => apply keeps_add_file
  | |- keeps _ (update_session _ _ _ None) => apply keeps_update_session_None
  | |- keeps _ (update_session _ _ _ (Some _)) =>
      apply keeps_update_session_key; assumption
  | |- keeps _ (try_except _ _) => apply keeps_try_except
  | |- keeps _ (try_except_ValueError _ _) => apply keeps_try_except_ValueError
  | |- keeps _ (try_except_clauses _ _ _) => apply keeps_try_except_clauses
  | |- keeps _ (bind _ _) => apply keeps_bind; [|intros ?]
  | |- keeps _ (match ?x with _ => _ end) => destruct x eqn:?
  | |- keeps _ (let _ := _ in _) => cbv zeta
  end.

Ltac keeps_go := repeat keeps_step.

Lemma keeps_start_command u : keeps P (start_command transport_ok u).
Proof. unfold start_command. keeps_go. Qed.

Lemma keeps_main_menu u : keeps P (main_menu transport_ok u).
Proof. unfold main_menu. keeps_go. Qed.

Lemma keeps_pricing_display u : keeps P (pricing_display transport_ok u).
Proof. unfold pricing_display. keeps_go. Qed.

Lemma keeps_info_display u : keeps P (info_display transport_ok u).
Proof. unfold info_display. keeps_go. Qed.

Lemma keeps_start_order_flow u : keeps P (start_order_flow clock transport_ok u).
Proof. unfold start_order_flow. keeps_go. Qed.

Lemma keeps_support_interface u : keeps P (support_interface clock transport_ok u).
Proof. unfold support_interface. keeps_go. Qed.

Lemma keeps_handle_level_selection u d :
  ok_key "level" → keeps P (handle_level_selection clock transport_ok u d).
Proof. intros Hk. unfold handle_level_selection. keeps_go. Qed.

Lemma keeps_handle_deadline_selection u d :
  ok_key "deadline" → ok_key "final_price" →
  keeps P (handle_deadline_selection clock transport_ok u d).
Proof. intros Hk1 Hk2. unfold handle_deadline_selection. keeps_go. Qed.

Lemma keeps_display_order_summary u :
  keeps P (display_order_summary clock transport_ok u).
Proof. unfold display_order_summary. keeps_go. Qed.

Lemma keeps_send_documents order_number files_count index fs :
  keeps P (send_documents transport_ok ADMIN_ID order_number files_count index fs).
Proof.
  revert index. induction fs as [|f fs IH]; intros index; cbn [send_documents].
  - apply keeps_ret.
  - apply keeps_bind; [keeps_go|intros _; apply IH].
Qed.

Lemma keeps_send_admin_notification u session order_number payment_type :
  keeps P (send_admin_notification transport_ok ADMIN_ID u session order_number
           payment_type).
Proof.
  unfold send_admin_notification.
  repeat first [apply keeps_send_documents | keeps_step].
Qed.

Lemma keeps_send_payment_info u payment_type :
  keeps P (send_payment_info clock transport_ok token_hex ADMIN_ID u payment_type).
Proof.
  unfold send_payment_info.
  repeat first [apply keeps_send_admin_notification | keeps_step].
Qed.

Lemma keeps_handle_support_message u text :
  keeps P (handle_support_message clock transport_ok thread_ref ADMIN_ID u text).
Proof. unfold handle_support_message. keeps_go. Qed.

Lemma keeps_file_handler u att : keeps P (file_handler clock transport_ok u att).
Proof. unfold file_handler. keeps_go. Qed.

Lemma keeps_admin_reply u args : keeps P (admin_reply transport_ok ADMIN_ID u args).
Proof. unfold admin_reply. keeps_go. Qed.

Lemma keeps_text_handler u text :
  ok_key "subject" → ok_key "pages" → ok_key "instructions_text" →
  keeps P (text_handler clock transport_ok thread_ref ADMIN_ID u text).
Proof.
  intros Hk1 Hk2 Hk3. unfold text_handler.
  apply keeps_bind; [keeps_go|intros [l|]]; [|keeps_go].
  apply keeps_try_except; [|keeps_go].
  apply keeps_bind; [keeps_go|intros s].
  repeat match goal with
         | |- keeps _ (if ?b then _ else _) => destruct b
         end;
    first [apply keeps_handle_support_message | keeps_go].
Qed.

Lemma keeps_button_handler u d :
  ok_key "level" →
  (PyStr.startswith d "deadline_" = true → ok_key "deadline" ∧ ok_key "final_price") →
  keeps P (button_handler clock transport_ok token_hex ADMIN_ID u d).
Proof.
  intros Hk1 Hk2. unfold button_handler.
  apply keeps_bind; [apply keeps_answer|intros _].
  apply keeps_try_except; [|apply keeps_send].
  repeat match goal with
         | |- keeps _ (if ?b then _ else _) => destruct b eqn:?
         end;
    first [ apply keeps_main_menu | apply keeps_start_order_flow
          | apply keeps_pricing_display | apply keeps_info_display
          | apply keeps_support_interface
          | apply keeps_handle_level_selection; assumption
          | apply keeps_handle_deadline_selection; apply Hk2; reflexivity
          | apply keeps_display_order_summary
          | apply keeps_send_payment_info
          | apply keeps_send
          | apply keeps_ret ].
Qed.

Lemma keeps_handle ev :
  ok_key "subject" → ok_key "level" → ok_key "pages" →
  ok_key "instructions_text" →
  (is_deadline_press ev = true → ok_key "deadline" ∧ ok_key "final_price") →
  keeps P (handle clock transport_ok token_hex thread_ref ADMIN_ID ev).
Proof.
  intros H1 H2 H3 H4 H5.
  destruct ev as [u|u|u args|u d|u att|u text]; cbn [handle].
  - apply keeps_start_command.
  - apply keeps_main_menu.
  - apply keeps_admin_reply.
  - apply keeps_button_handler; assumption.
  - apply keeps_file_handler.
  - apply keeps_text_handler; assumption.
Qed.

End Heap_invariants.

Section Claims.

Variable clock : nat → Z.
Variable transport_ok : nat → bool.
Variable token_hex : nat → string.
Variable thread_ref : Z → Z → string.
Variable ADMIN_ID : Z.

Lemma Forall_within_cap_alter (f : UserSession → UserSession) h l :
  (∀ s, files (f s) = files s) →
  Forall within_cap h → Forall within_cap (alter f l h).
Proof.
  intros Hf Hh. apply Forall_alter; [exact Hh|].
  intros s _ Hs. unfold within_cap in *. rewrite Hf. exact Hs.
Qed.

Lemma within_cap_kept ev w :
  Forall within_cap (heap w) →
  Forall within_cap
    (heap (after clock transport_ok token_hex thread_ref ADMIN_ID ev w)).
Proof.
  apply (keeps_handle clock transport_ok token_hex thread_ref ADMIN_ID
           (Forall within_cap) (λ _, True)); auto.
  - intros h l t. apply Forall_within_cap_alter. reflexivity.
  - intros h l st. apply Forall_within_cap_alter. reflexivity.
  - intros h l d _. apply Forall_within_cap_alter. reflexivity.
  - intros h l s e Hl Hlen Hh. apply Forall_alter; [exact Hh|].
    intros s' Hl' _. rewrite Hl in Hl'. injection Hl' as <-.
    unfold within_cap. cbn. rewrite length_app. cbn. lia.
  - intros h user st t1 t2 Hh. apply Forall_app. split; [exact Hh|].
    apply Forall_singleton. unfold within_cap. cbn. unfold Config.MAX_FILES_PER_ORDER. lia.
Qed.

Lemma same_final_price_alter (f : UserSession → UserSession) h0 h l :
  (∀ s, h !! l = Some s → data (f s) !! "final_price" = data s !! "final_price") →
  same_final_price h0 h → same_final_price h0 (alter f l h).
Proof.
  intros Hf Hh l0 s0 Hl0. destruct (Hh l0 s0 Hl0) as (s' & Hs' & Hfp).
  destruct (decide (l = l0)) as [->|Hne].
  - exists (f s'). rewrite list_lookup_alter_eq, Hs'. split; [reflexivity|].
    rewrite Hf by exact Hs'. exact Hfp.
  - exists s'. rewrite list_lookup_alter_ne by exact Hne. auto.
Qed.

Lemma final_price_kept ev w :
  is_deadline_press ev = false →
  same_final_price (heap w)
    (heap (after clock transport_ok token_hex thread_ref ADMIN_ID ev w)).
Proof.
  intros Hev.
  apply (keeps_handle clock transport_ok token_hex thread_ref ADMIN_ID
           (same_final_price (heap w)) (λ k, k ≠ "final_price")); try discriminate.
  - intros h l t. apply same_final_price_alter. reflexivity.
  - intros h l st. apply same_final_price_alter. reflexivity.
  - intros h l d Hd. apply same_final_price_alter. intros s _. cbn.
    apply lookup_union_r. destruct (d !! "final_price") eqn:Hfp; [|reflexivity].
    exfalso. apply (Hd "final_price"); eauto.
  - intros h l s e _ _. apply same_final_price_alter. reflexivity.
  - intros h user st t1 t2 Hh l s Hl. destruct (Hh l s Hl) as (s' & Hs' & Hfp).
    exists s'. split; [|exact Hfp]. apply lookup_app_l_Some, Hs'.
  - rewrite Hev. discriminate.
  - intros l s Hl. eauto.
Qed.

End Claims.

Section Transitions.

Variable clock : nat → Z.
Variable transport_ok : nat → bool.
Variable token_hex : nat → string.
Variable thread_ref : Z → Z → string.
Variable ADMIN_ID : Z.

Lemma data_get_run w l s key :
  heap w !! l = Some s → data_get (Some l) key w = (Ok (data s !! key), w).
Proof. intros H. unfold data_get, bind, read, ret. rewrite H. reflexivity. Qed.

(** The deadline transition on a live session whose price computes. *)
Lemma handle_deadline_selection_run w u d l s price :
  sessions w !! uid u = Some l → heap w !! l = Some s → live clock w s 8 →
  Utils.calculate_price (data s !! "level") (PyStr.remove_all d "deadline_")
    (default (VInt 1) (data s !! "pages")) = Ok price →
  ∃ w3 t,
    handle_deadline_selection clock transport_ok u d w
    = send transport_ok (uid u) InstructionsPrompt w3
    ∧ sessions w3 !! uid u = Some l
    ∧ heap w3 =
      <[l := set_last_activity t
               (set_data (<["final_price" := VFloat price]>
                            (<["deadline" := VStr (PyStr.remove_all d "deadline_")]>
                               (data s)))
                  (set_step "order_instructions" s))]> (heap w)
    ∧ same_io w w3.
Proof.
  intros Hu Hl Hlive Hprice.
  destruct (get_session_live clock w (uid u) l s 6 Hu Hl Hlive)
    as (w1 & t1 & Hget & Hu1 & Hh1 & Hlive1 & (Hs1 & Hk1 & Ho1) & _).
  assert (heap w1 !! l = Some (set_last_activity t1 s)) as Hl1
    by (rewrite Hh1; eapply lookup_insert_heap, Hl).
  destruct (update_session_live clock w1 (uid u) l _ (Some "order_instructions")
              (Some {[ "deadline" := VStr (PyStr.remove_all d "deadline_") ]}) 3
              Hu1 Hl1 Hlive1)
    as (w2 & t2 & Hupd1 & Hu2 & Hh2 & Hlive2 & (Hs2 & Hk2 & Ho2) & _).
  rewrite patched_singleton in Hh2, Hlive2.
  match type of Hh2 with _ = <[_ := ?x]> _ => set (s2 := x) in * end.
  assert (heap w2 !! l = Some s2) as Hl2
    by (rewrite Hh2; eapply lookup_insert_heap, Hl1).
  destruct (update_session_live clock w2 (uid u) l _ None
              (Some {[ "final_price" := VFloat price ]}) 0 Hu2 Hl2 Hlive2)
    as (w3 & t3 & Hupd2 & Hu3 & Hh3 & _ & (Hs3 & Hk3 & Ho3) & _).
  rewrite patched_singleton in Hh3.
  exists w3, t3. split; [|split; [exact Hu3|split]].
  - unfold handle_deadline_selection.
    rewrite (bind_Ok _ _ _ _ _ Hget), (bind_Ok _ _ _ _ _ Hupd1).
    rewrite (bind_Ok _ _ _ _ _ (data_get_run _ _ _ "level" Hl2)).
    rewrite (bind_Ok _ _ _ _ _ (data_get_run _ _ _ "pages" Hl2)).
    assert (data s2 !! "level" = data s !! "level") as ->
      by (subst s2; cbn; apply lookup_insert_ne; discriminate).
    assert (data s2 !! "pages" = data s !! "pages") as ->
      by (subst s2; cbn; apply lookup_insert_ne; discriminate).
    unfold bind at 1, lift. rewrite Hprice. cbn beta iota.
    rewrite (bind_Ok _ _ _ _ _ Hupd2). reflexivity.
  - rewrite Hh3, Hh2, Hh1, !list_insert_insert_eq. reflexivity.
  - unfold same_io. rewrite Hs3, Hs2, Hs1, Hk3, Hk2, Hk1, Ho3, Ho2, Ho1. auto.
Qed.


Lemma of_int_1 : B64.of_int 1 = Ok (B64.lit 1 0).
Proof. vm_compute. reflexivity. Qed.

Lemma calculate_price_one_page level key :
  ∃ price, Utils.calculate_price level key (VInt 1) = Ok price.
Proof.
  unfold Utils.calculate_price.
  destruct (AcademicConfig.LEVELS_get level); [|eauto].
  unfold float_mul. rewrite of_int_1. cbn [obind]. eauto.
Qed.

Lemma calculate_price_no_level key pages :
  Utils.calculate_price None key pages = Ok (B64.lit 0 0).
Proof. reflexivity. Qed.

Lemma send_result target r w :
  (send transport_ok target r w).1
  = if transport_ok (sent w) then Ok () else Raise TransportError.
Proof. unfold send. destruct (transport_ok (sent w)); reflexivity. Qed.

(** C10: at the deadline transition a session without a [pages] entry is
    priced for one page and a session without a [level] entry is priced
    0.0; either way [final_price] and the deadline are stored, the step
    becomes [order_instructions] and the handler does not raise (as long
    as the transport delivers the next prompt). *)
Theorem deadline_selection_defaults (w : World) (u : User) (d : string)
    (l : nat) (s : UserSession) :
  sessions w !! uid u = Some l → heap w !! l = Some s → live clock w s 8 →
  data s !! "pages" = None ∨ data s !! "level" = None →
  let key := PyStr.remove_all d "deadline_" in
  let r := handle_deadline_selection clock transport_ok u d w in
  ∃ price,
    Utils.calculate_price (data s !! "level") key
      (default (VInt 1) (data s !! "pages")) = Ok price
    ∧ (data s !! "pages" = None →
       Utils.calculate_price (data s !! "level") key (VInt 1) = Ok price)
    ∧ (data s !! "level" = None → price = B64.lit 0 0)
    ∧ sessions r.2 !! uid u = Some l
    ∧ (∃ s', heap r.2 !! l = Some s'
             ∧ step s' = "order_instructions"
             ∧ data s' !! "final_price" = Some (VFloat price)
             ∧ data s' !! "deadline" = Some (VStr key))
    ∧ (transport_ok (sent w) = true → r.1 = Ok ()).
Proof.
  intros Hu Hl Hlive Hmissing key r.
  assert (∃ price, Utils.calculate_price (data s !! "level") key
                     (default (VInt 1) (data s !! "pages")) = Ok price)
    as [price Hprice].
  { destruct Hmissing as [->| ->]; [apply calculate_price_one_page|].
    rewrite calculate_price_no_level. eauto. }
  exists price. split; [exact Hprice|].
  split; [intros Hp; rewrite Hp in Hprice; exact Hprice|].
  split.
  { intros Hlv. rewrite Hlv, calculate_price_no_level in Hprice. congruence. }
  destruct (handle_deadline_selection_run w u d l s price Hu Hl Hlive Hprice)
    as (w3 & t & Hrun & Hu3 & Hh3 & (Hs3 & _ & _)).
  subst r. rewrite Hrun.
  destruct (io_only_send transport_ok (uid u) InstructionsPrompt w3) as (Hh & Hss & _).
  rewrite Hh, Hss, send_result, Hs3. split; [exact Hu3|]. split.
  - eexists. split; [rewrite Hh3; eapply lookup_insert_heap, Hl|].
    cbn. rewrite lookup_insert_eq, lookup_insert_ne, lookup_insert_eq by discriminate.
    auto.
  - intros ->. reflexivity.
Qed.


(** *** Messages only accumulate *)

Lemma appends_same {A} (m : M A) :
  (∀ w, outbox (m w).2 = outbox w) → appends m.
Proof. intros H w. exists []. rewrite H, app_nil_r. reflexivity. Qed.

Lemma appends_send target r : appends (send transport_ok target r).
Proof.
  intros w. unfold send. destruct (transport_ok (sent w)); cbn [snd outbox].
  - eauto.
  - exists []. rewrite app_nil_r. reflexivity.
Qed.

Lemma appends_bind {A B} (m : M A) (k : A → M B) :
  appends m → (∀ a, appends (k a)) → appends (bind m k).
Proof.
  intros Hm Hk w. unfold bind. destruct (Hm w) as [r1 H1].
  destruct (m w) as [[a|e] w1]; cbn [snd] in *; [|eauto].
  destruct (Hk a w1) as [r2 H2]. exists (r1 ++ r2)%list.
  rewrite H2, H1, app_assoc. reflexivity.
Qed.

Lemma appends_try_except {A} (m h : M A) :
  appends m → appends h → appends (try_except m h).
Proof.
  intros Hm Hh w. unfold try_except. destruct (Hm w) as [r1 H1].
  destruct (m w) as [[a|e] w1]; cbn [snd] in *; [eauto|].
  destruct (Hh w1) as [r2 H2]. exists (r1 ++ r2)%list.
  rewrite H2, H1, app_assoc. reflexivity.
Qed.

Lemma appends_send_documents order_number files_count index fs :
  appends (send_documents transport_ok ADMIN_ID order_number files_count index fs).
Proof.
  revert index. induction fs as [|f fs IH]; intros index; cbn [send_documents].
  - apply appends_same. reflexivity.
  - apply appends_bind; [|intros _; apply IH].
    apply appends_try_except; [apply appends_send|apply appends_same; reflexivity].
Qed.

Lemma appends_lift {A} (o : outcome A) : appends (lift o).
Proof. apply appends_same. reflexivity. Qed.

Lemma appends_read l : appends (read l).
Proof. apply appends_same. intros w. unfold read. destruct (heap w !! l); reflexivity. Qed.

Lemma appends_send_admin_notification u session order_number payment_type :
  appends (send_admin_notification transport_ok ADMIN_ID u session order_number
             payment_type).
Proof.
  unfold send_admin_notification.
  apply appends_try_except; [|apply appends_same; reflexivity].
  apply appends_bind; [apply appends_read|intros s].
  repeat (apply appends_bind; [apply appends_lift|intros ?]).
  apply appends_bind; [apply appends_send|intros _].
  apply appends_send_documents.
Qed.

Lemma appends_clear_session user : appends (clear_session user).
Proof. apply appends_same. reflexivity. Qed.

(** *** Summary and payment texts *)

Lemma display_order_summary_run w u l s lvl label instr price :
  sessions w !! uid u = Some l → heap w !! l = Some s → live clock w s 2 →
  catalog_level (data s !! "level") = Ok lvl →
  catalog_deadline_label (data s !! "deadline") = Ok label →
  first_50 (default (VStr "Aucune") (data s !! "instructions_text")) = Ok instr →
  Utils.format_price (default (VInt 0) (data s !! "final_price")) = Ok price →
  ∃ w1 t,
    display_order_summary clock transport_ok u w
    = send transport_ok (uid u)
        (SummaryText (default (VStr "Non défini") (data s !! "subject")) lvl
           (data s !! "pages") label instr (length (files s)) price) w1
    ∧ sessions w1 !! uid u = Some l
    ∧ heap w1 = <[l := set_last_activity t s]> (heap w)
    ∧ same_io w w1.
Proof.
  intros Hu Hl Hlive Hlvl Hlabel Hinstr Hprice.
  destruct (get_session_live clock w (uid u) l s 0 Hu Hl Hlive)
    as (w1 & t & Hget & Hu1 & Hh1 & _ & Hio & _).
  assert (heap w1 !! l = Some (set_last_activity t s)) as Hl1
    by (rewrite Hh1; eapply lookup_insert_heap, Hl).
  exists w1, t. split; [|auto].
  unfold display_order_summary.
  rewrite (bind_Ok _ _ _ _ _ Hget), (bind_Ok _ _ _ _ _ (read_run _ _ _ Hl1)).
  cbn [data files set_last_activity].
  unfold bind, lift. rewrite Hlvl, Hlabel, Hinstr, Hprice. reflexivity.
Qed.

Lemma send_payment_info_run w u payment_type l s price text :
  sessions w !! uid u = Some l → heap w !! l = Some s → live clock w s 2 →
  Utils.format_price (default (VInt 0) (data s !! "final_price")) = Ok price →
  payment_text payment_type ("EDU" +:+ token_hex (tokens w)) price = Some text →
  transport_ok (sent w) = true →
  ∃ rest,
    outbox (send_payment_info clock transport_ok token_hex ADMIN_ID u payment_type w).2
    = (outbox w ++ (uid u, text) :: rest)%list.
Proof.
  intros Hu Hl Hlive Hprice Htext Hok.
  destruct (get_session_live clock w (uid u) l s 0 Hu Hl Hlive)
    as (w1 & t & Hget & Hu1 & Hh1 & _ & (Hs1 & Hk1 & Ho1) & _).
  assert (heap w1 !! l = Some (set_last_activity t s)) as Hl1
    by (rewrite Hh1; eapply lookup_insert_heap, Hl).
  unfold send_payment_info. rewrite (bind_Ok _ _ _ _ _ Hget).
  unfold bind at 1, next_token. cbn beta iota.
  match goal with
  | |- context [bind (read l) _ ?w2] => set (w2' := w2)
  end.
  assert (heap w2' !! l = Some (set_last_activity t s)) as Hl2 by exact Hl1.
  rewrite (bind_Ok _ _ _ _ _ (read_run _ _ _ Hl2)).
  cbn [data set_last_activity]. rewrite Hk1.
  assert (∀ k : reply → M unit,
            bind (if String.eqb payment_type "transfer"
                  then let* price := lift (Utils.format_price
                                      (default (VInt 0) (data s !! "final_price"))) in
                       ret (TransferInstructions ("EDU" +:+ token_hex (tokens w)) price)
                  else match AcademicConfig.CRYPTO !! payment_type with
                       | Some crypto_config =>
                           let* price := lift (Utils.format_price
                                           (default (VInt 0) (data s !! "final_price"))) in
                           ret (CryptoInstructions crypto_config
                                  ("EDU" +:+ token_hex (tokens w)) price)
                       | None => raise KeyError
                       end) k w2' = k text w2') as ->.
  { intros k. unfold payment_text in Htext. unfold bind, lift, ret.
    destruct (String.eqb payment_type "transfer").
    - rewrite Hprice. injection Htext as <-. reflexivity.
    - destruct (AcademicConfig.CRYPTO !! payment_type); [|discriminate].
      rewrite Hprice. injection Htext as <-. reflexivity. }
  assert (transport_ok (sent w2') = true) as Hok2 by (cbn; rewrite Hs1; exact Hok).
  rewrite (bind_Ok _ _ _ _ _ (send_ok _ _ _ _ Hok2)).
  match goal with
  | |- context [bind ?m ?k ?w3] =>
      destruct (appends_bind m k
                  (appends_send_admin_notification _ _ _ _)
                  (λ _, appends_clear_session _) w3) as [rest Hrest]
  end.
  exists rest. rewrite Hrest. subst w2'. cbn [outbox]. rewrite Ho1, <- app_assoc. reflexivity.
Qed.


(** *** Key presses *)

Lemma answer_ok w :
  transport_ok (sent w) = true → answer transport_ok w = (Ok (), acked w).
Proof. intros H. unfold answer. rewrite H. reflexivity. Qed.

Lemma button_handler_level w u d :
  PyStr.startswith d "level_" = true → transport_ok (sent w) = true →
  button_handler clock transport_ok token_hex ADMIN_ID u d w
  = try_except (handle_level_selection clock transport_ok u d)
               (send transport_ok (uid u) TemporaryError) (acked w).
Proof.
  intros Hd Hok. unfold button_handler.
  rewrite (bind_Ok _ _ _ _ _ (answer_ok _ Hok)).
  destruct d as [|a d']; [discriminate|].
  pose proof Hd as Hd'. unfold PyStr.startswith in Hd'. cbn [String.prefix] in Hd'.
  destruct (ascii_dec "l" a) as [<-|]; [|discriminate].
  rewrite Hd. reflexivity.
Qed.

Lemma button_handler_deadline w u d :
  PyStr.startswith d "deadline_" = true → transport_ok (sent w) = true →
  button_handler clock transport_ok token_hex ADMIN_ID u d w
  = try_except (handle_deadline_selection clock transport_ok u d)
               (send transport_ok (uid u) TemporaryError) (acked w).
Proof.
  intros Hd Hok. unfold button_handler.
  rewrite (bind_Ok _ _ _ _ _ (answer_ok _ Hok)).
  destruct d as [|a d']; [discriminate|].
  pose proof Hd as Hd'. unfold PyStr.startswith in Hd'. cbn [String.prefix] in Hd'.
  destruct (ascii_dec "d" a) as [<-|]; [|discriminate].
  rewrite Hd. reflexivity.
Qed.

Lemma live_acked w s n : live clock w s n → live clock (acked w) s n.
Proof. exact id. Qed.

Lemma handle_level_selection_unknown w u d l s :
  sessions w !! uid u = Some l → heap w !! l = Some s → live clock w s 3 →
  AcademicConfig.LEVELS !! PyStr.remove_all d "level_" = None →
  ∃ w1 t,
    handle_level_selection clock transport_ok u d w = (Raise KeyError, w1)
    ∧ sessions w1 !! uid u = Some l
    ∧ heap w1 =
      <[l := set_last_activity t
               (set_data (<["level" := VStr (PyStr.remove_all d "level_")]> (data s))
                  (set_step "order_pages" s))]> (heap w)
    ∧ same_io w w1.
Proof.
  intros Hu Hl Hlive Hkey.
  destruct (update_session_live clock w (uid u) l s (Some "order_pages")
              (Some {[ "level" := VStr (PyStr.remove_all d "level_") ]}) 0
              Hu Hl Hlive)
    as (w1 & t & Hupd & Hu1 & Hh1 & _ & Hio & _).
  rewrite patched_singleton in Hh1.
  exists w1, t. split; [|auto].
  unfold handle_level_selection. rewrite (bind_Ok _ _ _ _ _ Hupd), Hkey. reflexivity.
Qed.

(** C7 (amended): a key press is not checked against the catalog before the
    session is updated.  A level press with an unknown key stores the key
    under [level] and moves the session to [order_pages]; the catalog
    lookup that follows fails and the button dispatcher answers with the
    generic error message.  A deadline press with an unknown key stores the
    key under [deadline] and the price computed for it under
    [final_price], and moves the session to [order_instructions]. *)
Theorem unknown_key_press_mutates (w : World) (u : User) (d : string)
    (l : nat) (s : UserSession) :
  sessions w !! uid u = Some l → heap w !! l = Some s → live clock w s 8 →
  transport_ok (sent w) = true →
  let w' := (button_handler clock transport_ok token_hex ADMIN_ID u d w).2 in
  (PyStr.startswith d "level_" = true →
   AcademicConfig.LEVELS !! PyStr.remove_all d "level_" = None →
   sessions w' !! uid u = Some l
   ∧ (∃ s', heap w' !! l = Some s' ∧ step s' = "order_pages"
            ∧ data s' = <["level" := VStr (PyStr.remove_all d "level_")]> (data s))
   ∧ (transport_ok (S (sent w)) = true →
      outbox w' = (outbox w ++ [(uid u, TemporaryError)])%list))
  ∧ (PyStr.startswith d "deadline_" = true →
     AcademicConfig.DEADLINES !! PyStr.remove_all d "deadline_" = None →
     ∀ price,
       Utils.calculate_price (data s !! "level") (PyStr.remove_all d "deadline_")
         (default (VInt 1) (data s !! "pages")) = Ok price →
       sessions w' !! uid u = Some l
       ∧ (∃ s', heap w' !! l = Some s' ∧ step s' = "order_instructions"
                ∧ data s' = <["final_price" := VFloat price]>
                              (<["deadline" := VStr (PyStr.remove_all d "deadline_")]>
                                 (data s)))
       ∧ (transport_ok (S (sent w)) = true →
          outbox w' = (outbox w ++ [(uid u, InstructionsPrompt)])%list)).
Proof.
  intros Hu Hl Hlive Hok w'. split.
  - intros Hd Hkey. subst w'. rewrite (button_handler_level _ _ _ Hd Hok).
    assert (live clock (acked w) s 3) as Hlive3.
    { destruct Hlive as [Hcap|[Hfresh Hsteady]]; [left; exact Hcap|right].
      split; [intros j ? ?; apply Hfresh; cbn in *; lia|].
      intros i j ? ? ?; apply Hsteady; cbn in *; lia. }
    destruct (handle_level_selection_unknown (acked w) u d l s Hu Hl Hlive3 Hkey)
      as (w1 & t & Hrun & Hu1 & Hh1 & (Hs1 & _ & Ho1)).
    rewrite (try_except_Raise _ _ _ _ _ Hrun).
    destruct (io_only_send transport_ok (uid u) TemporaryError w1) as (Hh & Hss & _).
    rewrite Hh, Hss. split; [exact Hu1|]. split.
    + eexists. split; [rewrite Hh1; eapply lookup_insert_heap, Hl|]. auto.
    + intros Hok1. rewrite send_ok by (rewrite Hs1; exact Hok1).
      cbn [snd outbox]. rewrite Ho1. reflexivity.
  - intros Hd _ price Hprice. subst w'.
    rewrite (button_handler_deadline _ _ _ Hd Hok).
    destruct (handle_deadline_selection_run (acked w) u d l s price Hu Hl Hlive Hprice)
      as (w3 & t & Hrun & Hu3 & Hh3 & (Hs3 & _ & Ho3)).
    unfold try_except. rewrite Hrun.
    pose proof (io_only_send transport_ok (uid u) InstructionsPrompt w3) as (Hh & Hss & _).
    pose proof (send_result (uid u) InstructionsPrompt w3) as Hres.
    destruct (send transport_ok (uid u) InstructionsPrompt w3) as [[[]|e] w4] eqn:Hsend;
      cbn [fst snd] in *.
    + rewrite Hh, Hss. split; [exact Hu3|]. split.
      * eexists. split; [rewrite Hh3; eapply lookup_insert_heap, Hl|]. auto.
      * intros Hok1. rewrite send_ok in Hsend by (rewrite Hs3; exact Hok1).
        injection Hsend as <-. cbn [outbox]. rewrite Ho3. reflexivity.
    + destruct (io_only_send transport_ok (uid u) TemporaryError w4) as (Hh' & Hss' & _).
      rewrite Hh', Hss', Hh, Hss. split; [exact Hu3|]. split.
      * eexists. split; [rewrite Hh3; eapply lookup_insert_heap, Hl|]. auto.
      * intros Hok1. rewrite send_ok in Hsend by (rewrite Hs3; exact Hok1).
        discriminate.
Qed.

End Transitions.

Section Store_claims.

Variable clock : nat → Z.
Variable transport_ok : nat → bool.
Variable token_hex : nat → string.
Variable thread_ref : Z → Z → string.
Variable ADMIN_ID : Z.

Lemma add_file_at_cap w self fid fname fsize s :
  heap w !! self = Some s →
  (Config.MAX_FILES_PER_ORDER ≤ length (files s))%nat →
  add_file clock self fid fname fsize w = (Ok false, w).
Proof.
  intros Hs Hcap. unfold add_file. rewrite (bind_Ok _ _ _ _ _ (read_run _ _ _ Hs)).
  destruct (Nat.ltb_spec (length (files s)) Config.MAX_FILES_PER_ORDER); [lia|].
  reflexivity.
Qed.

Lemma file_handler_at_cap w u att l s :
  sessions w !! uid u = Some l → heap w !! l = Some s →
  step s = "order_files" →
  (Config.MAX_FILES_PER_ORDER ≤ length (files s))%nat →
  live clock w s 2 →
  ∃ w1 t,
    file_handler clock transport_ok u att w
    = send transport_ok (uid u) FileLimitReached w1
    ∧ sessions w1 !! uid u = Some l
    ∧ heap w1 = <[l := set_last_activity t s]> (heap w)
    ∧ same_io w w1.
Proof.
  intros Hu Hl Hstep Hcap Hlive.
  destruct (get_session_live clock w (uid u) l s 0 Hu Hl Hlive)
    as (w1 & t & Hget & Hu1 & Hh1 & _ & Hio & _).
  assert (heap w1 !! l = Some (set_last_activity t s)) as Hl1
    by (rewrite Hh1; eapply lookup_insert_heap, Hl).
  exists w1, t. split; [|auto].
  unfold file_handler. rewrite (bind_Ok _ _ _ _ _ Hget).
  unfold bind at 1. unfold bind at 1. rewrite (read_run _ _ _ Hl1).
  cbn [step set_last_activity]. rewrite Hstep, String.eqb_refl.
  unfold ret at 1. cbn beta iota.
  rewrite (bind_Ok _ _ _ _ _ (read_run _ _ _ Hl1)).
  cbn [files set_last_activity].
  destruct (Nat.leb_spec Config.MAX_FILES_PER_ORDER (length (files s))); [reflexivity|lia].
Qed.

Lemma within_cap_reachable evs w :
  Forall within_cap (heap w) →
  Forall within_cap
    (heap (run clock transport_ok token_hex thread_ref ADMIN_ID evs w)).
Proof.
  revert w. induction evs as [|ev evs IH]; intros w Hw; cbn [run]; [exact Hw|].
  apply IH, within_cap_kept, Hw.
Qed.

(** C4: no session object ever holds more than [MAX_FILES_PER_ORDER] files.
    The bound holds in every world reachable from the empty store and is
    kept by every event; [add_file] on a full list returns [False] and
    changes nothing; the file handler answers a full session with the
    limit message and leaves its files alone. *)
Theorem files_never_exceed_cap :
  (∀ evs l s,
     heap (run clock transport_ok token_hex thread_ref ADMIN_ID evs initial_world)
       !! l = Some s →
     (length (files s) ≤ Config.MAX_FILES_PER_ORDER)%nat)
  ∧ (∀ ev w,
       Forall within_cap (heap w) →
       Forall within_cap
         (heap (after clock transport_ok token_hex thread_ref ADMIN_ID ev w)))
  ∧ (∀ w self fid fname fsize s,
       heap w !! self = Some s →
       (Config.MAX_FILES_PER_ORDER ≤ length (files s))%nat →
       add_file clock self fid fname fsize w = (Ok false, w))
  ∧ (∀ w u att l s,
       sessions w !! uid u = Some l → heap w !! l = Some s →
       step s = "order_files" →
       (Config.MAX_FILES_PER_ORDER ≤ length (files s))%nat →
       live clock w s 2 →
       let w' := (file_handler clock transport_ok u att w).2 in
       (∃ s', heap w' !! l = Some s' ∧ files s' = files s)
       ∧ (transport_ok (sent w) = true →
          outbox w' = (outbox w ++ [(uid u, FileLimitReached)])%list)).
Proof.
  split; [|split; [|split]].
  - intros evs l s Hl.
    pose proof (within_cap_reachable evs initial_world (Forall_nil_2 _)) as Hall.
    rewrite Forall_lookup in Hall. exact (Hall l s Hl).
  - intros ev w. apply within_cap_kept.
  - apply add_file_at_cap.
  - intros w u att l s Hu Hl Hstep Hcap Hlive w'.
    destruct (file_handler_at_cap w u att l s Hu Hl Hstep Hcap Hlive)
      as (w1 & t & Hrun & Hu1 & Hh1 & (Hs1 & _ & Ho1)).
    subst w'. rewrite Hrun.
    destruct (io_only_send transport_ok (uid u) FileLimitReached w1) as (Hh & _).
    rewrite Hh. split.
    + eexists. split; [rewrite Hh1; eapply lookup_insert_heap, Hl|reflexivity].
    + intros Hok. rewrite send_ok by (rewrite Hs1; exact Hok).
      cbn [snd outbox]. rewrite Ho1. reflexivity.
Qed.

(** C5: [create_session] binds the user to a new object with empty data and
    no files, whatever the store held for that user; starting an order does
    exactly that with step [order_subject], so the data of an unfinished
    order is no longer reachable from the store. *)
Theorem create_session_replaces (w : World) (user : Z) (st : string) (u : User) :
  let r := create_session clock user st w in
  let w' := (start_order_flow clock transport_ok u w).2 in
  r.1 = Ok (length (heap w))
  ∧ sessions r.2 = <[user := length (heap w)]> (sessions w)
  ∧ heap r.2 =
    (heap w ++ [{| user_id := user; step := st; data := ∅;
                   created_at := clock (ticks w);
                   last_activity := clock (S (ticks w)); files := [] |}])%list
  ∧ (∃ s', sessions r.2 !! user = Some (length (heap w))
           ∧ heap r.2 !! length (heap w) = Some s'
           ∧ step s' = st ∧ data s' = ∅ ∧ files s' = [])
  ∧ (∀ l s, heap w !! l = Some s → l ≠ length (heap w) ∧ heap r.2 !! l = Some s)
  ∧ (∃ s', sessions w' !! uid u = Some (length (heap w))
           ∧ heap w' !! length (heap w) = Some s'
           ∧ step s' = "order_subject" ∧ data s' = ∅ ∧ files s' = [])
  ∧ (∀ l s, heap w !! l = Some s → sessions w' !! uid u ≠ Some l).
Proof.
  intros r w'. subst r. rewrite create_session_run. cbn [fst snd sessions heap].
  split; [reflexivity|]. split; [reflexivity|]. split; [reflexivity|].
  split.
  { eexists. split; [apply lookup_insert_eq|].
    split; [apply list_lookup_middle; reflexivity|]. auto. }
  split.
  { intros l s Hl. pose proof (lookup_lt_Some _ _ _ Hl).
    split; [lia|]. apply lookup_app_l_Some, Hl. }
  assert (sessions w' = <[uid u := length (heap w)]> (sessions w)
          ∧ heap w' = (heap w ++ [{| user_id := uid u; step := "order_subject";
                                     data := ∅; created_at := clock (ticks w);
                                     last_activity := clock (S (ticks w));
                                     files := [] |}])%list) as [Hs Hh].
  { subst w'. unfold start_order_flow.
    rewrite (bind_Ok _ _ _ _ _ (create_session_run clock w (uid u) "order_subject")).
    destruct (io_only_send transport_ok (uid u) OrderSubjectPrompt
                (create_session clock (uid u) "order_subject" w).2) as (Hh & Hss & _).
    rewrite create_session_run in Hh, Hss. cbn [snd heap sessions] in Hh, Hss.
    rewrite Hh, Hss. auto. }
  rewrite Hs, Hh. split.
  { eexists. split; [apply lookup_insert_eq|].
    split; [apply list_lookup_middle; reflexivity|]. auto. }
  intros l s Hl. rewrite lookup_insert_eq. intros [= <-].
  apply lookup_lt_Some in Hl. lia.
Qed.

(** C9: while the store is within capacity, [get_session] returns the stored
    session whatever its idle time and stamps it with the current time. *)
Theorem get_session_revives (w : World) (user : Z) (l : nat) (s : UserSession) :
  (size (sessions w) ≤ Config.MAX_SESSIONS)%nat →
  sessions w !! user = Some l → heap w !! l = Some s →
  let r := get_session clock user w in
  r.1 = Ok (Some l)
  ∧ sessions r.2 = sessions w
  ∧ heap r.2 = <[l := set_last_activity (clock (ticks w)) s]> (heap w)
  ∧ (∃ s', heap r.2 !! l = Some s' ∧ last_activity s' = clock (ticks w)
           ∧ step s' = step s ∧ data s' = data s ∧ files s' = files s).
Proof.
  intros Hcap Hu Hl r. subst r. rewrite get_session_run. cbv zeta.
  assert (swept clock w = w) as ->.
  { unfold swept. destruct (Nat.ltb_spec Config.MAX_SESSIONS (size (sessions w)));
      [lia|reflexivity]. }
  rewrite Hu. cbn [fst snd sessions heap].
  rewrite (alter_lookup_insert _ _ _ _ Hl).
  repeat split.
  eexists. split; [eapply lookup_insert_heap, Hl|]. auto.
Qed.

(** C8 (amended): the sweep removes exactly the sessions idle for longer
    than the timeout; [get_session] runs it first whenever the store holds
    more than [MAX_SESSIONS] sessions, so that a session idle for longer
    than the timeout is then absent from that [get_session];
    [create_session] never runs it and keeps every other entry of the
    store. *)
Theorem sweep_on_get_only :
  (∀ w user l,
     sessions (cleanup_old_sessions clock w).2 !! user = Some l ↔
     sessions w !! user = Some l
     ∧ expired_at (heap w) (clock (ticks w)) l = false)
  ∧ (∀ w user,
       sessions (get_session clock user w).2 =
       if (Config.MAX_SESSIONS <? size (sessions w))%nat
       then sessions (cleanup_old_sessions clock w).2
       else sessions w)
  ∧ (∀ w user l s,
       (Config.MAX_SESSIONS < size (sessions w))%nat →
       sessions w !! user = Some l → heap w !! l = Some s →
       TIMEOUT_us < clock (ticks w) - last_activity s →
       (get_session clock user w).1 = Ok None
       ∧ sessions (get_session clock user w).2 !! user = None
       ∧ sessions (cleanup_old_sessions clock w).2 !! user = None)
  ∧ (∀ w user st other,
       other ≠ user →
       sessions (create_session clock user st w).2 !! other = sessions w !! other).
Proof.
  split; [|split; [|split]].
  - intros w user l. rewrite cleanup_old_sessions_run. cbn [snd sessions].
    rewrite map_lookup_filter_Some. reflexivity.
  - intros w user. rewrite get_session_run. cbv zeta. unfold swept.
    destruct (_ <? _)%nat; destruct (_ !! user); reflexivity.
  - intros w user l s Hover Hu Hl Hidle.
    assert (sessions (cleanup_old_sessions clock w).2 !! user = None) as Hgone.
    { rewrite cleanup_old_sessions_run. cbn [snd sessions].
      apply map_lookup_filter_None. right. intros l' Hu'. cbn [snd].
      rewrite Hu in Hu'. injection Hu' as <-.
      unfold expired_at. rewrite Hl. unfold expired.
      apply not_false_iff_true, Z.ltb_lt. exact Hidle. }
    rewrite get_session_run. cbv zeta.
    assert (swept clock w = (cleanup_old_sessions clock w).2) as ->.
    { unfold swept. destruct (Nat.ltb_spec Config.MAX_SESSIONS (size (sessions w)));
        [reflexivity|lia]. }
    rewrite Hgone. auto.
  - intros w user st other Hne. rewrite create_session_run. cbn [snd sessions].
    apply lookup_insert_ne. congruence.
Qed.

(** C6 (amended): [final_price] is written by every deadline press, not
    once: whatever the step of the session and whatever it already holds,
    the press stores the price computed from the stored level and pages and
    the pressed deadline, replaces the deadline and sets the step to
    [order_instructions], so that a press after the price was fixed
    recomputes and overwrites it.  No other event changes the [final_price]
    entry of any session object; the summary and the payment instructions
    show the stored value. *)
Theorem final_price_locked :
  (∀ w u d l s price,
     sessions w !! uid u = Some l → heap w !! l = Some s → live clock w s 8 →
     Utils.calculate_price (data s !! "level") (PyStr.remove_all d "deadline_")
       (default (VInt 1) (data s !! "pages")) = Ok price →
     ∃ s', heap (handle_deadline_selection clock transport_ok u d w).2 !! l = Some s'
           ∧ data s' !! "final_price" = Some (VFloat price)
           ∧ data s' !! "deadline" = Some (VStr (PyStr.remove_all d "deadline_"))
           ∧ step s' = "order_instructions"
           ∧ files s' = files s
           ∧ (∀ k, k ≠ "final_price" → k ≠ "deadline" → data s' !! k = data s !! k))
  ∧ (∀ ev w l s,
       is_deadline_press ev = false → heap w !! l = Some s →
       ∃ s', heap (after clock transport_ok token_hex thread_ref ADMIN_ID ev w) !! l
             = Some s'
             ∧ data s' !! "final_price" = data s !! "final_price")
  ∧ (∀ w u l s lvl label instr price,
       sessions w !! uid u = Some l → heap w !! l = Some s → live clock w s 2 →
       catalog_level (data s !! "level") = Ok lvl →
       catalog_deadline_label (data s !! "deadline") = Ok label →
       first_50 (default (VStr "Aucune") (data s !! "instructions_text")) = Ok instr →
       Utils.format_price (default (VInt 0) (data s !! "final_price")) = Ok price →
       transport_ok (sent w) = true →
       outbox (display_order_summary clock transport_ok u w).2
       = (outbox w ++
          [(uid u, SummaryText (default (VStr "Non défini") (data s !! "subject"))
                     lvl (data s !! "pages") label instr (length (files s))
                     price)])%list)
  ∧ (∀ w u payment_type l s price text,
       sessions w !! uid u = Some l → heap w !! l = Some s → live clock w s 2 →
       Utils.format_price (default (VInt 0) (data s !! "final_price")) = Ok price →
       payment_text payment_type ("EDU" +:+ token_hex (tokens w)) price = Some text →
       transport_ok (sent w) = true →
       ∃ rest,
         outbox (send_payment_info clock transport_ok token_hex ADMIN_ID u
                   payment_type w).2
         = (outbox w ++ (uid u, text) :: rest)%list).
Proof.
  split; [|split; [|split]].
  - intros w u d l s price Hu Hl Hlive Hprice.
    destruct (handle_deadline_selection_run clock transport_ok w u d l s price
                Hu Hl Hlive Hprice) as (w3 & t & Hrun & _ & Hh3 & _).
    rewrite Hrun.
    destruct (io_only_send transport_ok (uid u) InstructionsPrompt w3) as (Hh & _).
    rewrite Hh, Hh3. eexists. split; [eapply lookup_insert_heap, Hl|].
    cbn. split; [apply lookup_insert_eq|].
    split; [rewrite lookup_insert_ne by discriminate; apply lookup_insert_eq|].
    split; [reflexivity|]. split; [reflexivity|].
    intros k Hk1 Hk2. rewrite !lookup_insert_ne by congruence. reflexivity.
  - intros ev w l s Hev Hl.
    exact (final_price_kept clock transport_ok token_hex thread_ref ADMIN_ID
             ev w Hev l s Hl).
  - intros w u l s lvl label instr price Hu Hl Hlive Hlvl Hlabel Hinstr Hprice Hok.
    destruct (display_order_summary_run clock transport_ok w u l s lvl label instr
                price Hu Hl Hlive Hlvl Hlabel Hinstr Hprice)
      as (w1 & t & Hrun & _ & _ & (Hs1 & _ & Ho1)).
    rewrite Hrun, send_ok by (rewrite Hs1; exact Hok).
    cbn [snd outbox]. rewrite Ho1. reflexivity.
  - intros w u payment_type l s price text. apply send_payment_info_run.
Qed.

End Store_claims.

Example price_bachelor_24h_2 :
  Utils.calculate_price (Some (VStr "bachelor")) "24h" (VInt 2) = Ok (B64.of_Z 66).
Proof. vm_compute. reflexivity. Qed.

Example lit_1_8 : B64.lit 18 1 = S754_finite false 8106479329266893 (-52).
Proof. vm_compute. reflexivity. Qed.

Example price_phd_6h_3 :
  Utils.calculate_price (Some (VStr "phd")) "6h" (VInt 3) = Ok (B64.of_Z 150).
Proof. vm_compute. reflexivity. Qed.

Example price_overflow :
  Utils.calculate_price (Some (VStr "phd")) "6h" (VInt (2^1024)) = Raise OverflowError.
Proof. vm_compute. reflexivity. Qed.

Example price_big :
  Utils.calculate_price (Some (VStr "phd")) "6h" (VInt (2^1024 - 2^970 - 1)) = Ok (S754_infinity false).
Proof. vm_compute. reflexivity. Qed.

Example int_5 : PyStr.int "5" = Ok 5.
Proof. reflexivity. Qed.
Example int_padded : PyStr.int (PyStr.strip "  1_2 ") = Ok 12.
Proof. reflexivity. Qed.
Example int_bad : PyStr.int "5 pages" = Raise ValueError.
Proof. reflexivity. Qed.
Example int_arabic_indic : PyStr.int "١٢" = Ok 12.
Proof. reflexivity. Qed.
Example int_full_width : PyStr.int "-５_０" = Ok (-50).
Proof. reflexivity. Qed.
Example int_no_break_space : PyStr.int (Sample.nbsp +:+ "5" +:+ Sample.nbsp) = Ok 5.
Proof. reflexivity. Qed.
Example int_separator : PyStr.int (Sample.file_separator +:+ "5") = Raise ValueError.
Proof. reflexivity. Qed.
Example strip_separator :
  PyStr.strip (Sample.file_separator +:+ "5" +:+ Sample.nbsp) = "5".
Proof. reflexivity. Qed.
Example int_superscript : PyStr.int "⁵" = Raise ValueError.
Proof. reflexivity. Qed.
Example int_zero_width_space :
  PyStr.int (PyStr.strip ("5" +:+ Sample.zwsp)) = Raise ValueError.
Proof. reflexivity. Qed.
Example chars_mixed : PyStr.chars "é٥€𝟘x" = ["é"; "٥"; "€"; "𝟘"; "x"].
Proof. reflexivity. Qed.
Example code_points :
  PyStr.code_point <$> PyStr.chars "é٥€𝟘x"
  = [Some 233; Some 1637; Some 8364; Some 120792; Some 120]%N.
Proof. reflexivity. Qed.
Example replace_level : PyStr.remove_all "level_level_phd" "level_" = "phd".
Proof. reflexivity. Qed.
Example take_accented : PyStr.take_chars 3 "Économique" = "Éco".
Proof. reflexivity. Qed.
Example fmt_66 : Utils.format_price (VFloat (B64.of_Z 66)) = Ok "66.00€".
Proof. vm_compute. reflexivity. Qed.
Example fmt_1728 : Utils.format_price (VFloat (B64.mul (B64.mul (B64.lit 32 0) (B64.lit 18 1)) (B64.of_Z 3))) = Ok "172.80€".
Proof. vm_compute. reflexivity. Qed.
Example fmt_0 : Utils.format_price (VInt 0) = Ok "0.00€".
Proof. vm_compute. reflexivity. Qed.




(** ** The claims on concrete worlds *)

Section Samples.

Import Sample.

Lemma world_with_live (c : nat → Z) (s : UserSession) (n : nat) :
  live c (world_with s) s n.
Proof. left. cbn [sessions world_with]. rewrite map_size_singleton. unfold Config.MAX_SESSIONS. lia. Qed.

Lemma calculate_price_unknown_keys_witness :
  Utils.calculate_price (Some (VStr "postdoc")) "24h" (VInt 3) = Ok (B64.lit 0 0)
  ∧ ∃ f, B64.of_int 3 = Ok f
      ∧ Utils.calculate_price (Some (VStr "phd")) "1h" (VInt 3)
        = Ok (py_min (B64.mul (B64.mul (B64.lit 32 0) (B64.lit 1 0)) f)
                     (B64.mul (B64.lit 50 0) f))
      ∧ B64.mul (B64.lit 32 0) (B64.lit 1 0) = B64.lit 32 0.
Proof.
  destruct calculate_price_unknown_keys as [Hlevel Hdeadline]. split.
  - apply Hlevel. reflexivity.
  - apply (Hdeadline "phd" "1h"
             {| name := "Doctorat"; emoji := "🔬"; base_price := B64.lit 32 0 |} 3);
      reflexivity.
Defined.

Lemma order_pages_validation_witness :
  (sessions (text_handler clock transport_up thread_ref ADMIN_ID alice "5"
               (world_with at_pages)).2 !! 7 = Some 0%nat
   ∧ (∃ s', heap (text_handler clock transport_up thread_ref ADMIN_ID alice "5"
                    (world_with at_pages)).2 !! 0%nat = Some s'
            ∧ step s' = "order_deadline"
            ∧ data s' = <["pages" := VInt 5]> (data at_pages)
            ∧ data s' !! "pages" = Some (VInt 5)
            ∧ files s' = files at_pages))
  ∧ (∃ s', heap (text_handler clock transport_up thread_ref ADMIN_ID alice "٥"
                   (world_with at_pages)).2 !! 0%nat = Some s'
           ∧ step s' = "order_deadline"
           ∧ data s' = <["pages" := VInt 5]> (data at_pages)
           ∧ data s' !! "pages" = Some (VInt 5)
           ∧ files s' = files at_pages)
  ∧ (sessions (text_handler clock transport_up thread_ref ADMIN_ID alice "abc"
                 (world_with at_pages)).2 !! 7 = Some 0%nat
     ∧ (∃ s', heap (text_handler clock transport_up thread_ref ADMIN_ID alice "abc"
                      (world_with at_pages)).2 !! 0%nat = Some s'
              ∧ step s' = "order_pages"
              ∧ data s' = data at_pages ∧ files s' = files at_pages)
     ∧ outbox (text_handler clock transport_up thread_ref ADMIN_ID alice "abc"
                 (world_with at_pages)).2 = [(7, PagesFormatError)])
  ∧ (∃ s', heap (text_handler clock transport_up thread_ref ADMIN_ID alice "51"
                   (world_with at_pages)).2 !! 0%nat = Some s'
           ∧ step s' = "order_pages"
           ∧ data s' = data at_pages ∧ files s' = files at_pages)
  ∧ outbox (text_handler clock transport_up thread_ref ADMIN_ID alice "51"
              (world_with at_pages)).2 = [(7, PagesFormatError)].
Proof.
  pose proof (λ text,
              order_pages_validation clock transport_up thread_ref ADMIN_ID
                (world_with at_pages) alice 0%nat at_pages text
                eq_refl eq_refl eq_refl (world_with_live clock at_pages 5)) as H.
  split; [|split; [|split; [|split]]].
  - destruct (H "5") as (_ & Haccepted & _).
    destruct (Haccepted 5 eq_refl ltac:(lia)) as (Hstore & Hsession & _).
    exact (conj Hstore Hsession).
  - destruct (H "٥") as (_ & Haccepted & _).
    destruct (Haccepted 5 eq_refl ltac:(lia)) as (_ & Hsession & _).
    exact Hsession.
  - destruct (H "abc") as (Hrejected & _).
    destruct (Hrejected (or_introl eq_refl)) as (Hstore & Hsession & Hreply).
    exact (conj Hstore (conj Hsession (Hreply eq_refl))).
  - destruct (H "51") as (Hrejected & _).
    destruct Hrejected as (_ & Hsession & _); [|exact Hsession].
    right. exists 51. split; [reflexivity|lia].
  - destruct (H "51") as (Hrejected & _).
    destruct Hrejected as (_ & _ & Hreply); [|exact (Hreply eq_refl)].
    right. exists 51. split; [reflexivity|lia].
Defined.

Lemma files_never_exceed_cap_witness :
  ∃ s, heap (run clock transport_up token_hex thread_ref ADMIN_ID upload_session
               initial_world) !! 0%nat = Some s
       ∧ length (files s) = 5%nat
       ∧ (length (files s) ≤ Config.MAX_FILES_PER_ORDER)%nat.
Proof.
  eexists. split; [vm_compute; reflexivity|]. split; [reflexivity|].
  eapply (proj1 (files_never_exceed_cap clock transport_up token_hex thread_ref
                   ADMIN_ID) upload_session 0%nat).
  vm_compute. reflexivity.
Defined.

Lemma final_price_locked_witness :
  (∃ s', heap (handle_deadline_selection clock transport_up alice "deadline_24h"
                 (world_with at_deadline)).2 !! 0%nat = Some s'
         ∧ data s' !! "final_price" = Some (VFloat (B64.lit 66 0)))
  ∧ (∃ s', heap (handle_deadline_selection clock transport_up alice "deadline_6h"
                   (world_with priced)).2 !! 0%nat = Some s'
           ∧ data s' !! "final_price" = Some (VFloat (B64.lit 792 1))
           ∧ data s' !! "deadline" = Some (VStr "6h")
           ∧ step s' = "order_instructions")
  ∧ (∃ s', heap (after clock transport_up token_hex thread_ref ADMIN_ID
                   (CallbackQuery alice "order_summary") (world_with priced)) !! 0%nat
           = Some s'
           ∧ data s' !! "final_price" = Some (VFloat (B64.lit 66 0)))
  ∧ (∃ s', heap (after clock transport_up token_hex thread_ref ADMIN_ID
                   (FileMessage alice photo_message) (world_with priced)) !! 0%nat
           = Some s'
           ∧ data s' !! "final_price" = Some (VFloat (B64.lit 66 0))).
Proof.
  destruct (final_price_locked clock transport_up token_hex thread_ref ADMIN_ID)
    as (Hwrite & Hkeep & _).
  split; [|split; [|split]].
  - destruct (Hwrite (world_with at_deadline) alice "deadline_24h" 0%nat at_deadline
                (B64.lit 66 0) eq_refl eq_refl (world_with_live clock at_deadline 8))
      as (s' & Hs' & Hprice & _); [vm_compute; reflexivity|].
    exists s'. exact (conj Hs' Hprice).
  - destruct (Hwrite (world_with priced) alice "deadline_6h" 0%nat priced
                (B64.lit 792 1) eq_refl eq_refl (world_with_live clock priced 8))
      as (s' & Hs' & Hprice & Hdeadline & Hstep & _); [vm_compute; reflexivity|].
    exists s'. exact (conj Hs' (conj Hprice (conj Hdeadline Hstep))).
  - exact (Hkeep (CallbackQuery alice "order_summary") (world_with priced) 0%nat priced
             eq_refl eq_refl).
  - exact (Hkeep (FileMessage alice photo_message) (world_with priced) 0%nat priced
             eq_refl eq_refl).
Defined.

(** A second deadline press in one order: the order is placed and priced
    66.00 for the 24h deadline; the 6h button, still in the chat, is pressed
    at the files step; the price becomes 79.20 and the step goes back to
    [order_instructions]. *)
Lemma final_price_written_twice :
  (let w := run clock transport_up token_hex thread_ref ADMIN_ID order_placed
              initial_world in
   let w' := after clock transport_up token_hex thread_ref ADMIN_ID
               (CallbackQuery alice "deadline_6h") w in
   sessions w !! 7 = Some 0%nat
   ∧ (step <$> heap w !! 0%nat) = Some "order_files"
   ∧ ((λ s, data s !! "deadline") <$> heap w !! 0%nat) = Some (Some (VStr "24h"))
   ∧ ((λ s, data s !! "final_price") <$> heap w !! 0%nat)
     = Some (Some (VFloat (B64.lit 66 0)))
   ∧ sessions w' !! 7 = Some 0%nat
   ∧ (step <$> heap w' !! 0%nat) = Some "order_instructions"
   ∧ ((λ s, data s !! "deadline") <$> heap w' !! 0%nat) = Some (Some (VStr "6h"))
   ∧ ((λ s, data s !! "final_price") <$> heap w' !! 0%nat)
     = Some (Some (VFloat (B64.lit 792 1)))
   ∧ last (outbox w') = Some (7, InstructionsPrompt))
  ∧ Utils.format_price (VFloat (B64.lit 66 0)) = Ok "66.00€"
  ∧ Utils.format_price (VFloat (B64.lit 792 1)) = Ok "79.20€".
Proof. vm_compute. repeat split. Qed.

(** A level press and a deadline press with keys outside the catalog both
    change the session. *)
Lemma unknown_key_press_not_ignored :
  AcademicConfig.LEVELS !! "xyz" = None
  ∧ AcademicConfig.DEADLINES !! "1h" = None
  ∧ (let w' := after clock transport_up token_hex thread_ref ADMIN_ID
                 (CallbackQuery alice "level_xyz") (world_with at_level) in
     step at_level = "order_level" ∧ data at_level !! "level" = None
     ∧ (step <$> heap w' !! 0%nat) = Some "order_pages"
     ∧ ((λ s, data s !! "level") <$> heap w' !! 0%nat) = Some (Some (VStr "xyz"))
     ∧ outbox w' = [(7, TemporaryError)])
  ∧ (let w' := after clock transport_up token_hex thread_ref ADMIN_ID
                 (CallbackQuery alice "deadline_1h") (world_with at_deadline) in
     step at_deadline = "order_deadline"
     ∧ data at_deadline !! "deadline" = None
     ∧ data at_deadline !! "final_price" = None
     ∧ (step <$> heap w' !! 0%nat) = Some "order_instructions"
     ∧ ((λ s, data s !! "deadline") <$> heap w' !! 0%nat) = Some (Some (VStr "1h"))
     ∧ ((λ s, data s !! "final_price") <$> heap w' !! 0%nat)
       = Some (Some (VFloat (B64.lit 44 0)))
     ∧ outbox w' = [(7, InstructionsPrompt)]).
Proof. vm_compute. repeat split. Qed.

Lemma unknown_key_press_mutates_witness :
  sessions (button_handler clock transport_up token_hex ADMIN_ID alice "level_xyz"
              (world_with at_level)).2 !! 7 = Some 0%nat
  ∧ ∃ s', heap (button_handler clock transport_up token_hex ADMIN_ID alice "level_xyz"
                  (world_with at_level)).2 !! 0%nat = Some s'
          ∧ step s' = "order_pages"
          ∧ data s' = <["level" := VStr (PyStr.remove_all "level_xyz" "level_")]>
                        (data at_level).
Proof.
  destruct (unknown_key_press_mutates clock transport_up token_hex ADMIN_ID
              (world_with at_level) alice "level_xyz" 0%nat at_level
              eq_refl eq_refl (world_with_live clock at_level 8) eq_refl)
    as (Hlevel & _).
  destruct (Hlevel eq_refl eq_refl) as (Hstore & Hsession & _).
  exact (conj Hstore Hsession).
Defined.

(** Over capacity, with every session expired, [create_session] still removes
    nothing. *)
Lemma create_session_does_not_sweep :
  (Config.MAX_SESSIONS < size (sessions crowd))%nat
  ∧ sessions crowd !! 0 = Some 0%nat
  ∧ (last_activity <$> heap crowd !! 0%nat) = Some 0
  ∧ TIMEOUT_us < late_clock (ticks crowd) - 0
  ∧ sessions (create_session late_clock 1000 "order_subject" crowd).2 !! 0 = Some 0%nat
  ∧ size (sessions (create_session late_clock 1000 "order_subject" crowd).2) = 102%nat.
Proof. vm_compute. repeat split. repeat constructor. Qed.

Lemma sweep_on_get_only_witness :
  (get_session late_clock 0 crowd).1 = Ok None
  ∧ sessions (get_session late_clock 0 crowd).2 !! 0 = None
  ∧ sessions (cleanup_old_sessions late_clock crowd).2 !! 0 = None.
Proof.
  destruct (sweep_on_get_only late_clock) as (_ & _ & Hgone & _).
  apply (Hgone crowd 0 0%nat
           {| user_id := 0; step := "menu"; data := ∅; created_at := 0;
              last_activity := 0; files := [] |}).
  - vm_compute. repeat constructor.
  - vm_compute. reflexivity.
  - reflexivity.
  - reflexivity.
Defined.

Lemma get_session_revives_witness :
  expired (late_clock 0) at_pages = true
  ∧ (get_session late_clock 7 (world_with at_pages)).1 = Ok (Some 0%nat)
  ∧ sessions (get_session late_clock 7 (world_with at_pages)).2
    = sessions (world_with at_pages)
  ∧ heap (get_session late_clock 7 (world_with at_pages)).2
    = <[0%nat := set_last_activity (late_clock 0) at_pages]> (heap (world_with at_pages))
  ∧ ∃ s', heap (get_session late_clock 7 (world_with at_pages)).2 !! 0%nat = Some s'
          ∧ last_activity s' = late_clock 0
          ∧ step s' = step at_pages ∧ data s' = data at_pages
          ∧ files s' = files at_pages.
Proof.
  split; [reflexivity|].
  apply (get_session_revives late_clock (world_with at_pages) 7 0%nat at_pages).
  - cbn [sessions world_with]. rewrite map_size_singleton. unfold Config.MAX_SESSIONS. lia.
  - reflexivity.
  - reflexivity.
Defined.

Lemma deadline_selection_defaults_witness :
  ∃ price,
    Utils.calculate_price (data no_pages !! "level") (PyStr.remove_all "deadline_24h" "deadline_")
      (default (VInt 1) (data no_pages !! "pages")) = Ok price
    ∧ (data no_pages !! "pages" = None →
       Utils.calculate_price (data no_pages !! "level")
         (PyStr.remove_all "deadline_24h" "deadline_") (VInt 1) = Ok price)
    ∧ (data no_pages !! "level" = None → price = B64.lit 0 0)
    ∧ sessions (handle_deadline_selection clock transport_up alice "deadline_24h"
                  (world_with no_pages)).2 !! uid alice = Some 0%nat
    ∧ (∃ s', heap (handle_deadline_selection clock transport_up alice "deadline_24h"
                     (world_with no_pages)).2 !! 0%nat = Some s'
             ∧ step s' = "order_instructions"
             ∧ data s' !! "final_price" = Some (VFloat price)
             ∧ data s' !! "deadline"
               = Some (VStr (PyStr.remove_all "deadline_24h" "deadline_")))
    ∧ (transport_up (sent (world_with no_pages)) = true →
       (handle_deadline_selection clock transport_up alice "deadline_24h"
          (world_with no_pages)).1 = Ok ()).
Proof.
  apply (deadline_selection_defaults clock transport_up (world_with no_pages) alice
           "deadline_24h" 0%nat no_pages).
  - reflexivity.
  - reflexivity.
  - apply world_with_live.
  - left. reflexivity.
Defined.

End Samples.

(** ** More of the session store *)

Section Store_more.

Variable clock : nat → Z.

Lemma alter_app_last {A} (f : A → A) (h : list A) (x : A) :
  alter f (length h) (h ++ [x])%list = (h ++ [f x])%list.
Proof.
  induction h as [|y h IH]; [reflexivity|].
  cbn [length app]. change (alter f (S (length h)) (y :: (h ++ [x])%list))
    with (y :: alter f (length h) (h ++ [x])%list).
  rewrite IH. reflexivity.
Qed.

Lemma swept_lookup_None w user :
  sessions w !! user = None → sessions (swept clock w) !! user = None.
Proof.
  intros H. destruct (sessions (swept clock w) !! user) as [l|] eqn:Hl; [|reflexivity].
  apply swept_lookup in Hl as [Hl _]. congruence.
Qed.

Lemma get_session_absent w user :
  sessions w !! user = None →
  get_session clock user w = (Ok None, swept clock w).
Proof.
  intros H. rewrite get_session_run. cbv zeta.
  rewrite (swept_lookup_None _ _ H). reflexivity.
Qed.

(** X1: [clear_session] unbinds the user and nothing else; it is idempotent,
    and the next [get_session] for that user finds nothing. *)
Theorem clear_session_forgets (w : World) (user : Z) :
  let w1 := (clear_session user w).2 in
  (clear_session user w).1 = Ok ()
  ∧ sessions w1 = delete user (sessions w)
  ∧ sessions w1 !! user = None
  ∧ heap w1 = heap w
  ∧ (clear_session user w1).2 = w1
  ∧ (get_session clock user w1).1 = Ok None
  ∧ sessions (get_session clock user w1).2 !! user = None.
Proof.
  cbv zeta. unfold clear_session, bind, get_sessions, put_sessions, set_sessions.
  cbn [fst snd sessions heap ticks sent tokens outbox].
  split; [reflexivity|]. split; [reflexivity|].
  split; [apply lookup_delete_eq|]. split; [reflexivity|].
  split; [rewrite delete_delete_eq; reflexivity|].
  match goal with
  | |- context [get_session clock user ?w1] =>
      rewrite (get_session_absent w1 user) by apply lookup_delete_eq
  end.
  split; [reflexivity|]. cbn [snd]. apply swept_lookup_None. apply lookup_delete_eq.
Qed.

(** X2: [update_session] never raises; for a user without a session it
    creates one at the default step [menu] and applies the step and the
    patch to it. *)
Theorem update_session_creates (w : World) (user : Z) (st : option string)
    (patch : option (gmap string value)) :
  (update_session clock user st patch w).1 = Ok ()
  ∧ (sessions w !! user = None →
     let w' := (update_session clock user st patch w).2 in
     sessions w' !! user = Some (length (heap w))
     ∧ ∃ s, heap w' !! length (heap w) = Some s
            ∧ user_id s = user
            ∧ step s = default "menu" (truthy_str st)
            ∧ data s = default ∅ (truthy_dict patch)
            ∧ files s = []).
Proof.
  split.
  - unfold update_session, bind at 1. rewrite get_session_run. cbv zeta.
    destruct (sessions (swept clock w) !! user) as [l|];
      unfold bind, ret, modify, now;
      [|rewrite create_session_run];
      destruct (truthy_str st), (truthy_dict patch); reflexivity.
  - intros Habsent. cbv zeta. unfold update_session.
    rewrite (bind_Ok _ _ _ _ _ (get_session_absent w user Habsent)).
    rewrite (bind_Ok _ _ _ _ _ (create_session_run clock (swept clock w) user "menu")).
    rewrite swept_heap.
    unfold bind, ret, modify, now, set_heap.
    destruct (truthy_str st) as [st'|], (truthy_dict patch) as [d|];
      cbn [fst snd heap sessions ticks sent tokens outbox default];
      rewrite ?alter_app_last;
      (split; [apply lookup_insert_eq|]);
      (eexists; split; [apply list_lookup_middle; reflexivity|]);
      cbn [user_id step data files set_step set_data set_last_activity];
      rewrite ?(right_id_L ∅ (∪)); auto.
Qed.

(** X3: on a session that is not evicted, [update_session] merges the patch
    key by key (a patched key takes the new value, every other key keeps its
    value), sets the step only when one is given and leaves the files and the
    creation time alone. *)
Theorem update_session_merges (w : World) (user : Z) (l : nat) (s : UserSession)
    (st : option string) (d : gmap string value) :
  sessions w !! user = Some l → heap w !! l = Some s → live clock w s 3 →
  let w' := (update_session clock user st (Some d) w).2 in
  sessions w' !! user = Some l
  ∧ ∃ s', heap w' !! l = Some s'
          ∧ (∀ k, data s' !! k = match d !! k with
                                 | Some v => Some v
                                 | None => data s !! k
                                 end)
          ∧ step s' = default (step s) (truthy_str st)
          ∧ files s' = files s ∧ created_at s' = created_at s
          ∧ user_id s' = user_id s.
Proof.
  intros Hu Hl Hlive. cbv zeta.
  destruct (update_session_live clock w user l s st (Some d) 0 Hu Hl Hlive)
    as (w1 & t & Hupd & Hu1 & Hh1 & _).
  rewrite Hupd. cbn [snd]. split; [exact Hu1|].
  eexists. split; [rewrite Hh1; eapply lookup_insert_heap, Hl|].
  unfold patched, stepped, truthy_dict.
  destruct (decide (d = ∅)) as [->|Hne], (truthy_str st) as [st'|];
    cbn [data step files created_at user_id set_last_activity set_data set_step default];
    (split; [|auto]); intros k;
    rewrite ?lookup_empty, ?lookup_union; try reflexivity;
    destruct (d !! k), (data s !! k); reflexivity.
Qed.

End Store_more.

(** ** The store operations in closed form *)

Section Closed_forms.

Variable clock : nat → Z.

Lemma alter_alter_same {A} (f g : A → A) (h : list A) l :
  alter f l (alter g l h) = alter (λ x, f (g x)) l h.
Proof.
  apply list_eq. intros i. destruct (decide (i = l)) as [->|Hne].
  - rewrite !list_lookup_alter_eq. destruct (h !! l); reflexivity.
  - rewrite !list_lookup_alter_ne by congruence. reflexivity.
Qed.

Lemma alter_ext_same {A} (f g : A → A) (h : list A) l :
  (∀ x, f x = g x) → alter f l h = alter g l h.
Proof. intros H. apply list_alter_ext; auto. Qed.

(** [update_session]: after the sweep, either the user's object is stamped,
    stepped, patched and stamped again, or a new object is made at step
    [menu] and treated the same way. *)
Lemma update_session_run w user st patch :
  update_session clock user st patch w =
  let w1 := swept clock w in
  match sessions w1 !! user with
  | Some l =>
      (Ok (),
       {| heap := alter (updated (clock (S (ticks w1))) st patch) l (heap w1);
          sessions := sessions w1; ticks := S (S (ticks w1)); sent := sent w1;
          tokens := tokens w1; outbox := outbox w1 |})
  | None =>
      (Ok (),
       {| heap := (heap w1 ++
                  [updated (clock (S (S (ticks w1)))) st patch
                     {| user_id := user; step := "menu"; data := ∅;
                        created_at := clock (ticks w1);
                        last_activity := clock (S (ticks w1)); files := [] |}])%list;
          sessions := <[user := length (heap w1)]> (sessions w1);
          ticks := S (S (S (ticks w1))); sent := sent w1; tokens := tokens w1;
          outbox := outbox w1 |})
  end.
Proof.
  unfold update_session, bind at 1. rewrite get_session_run. cbv zeta.
  destruct (sessions (swept clock w) !! user) as [l|].
  - unfold bind, ret, modify, now, set_heap, updated, patched, stepped.
    destruct (truthy_str st), (truthy_dict patch);
      cbn [fst snd heap sessions ticks sent tokens outbox];
      rewrite ?alter_alter_same; do 2 f_equal; f_equal.
  - rewrite (bind_Ok _ _ _ _ _ (create_session_run clock (swept clock w) user "menu")).
    unfold bind, ret, modify, now, set_heap, updated, patched, stepped.
    destruct (truthy_str st), (truthy_dict patch);
      cbn [fst snd heap sessions ticks sent tokens outbox];
      rewrite ?alter_app_last; reflexivity.
Qed.

Lemma add_file_run w l fid fname fsize :
  add_file clock l fid fname fsize w =
  match heap w !! l with
  | None => (Raise AttributeError, w)
  | Some s =>
      if (length (files s) <? Config.MAX_FILES_PER_ORDER)%nat
      then (Ok true,
            {| heap := alter (λ s, set_files (files s ++
                         [{| file_id := fid; file_name := fname; file_size := fsize;
                             uploaded_at := clock (ticks w) |}]) s) l (heap w);
               sessions := sessions w; ticks := S (ticks w); sent := sent w;
               tokens := tokens w; outbox := outbox w |})
      else (Ok false, w)
  end.
Proof.
  unfold add_file, bind at 1, read. destruct (heap w !! l) as [s|]; [|reflexivity].
  destruct (_ <? _)%nat; reflexivity.
Qed.

End Closed_forms.

(** ** Handlers reach the store through the session manager only

    A world property that does not depend on the counters and the outbox, and
    that the manager's operations on the sender's id and [add_file] on the
    sender's object keep, is kept by every handler run for that sender. *)

Section Encapsulation.

Variable clock : nat → Z.
Variable transport_ok : nat → bool.
Variable token_hex : nat → string.
Variable thread_ref : Z → Z → string.
Variable ADMIN_ID : Z.

Variable me : Z.
Variable I : World → Prop.

Hypothesis I_frame : ∀ w w',
  heap w' = heap w → sessions w' = sessions w → I w → I w'.
Hypothesis I_get : preserves I (get_session clock me).
Hypothesis I_create : ∀ st, preserves I (create_session clock me st).
Hypothesis I_update : ∀ st patch, preserves I (update_session clock me st patch).
Hypothesis I_clear : preserves I (clear_session me).
Hypothesis I_add : ∀ w l fid fname fsize,
  sessions w !! me = Some l → I w → I (add_file clock l fid fname fsize w).2.

Lemma preserves_io {A} (m : M A) : io_only m → preserves I m.
Proof. intros Hm w Hw. destruct (Hm w) as (Hh & Hs & _). eapply I_frame; eauto. Qed.

Lemma preserves_ret {A} (a : A) : preserves I (ret a).
Proof. intros w H. exact H. Qed.

Lemma preserves_raise {A} e : preserves I (@raise A e).
Proof. intros w H. exact H. Qed.

Lemma preserves_lift {A} (o : outcome A) : preserves I (lift o).
Proof. intros w H. exact H. Qed.

Lemma preserves_bind {A B} (m : M A) (k : A → M B) :
  preserves I m → (∀ a, preserves I (k a)) → preserves I (bind m k).
Proof.
  intros Hm Hk w H. unfold bind. specialize (Hm w H).
  destruct (m w) as [[a|e] w1]; cbn [snd] in *; [apply Hk, Hm|exact Hm].
Qed.

Lemma preserves_try_except {A} (m h : M A) :
  preserves I m → preserves I h → preserves I (try_except m h).
Proof.
  intros Hm Hh w H. unfold try_except. specialize (Hm w H).
  destruct (m w) as [[a|e] w1]; cbn [snd] in *; [exact Hm|apply Hh, Hm].
Qed.

Lemma preserves_try_except_ValueError {A} (m h : M A) :
  preserves I m → preserves I h → preserves I (try_except_ValueError m h).
Proof.
  intros Hm Hh w H. unfold try_except_ValueError. specialize (Hm w H).
  destruct (m w) as [[a|[]] w1]; cbn [snd] in *; try exact Hm. apply Hh, Hm.
Qed.

Lemma preserves_try_except_clauses {A} (m h1 h2 : M A) :
  preserves I m → preserves I h1 → preserves I h2 →
  preserves I (try_except_clauses m h1 h2).
Proof.
  intros Hm Hh1 Hh2 w H. unfold try_except_clauses. specialize (Hm w H).
  destruct (m w) as [[a|[]] w1]; cbn [snd] in *;
    first [exact Hm | apply Hh1, Hm | apply Hh2, Hm].
Qed.

Lemma preserves_now : preserves I (now clock).
Proof. intros w H. eapply I_frame; [| |exact H]; reflexivity. Qed.

Lemma preserves_send target r : preserves I (send transport_ok target r).
Proof. apply preserves_io, io_only_send. Qed.

Lemma preserves_answer : preserves I (answer transport_ok).
Proof.
  intros w H. unfold answer.
  destruct (transport_ok (sent w)); (eapply I_frame; [| |exact H]; reflexivity).
Qed.

Lemma preserves_next_token : preserves I (next_token token_hex).
Proof. intros w H. eapply I_frame; [| |exact H]; reflexivity. Qed.

Lemma preserves_read l : preserves I (read l).
Proof. intros w H. unfold read. destruct (heap w !! l); exact H. Qed.

Lemma preserves_data_get session key : preserves I (data_get session key).
Proof.
  unfold data_get. destruct session; [|apply preserves_raise].
  apply preserves_bind; [apply preserves_read|intros s]. apply preserves_ret.
Qed.

Ltac preserves_step :=
  lazymatch goal with
  | |- preserves _ (ret _) => apply preserves_ret
  | |- preserves _ (raise _) => apply preserves_raise
  | |- preserves _ (lift _) => apply preserves_lift
  | |- preserves _ (send _ _ _) => apply preserves_send
  | |- preserves _ (answer _) => apply preserves_answer
  | |- preserves _ (next_token _) => apply preserves_next_token
  | |- preserves _ (now _) => apply preserves_now
  | |- preserves _ (read _) => apply preserves_read
  | |- preserves _ (get_session _ _) => apply I_get
  | |- preserves _ (create_session _ _ _) => apply I_create
  | |- preserves _ (clear_session _) => apply I_clear
  | |- preserves _ (data_get _ _) => apply preserves_data_get
  | |- preserves _ (update_session _ _ _ _) => apply I_update
  | |- preserves _ (try_except _ _) => apply preserves_try_except
  | |- preserves _ (try_except_ValueError _ _) => apply preserves_try_except_ValueError
  | |- preserves _ (try_except_clauses _ _ _) => apply preserves_try_except_clauses
  | |- preserves _ (bind _ _) => apply preserves_bind; [|intros ?]
  | |- preserves _ (match ?x with _ => _ end) => destruct x eqn:?
  | |- preserves _ (let _ := _ in _) => cbv zeta
  end.

Ltac preserves_go := repeat preserves_step.

Lemma preserves_send_documents order_number files_count index fs :
  preserves I (send_documents transport_ok ADMIN_ID order_number files_count index fs).
Proof.
  revert index. induction fs as [|f fs IH]; intros index; cbn [send_documents].
  - apply preserves_ret.
  - apply preserves_bind; [preserves_go|intros _; apply IH].
Qed.

Lemma preserves_send_admin_notification u session order_number payment_type :
  preserves I (send_admin_notification transport_ok ADMIN_ID u session order_number
                 payment_type).
Proof.
  unfold send_admin_notification.
  repeat first [apply preserves_send_documents | preserves_step].
Qed.

Lemma preserves_bind_at {A B} (m : M A) (k : A → M B) w :
  I (m w).2 → (∀ a, preserves I (k a)) → I (bind m k w).2.
Proof.
  intros Hm Hk. unfold bind.
  destruct (m w) as [[a|e] w1]; cbn [snd] in *; [apply Hk, Hm|exact Hm].
Qed.

Lemma preserves_try_except_at {A} (m h : M A) w :
  I (m w).2 → preserves I h → I (try_except m h w).2.
Proof.
  intros Hm Hh. unfold try_except.
  destruct (m w) as [[a|e] w1]; cbn [snd] in *; [exact Hm|apply Hh, Hm].
Qed.

Lemma preserves_handle_support_message u text :
  uid u = me →
  preserves I (handle_support_message clock transport_ok thread_ref ADMIN_ID u text).
Proof. intros Hu. unfold handle_support_message. rewrite Hu. preserves_go. Qed.

Lemma preserves_send_payment_info u payment_type :
  uid u = me →
  preserves I (send_payment_info clock transport_ok token_hex ADMIN_ID u payment_type).
Proof.
  intros Hu. unfold send_payment_info. rewrite Hu.
  repeat first [apply preserves_send_admin_notification | preserves_step].
Qed.

Lemma preserves_text_handler u text :
  uid u = me →
  preserves I (text_handler clock transport_ok thread_ref ADMIN_ID u text).
Proof.
  intros Hu. unfold text_handler. rewrite Hu.
  apply preserves_bind; [preserves_go|intros [l|]]; [|preserves_go].
  apply preserves_try_except; [|preserves_go].
  apply preserves_bind; [preserves_go|intros s].
  repeat match goal with
         | |- preserves _ (if ?b then _ else _) => destruct b
         end;
    first [ apply preserves_handle_support_message; exact Hu
          | preserves_go ].
Qed.

(** The file handler writes through [add_file] on the object [get_session]
    has just returned for the sender. *)
Lemma preserves_file_handler u att :
  uid u = me → preserves I (file_handler clock transport_ok u att).
Proof.
  intros Hu w Hw. unfold file_handler. rewrite Hu.
  pose proof (I_get w Hw) as Hw1. unfold bind at 1.
  rewrite get_session_run in *. cbv zeta in *.
  destruct (sessions (swept clock w) !! me) as [l|] eqn:Hl; cbn [snd] in Hw1.
  - match type of Hw1 with I ?w0 => set (w1 := w0) in * end.
    assert (sessions w1 !! me = Some l) as Hl1 by exact Hl.
    clearbody w1. clear Hl.
    unfold bind at 1. unfold bind at 1. unfold read at 1.
    destruct (heap w1 !! l) as [s|] eqn:Hs; [|exact Hw1].
    unfold ret at 1. cbn beta iota.
    destruct (String.eqb (step s) "order_files");
      [|apply preserves_send; exact Hw1].
    unfold bind at 1, read at 1. rewrite Hs.
    destruct (_ <=? _)%nat; [apply preserves_send; exact Hw1|].
    apply preserves_try_except_at; [|apply preserves_send].
    match goal with
    | |- context [match ?c with Some _ => _ | None => _ end w1] =>
        destruct c as [[[fid fname] fsize]|]
    end; [|apply preserves_send; exact Hw1].
    destruct (_ <? fsize); [apply preserves_send; exact Hw1|].
    apply preserves_bind_at; [apply I_add; assumption|].
    intros [|]; preserves_go.
  - apply preserves_send. exact Hw1.
Qed.

Lemma preserves_button_handler u d :
  uid u = me →
  preserves I (button_handler clock transport_ok token_hex ADMIN_ID u d).
Proof.
  intros Hu. unfold button_handler.
  apply preserves_bind; [apply preserves_answer|intros _].
  apply preserves_try_except; [|apply preserves_send].
  repeat match goal with
         | |- preserves _ (if ?b then _ else _) => destruct b
         end;
    first [ apply preserves_send_payment_info; exact Hu
          | unfold main_menu, start_order_flow, pricing_display, info_display,
              support_interface, handle_level_selection, handle_deadline_selection,
              display_order_summary, handle_payment_transfer, handle_payment_crypto,
              handle_crypto_selection; rewrite ?Hu;
            first [apply preserves_send_payment_info; exact Hu | preserves_go] ].
Qed.

(** Every handler keeps [I] when run for the sender [me]. *)
Lemma preserves_handle ev :
  uid (sender ev) = me →
  preserves I (handle clock transport_ok token_hex thread_ref ADMIN_ID ev).
Proof.
  destruct ev as [u|u|u args|u d|u att|u text]; cbn [handle sender]; intros Hu.
  - unfold start_command. preserves_go.
  - unfold main_menu. rewrite Hu. preserves_go.
  - unfold admin_reply. preserves_go.
  - apply preserves_button_handler, Hu.
  - apply preserves_file_handler, Hu.
  - apply preserves_text_handler, Hu.
Qed.

End Encapsulation.

(** ** One object per user, and no interference between users *)

Section Isolation.

Variable clock : nat → Z.
Variable transport_ok : nat → bool.
Variable token_hex : nat → string.
Variable thread_ref : Z → Z → string.
Variable ADMIN_ID : Z.

Variable me : Z.
Variable w0 : World.

Lemma apart_frame w w' :
  heap w' = heap w → sessions w' = sessions w → apart me w0 w → apart me w0 w'.
Proof.
  intros Hh Hs [Hwf Hot]. split.
  - intros user l. rewrite Hs, Hh. apply Hwf.
  - intros other l. rewrite Hs, Hh. apply Hot.
Qed.

Lemma apart_swept w : apart me w0 w → apart me w0 (swept clock w).
Proof.
  intros [Hwf Hot]. split.
  - intros user l Hl. apply swept_lookup in Hl as [Hl _].
    rewrite swept_heap. apply Hwf, Hl.
  - intros other l Hne Hl. apply swept_lookup in Hl as [Hl _].
    rewrite swept_heap. apply Hot; assumption.
Qed.

(** Changing the sender's own object, its user id apart. *)
Lemma apart_alter_mine w w' l (f : UserSession → UserSession) :
  (∀ s, user_id (f s) = user_id s) →
  sessions w !! me = Some l →
  heap w' = alter f l (heap w) → sessions w' = sessions w →
  apart me w0 w → apart me w0 w'.
Proof.
  intros Hf Hl Hh Hs [Hwf Hot]. split.
  - intros user l' Hl'. rewrite Hs in Hl'. rewrite Hh.
    destruct (Hwf user l' Hl') as (s & Hs' & Hid).
    destruct (decide (l = l')) as [->|Hne].
    + exists (f s). rewrite list_lookup_alter_eq, Hs', Hf. auto.
    + exists s. rewrite list_lookup_alter_ne by exact Hne. auto.
  - intros other l' Hne Hl'. rewrite Hs in Hl'.
    destruct (Hot other l' Hne Hl') as [H0 Hsame]. split; [exact H0|].
    rewrite Hh, list_lookup_alter_ne; [exact Hsame|].
    intros ->. destruct (Hwf me l' Hl) as (s1 & Hs1 & Hid1).
    destruct (Hwf other l' Hl') as (s2 & Hs2 & Hid2). congruence.
Qed.

(** Binding the sender to a new object. *)
Lemma apart_alloc_mine w w' s :
  user_id s = me →
  heap w' = (heap w ++ [s])%list →
  sessions w' = <[me := length (heap w)]> (sessions w) →
  apart me w0 w → apart me w0 w'.
Proof.
  intros Hid Hh Hs [Hwf Hot]. split.
  - intros user l Hl. rewrite Hs in Hl. rewrite Hh.
    destruct (decide (user = me)) as [->|Hne].
    + rewrite lookup_insert_eq in Hl. injection Hl as <-.
      exists s. split; [apply list_lookup_middle; reflexivity|exact Hid].
    + rewrite lookup_insert_ne in Hl by congruence.
      destruct (Hwf user l Hl) as (s' & Hs' & Hid'). exists s'.
      split; [apply lookup_app_l_Some, Hs'|exact Hid'].
  - intros other l Hne Hl. rewrite Hs, lookup_insert_ne in Hl by congruence.
    destruct (Hot other l Hne Hl) as [H0 Hsame]. split; [exact H0|].
    destruct (Hwf other l Hl) as (s' & Hs' & _).
    rewrite Hh, <- Hsame. rewrite Hs'. apply lookup_app_l_Some, Hs'.
Qed.

Lemma apart_unbind_mine w w' :
  heap w' = heap w → sessions w' = delete me (sessions w) →
  apart me w0 w → apart me w0 w'.
Proof.
  intros Hh Hs [Hwf Hot]. split.
  - intros user l Hl. rewrite Hs in Hl. apply lookup_delete_Some in Hl as [_ Hl].
    rewrite Hh. apply Hwf, Hl.
  - intros other l Hne Hl. rewrite Hs, lookup_delete_ne in Hl by congruence.
    rewrite Hh. apply Hot; assumption.
Qed.

Lemma updated_user_id t st patch s : user_id (updated t st patch s) = user_id s.
Proof.
  unfold updated, patched, stepped.
  destruct (truthy_str st), (truthy_dict patch); reflexivity.
Qed.

Lemma apart_get_session : preserves (apart me w0) (get_session clock me).
Proof.
  intros w Hw. rewrite get_session_run. cbv zeta.
  pose proof (apart_swept w Hw) as Hw1.
  destruct (sessions (swept clock w) !! me) as [l|] eqn:Hl; cbn [snd]; [|exact Hw1].
  eapply (apart_alter_mine (swept clock w) _ l);
    [|exact Hl|reflexivity|reflexivity|exact Hw1].
  intros s. reflexivity.
Qed.

Lemma apart_create_session st : preserves (apart me w0) (create_session clock me st).
Proof.
  intros w Hw. rewrite create_session_run. cbn [snd].
  eapply (apart_alloc_mine w); [|reflexivity|reflexivity|exact Hw]. reflexivity.
Qed.

Lemma apart_update_session st patch :
  preserves (apart me w0) (update_session clock me st patch).
Proof.
  intros w Hw. rewrite update_session_run. cbv zeta.
  pose proof (apart_swept w Hw) as Hw1.
  destruct (sessions (swept clock w) !! me) as [l|] eqn:Hl; cbn [snd].
  - eapply (apart_alter_mine (swept clock w) _ l);
      [|exact Hl|reflexivity|reflexivity|exact Hw1].
    apply updated_user_id.
  - eapply (apart_alloc_mine (swept clock w));
      [|reflexivity|reflexivity|exact Hw1].
    apply updated_user_id.
Qed.

Lemma apart_clear_session : preserves (apart me w0) (clear_session me).
Proof.
  intros w Hw. eapply (apart_unbind_mine w); [| |exact Hw]; reflexivity.
Qed.

Lemma apart_add_file w l fid fname fsize :
  sessions w !! me = Some l → apart me w0 w →
  apart me w0 (add_file clock l fid fname fsize w).2.
Proof.
  intros Hl Hw. rewrite add_file_run.
  destruct (heap w !! l) as [s|]; [|exact Hw].
  destruct (_ <? _)%nat; [|exact Hw]. cbn [snd].
  eapply (apart_alter_mine w _ l); [|exact Hl|reflexivity|reflexivity|exact Hw].
  intros s'. reflexivity.
Qed.

Lemma apart_handle ev :
  uid (sender ev) = me →
  preserves (apart me w0) (handle clock transport_ok token_hex thread_ref ADMIN_ID ev).
Proof.
  apply preserves_handle.
  - apply apart_frame.
  - apply apart_get_session.
  - apply apart_create_session.
  - apply apart_update_session.
  - apply apart_clear_session.
  - apply apart_add_file.
Qed.

End Isolation.

Section Isolation_claims.

Variable clock : nat → Z.
Variable transport_ok : nat → bool.
Variable token_hex : nat → string.
Variable thread_ref : Z → Z → string.
Variable ADMIN_ID : Z.

Lemma well_formed_after ev w :
  well_formed w →
  well_formed (after clock transport_ok token_hex thread_ref ADMIN_ID ev w).
Proof.
  intros Hwf.
  apply (apart_handle clock transport_ok token_hex thread_ref ADMIN_ID
           (uid (sender ev)) w ev eq_refl w).
  split; [exact Hwf|]. intros other l _ Hl. auto.
Qed.

Lemma well_formed_run evs w :
  well_formed w →
  well_formed (run clock transport_ok token_hex thread_ref ADMIN_ID evs w).
Proof.
  revert w. induction evs as [|ev evs IH]; intros w Hw; cbn [run]; [exact Hw|].
  apply IH, well_formed_after, Hw.
Qed.

Lemma well_formed_initial : well_formed initial_world.
Proof. intros user l Hl. cbn in Hl. rewrite lookup_empty in Hl. discriminate. Qed.

(** X4: in every world reachable from the empty store, an entry of the store
    names a session object whose [user_id] is the key it is stored under;
    hence two users never share a session object. *)
Theorem one_object_per_user (evs : list event) :
  let w := run clock transport_ok token_hex thread_ref ADMIN_ID evs initial_world in
  well_formed w
  ∧ ∀ user1 user2 l,
      sessions w !! user1 = Some l → sessions w !! user2 = Some l → user1 = user2.
Proof.
  cbv zeta.
  pose proof (well_formed_run evs initial_world well_formed_initial) as Hwf.
  split; [exact Hwf|]. intros user1 user2 l H1 H2.
  destruct (Hwf user1 l H1) as (s1 & Hs1 & Hid1).
  destruct (Hwf user2 l H2) as (s2 & Hs2 & Hid2). congruence.
Qed.

(** X5: an event changes no session but its sender's.  Whatever the store
    holds after the event for another user, it held before: the same object
    with the same content (a sweep may have removed other users' expired
    sessions, nothing else happens to them). *)
Theorem other_users_untouched (w : World) (ev : event) (other : Z) (l : nat) :
  well_formed w →
  other ≠ uid (sender ev) →
  let w' := after clock transport_ok token_hex thread_ref ADMIN_ID ev w in
  sessions w' !! other = Some l →
  sessions w !! other = Some l ∧ heap w' !! l = heap w !! l.
Proof.
  intros Hwf Hne w' Hl.
  assert (apart (uid (sender ev)) w w') as [_ Hot].
  { apply (apart_handle clock transport_ok token_hex thread_ref ADMIN_ID
             (uid (sender ev)) w ev eq_refl w).
    split; [exact Hwf|]. intros o l' _ Hl'. auto. }
  exact (Hot other l Hne Hl).
Qed.

End Isolation_claims.

(** ** The steps of the conversation *)

Section Conversation.

Variable clock : nat → Z.
Variable transport_ok : nat → bool.
Variable token_hex : nat → string.
Variable thread_ref : Z → Z → string.
Variable ADMIN_ID : Z.

Lemma io_only_store {A} (m : M A) w :
  io_only m → heap (m w).2 = heap w ∧ sessions (m w).2 = sessions w.
Proof. intros H. destruct (H w) as (H1 & H2 & _). auto. Qed.

Lemma main_menu_store u w :
  sessions (main_menu transport_ok u w).2 = delete (uid u) (sessions w)
  ∧ heap (main_menu transport_ok u w).2 = heap w.
Proof.
  unfold main_menu, clear_session, bind, get_sessions, put_sessions.
  cbn beta iota.
  match goal with
  | |- context [send transport_ok (uid u) MenuText ?w1] =>
      destruct (io_only_store (send transport_ok (uid u) MenuText) w1
                  (io_only_send _ _ _)) as [Hh Hs];
      destruct (send transport_ok (uid u) MenuText w1) as [[[]|e] w2]
  end; cbn [snd] in *; rewrite Hh, Hs; auto.
Qed.

Lemma main_menu_button u w d :
  d = "menu" ∨ d = "back" → transport_ok (sent w) = true →
  button_handler clock transport_ok token_hex ADMIN_ID u d w
  = try_except (main_menu transport_ok u)
               (send transport_ok (uid u) TemporaryError) (acked w).
Proof.
  intros Hd Hok. unfold button_handler.
  rewrite (bind_Ok _ _ _ _ _ (answer_ok _ _ Hok)).
  destruct Hd as [-> | ->]; reflexivity.
Qed.

(** X6: the menu command and the [menu] and [back] buttons drop the sender's
    session whatever its step, and change nothing else in the store or the
    heap: going back is starting over. *)
Theorem menu_drops_session (w : World) (u : User) :
  let dropped w' :=
    sessions w' = delete (uid u) (sessions w) ∧ sessions w' !! uid u = None
    ∧ heap w' = heap w in
  dropped (after clock transport_ok token_hex thread_ref ADMIN_ID (CmdMenu u) w)
  ∧ (transport_ok (sent w) = true →
     dropped (after clock transport_ok token_hex thread_ref ADMIN_ID
                (CallbackQuery u "menu") w)
     ∧ dropped (after clock transport_ok token_hex thread_ref ADMIN_ID
                  (CallbackQuery u "back") w)).
Proof.
  cbv zeta. unfold after. cbn [handle].
  assert (∀ w1, sessions w1 = sessions w → heap w1 = heap w →
            let w' := (try_except (main_menu transport_ok u)
                         (send transport_ok (uid u) TemporaryError) w1).2 in
            sessions w' = delete (uid u) (sessions w)
            ∧ sessions w' !! uid u = None ∧ heap w' = heap w) as Hbutton.
  { intros w1 Hs Hh. cbv zeta. unfold try_except.
    destruct (main_menu_store u w1) as [Hs1 Hh1].
    destruct (main_menu transport_ok u w1) as [[[]|e] w2]; cbn [snd] in *.
    - rewrite Hs1, Hh1, Hs, Hh. split; [reflexivity|].
      split; [apply lookup_delete_eq|reflexivity].
    - destruct (io_only_store (send transport_ok (uid u) TemporaryError) w2
                  (io_only_send _ _ _)) as [Hh2 Hs2].
      rewrite Hs2, Hh2, Hs1, Hh1, Hs, Hh. split; [reflexivity|].
      split; [apply lookup_delete_eq|reflexivity]. }
  split.
  - destruct (main_menu_store u w) as [Hs Hh]. rewrite Hs, Hh.
    split; [reflexivity|]. split; [apply lookup_delete_eq|reflexivity].
  - intros Hok.
    rewrite !main_menu_button by auto.
    split; apply Hbutton; reflexivity.
Qed.

Lemma try_except_read {A} l s0 (k : UserSession → M A) h w1 :
  heap w1 !! l = Some s0 →
  try_except (let* s := read l in k s) h w1 = try_except (k s0) h w1.
Proof. intros H. unfold try_except, bind. rewrite (read_run _ _ _ H). reflexivity. Qed.

Lemma neq_eqb_false (a b : string) : a ≠ b → String.eqb a b = false.
Proof. apply String.eqb_neq. Qed.

(** X7: a text sent at a step that expects no text (a level, a deadline, a
    file, or the menu) is dropped without an answer: nothing is sent and the
    session keeps its step, data and files. *)
Theorem text_ignored_at_other_steps (w : World) (u : User) (l : nat)
    (s : UserSession) (text : string) :
  sessions w !! uid u = Some l → heap w !! l = Some s → live clock w s 2 →
  step s ≠ "order_subject" → step s ≠ "order_pages" →
  step s ≠ "order_instructions" → step s ≠ "support" →
  let r := text_handler clock transport_ok thread_ref ADMIN_ID u text w in
  r.1 = Ok ()
  ∧ outbox r.2 = outbox w ∧ sent r.2 = sent w
  ∧ sessions r.2 !! uid u = Some l
  ∧ ∃ s', heap r.2 !! l = Some s' ∧ step s' = step s ∧ data s' = data s
          ∧ files s' = files s.
Proof.
  intros Hu Hl Hlive H1 H2 H3 H4. cbv zeta.
  destruct (get_session_live clock w (uid u) l s 0 Hu Hl Hlive)
    as (w1 & t & Hget & Hu1 & Hh1 & _ & (Hs1 & _ & Ho1) & _).
  assert (heap w1 !! l = Some (set_last_activity t s)) as Hl1
    by (rewrite Hh1; eapply lookup_insert_heap, Hl).
  unfold text_handler. rewrite (bind_Ok _ _ _ _ _ Hget).
  unfold try_except. rewrite (bind_Ok _ _ _ _ _ (read_run _ _ _ Hl1)).
  cbn [step set_last_activity].
  rewrite !neq_eqb_false by assumption.
  cbn [fst snd ret]. unfold ret. cbn [fst snd].
  repeat split; try assumption.
  eexists. split; [exact Hl1|]. auto.
Qed.

(** X8: the subject step and the instructions step take any text as it is:
    the text is stored under [subject], respectively [instructions_text],
    the step moves on to [order_level], respectively [order_files], and the
    next prompt is sent. *)
Theorem free_text_steps (w : World) (u : User) (l : nat) (s : UserSession)
    (text : string) :
  sessions w !! uid u = Some l → heap w !! l = Some s → live clock w s 5 →
  let w' := (text_handler clock transport_ok thread_ref ADMIN_ID u text w).2 in
  (step s = "order_subject" →
   sessions w' !! uid u = Some l
   ∧ (∃ s', heap w' !! l = Some s' ∧ step s' = "order_level"
            ∧ data s' = <["subject" := VStr text]> (data s) ∧ files s' = files s)
   ∧ (transport_ok (sent w) = true →
      outbox w' = (outbox w ++ [(uid u, SubjectConfirmation text)])%list))
  ∧ (step s = "order_instructions" →
     sessions w' !! uid u = Some l
     ∧ (∃ s', heap w' !! l = Some s' ∧ step s' = "order_files"
              ∧ data s' = <["instructions_text" := VStr text]> (data s)
              ∧ files s' = files s)
     ∧ (transport_ok (sent w) = true →
        outbox w' = (outbox w ++ [(uid u, FilesPrompt)])%list)).
Proof.
  intros Hu Hl Hlive. cbv zeta.
  destruct (get_session_live clock w (uid u) l s 3 Hu Hl Hlive)
    as (w1 & t & Hget & Hu1 & Hh1 & Hlive1 & (Hs1 & _ & Ho1) & _).
  assert (heap w1 !! l = Some (set_last_activity t s)) as Hl1
    by (rewrite Hh1; eapply lookup_insert_heap, Hl).
  assert (∀ st k r,
            let body := (update_session clock (uid u) (Some st)
                           (Some {[ k := VStr text ]});;
                         send transport_ok (uid u) r) in
            st ≠ "" →
            let w' := (try_except body (send transport_ok (uid u) TextError) w1).2 in
            sessions w' !! uid u = Some l
            ∧ (∃ s', heap w' !! l = Some s' ∧ step s' = st
                     ∧ data s' = <[k := VStr text]> (data s) ∧ files s' = files s)
            ∧ (transport_ok (sent w) = true →
               outbox w' = (outbox w ++ [(uid u, r)])%list)) as Hstep.
  { intros st k r body Hst. cbv zeta. subst body.
    destruct (update_session_live clock w1 (uid u) l _ (Some st)
                (Some {[ k := VStr text ]}) 0 Hu1 Hl1 Hlive1)
      as (w2 & t2 & Hupd & Hu2 & Hh2 & _ & (Hs2 & _ & Ho2) & _).
    rewrite patched_singleton in Hh2.
    assert (stepped (Some st) (set_last_activity t s)
            = set_step st (set_last_activity t s)) as Hstepped
      by (unfold stepped; destruct st; [congruence|reflexivity]).
    rewrite Hstepped in Hh2.
    unfold try_except. rewrite (bind_Ok _ _ _ _ _ Hupd).
    pose proof (io_only_store (send transport_ok (uid u) r) w2 (io_only_send _ _ _))
      as [Hh Hss].
    destruct (send transport_ok (uid u) r w2) as [[[]|e] w3] eqn:Hsend; cbn [snd] in *.
    - rewrite Hh, Hss, Hh2, Hh1, list_insert_insert_eq.
      split; [exact Hu2|]. split.
      + eexists. split; [eapply lookup_insert_heap, Hl|]. auto.
      + intros Hok. rewrite send_ok in Hsend by (rewrite Hs2, Hs1; exact Hok).
        injection Hsend as <-. cbn [outbox]. rewrite Ho2, Ho1. reflexivity.
    - destruct (io_only_store (send transport_ok (uid u) TextError) w3
                  (io_only_send _ _ _)) as [Hh' Hss'].
      rewrite Hh', Hss', Hh, Hss, Hh2, Hh1, list_insert_insert_eq.
      split; [exact Hu2|]. split.
      + eexists. split; [eapply lookup_insert_heap, Hl|]. auto.
      + intros Hok. rewrite send_ok in Hsend by (rewrite Hs2, Hs1; exact Hok).
        discriminate. }
  unfold text_handler. rewrite (bind_Ok _ _ _ _ _ Hget).
  rewrite (try_except_read _ _ _ _ _ Hl1).
  cbv zeta. cbn [step set_last_activity].
  split; intros Hstep_s; rewrite Hstep_s.
  - change (("order_subject" =? "order_subject")%string) with true.
    cbn beta iota.
    apply (Hstep "order_level" "subject" (SubjectConfirmation text)). discriminate.
  - change (("order_instructions" =? "order_subject")%string) with false.
    change (("order_instructions" =? "order_pages")%string) with false.
    change (("order_instructions" =? "order_instructions")%string) with true.
    cbn beta iota.
    apply (Hstep "order_files" "instructions_text" FilesPrompt). discriminate.
Qed.

End Conversation.

(** ** Uploads *)

Section Uploads.

Variable clock : nat → Z.
Variable transport_ok : nat → bool.
Variable token_hex : nat → string.
Variable thread_ref : Z → Z → string.
Variable ADMIN_ID : Z.

Lemma send_store target r w :
  heap (send transport_ok target r w).2 = heap w
  ∧ sessions (send transport_ok target r w).2 = sessions w.
Proof. apply io_only_store, io_only_send. Qed.

Lemma send_outbox target r w :
  transport_ok (sent w) = true →
  outbox (send transport_ok target r w).2 = (outbox w ++ [(target, r)])%list.
Proof. intros H. rewrite send_ok by exact H. reflexivity. Qed.

(** The upload handler once the session has been fetched. *)
Lemma file_handler_run w u att l s :
  sessions w !! uid u = Some l → heap w !! l = Some s → live clock w s 2 →
  ∃ w1 t,
    sessions w1 !! uid u = Some l
    ∧ heap w1 !! l = Some (set_last_activity t s)
    ∧ sent w1 = sent w ∧ outbox w1 = outbox w
    ∧ file_handler clock transport_ok u att w =
      (if String.eqb (step s) "order_files" then
         if (Config.MAX_FILES_PER_ORDER <=? length (files s))%nat then
           send transport_ok (uid u) FileLimitReached
         else
           try_except
             (match
                match document att with
                | Some d =>
                    Some (doc_file_id d,
                          or_default (doc_file_name d) (String.eqb "") "document",
                          or_default (doc_file_size d) (Z.eqb 0) 0)
                | None =>
                    match last (photo att) with
                    | Some ph =>
                        Some (photo_file_id ph,
                              "image_" +:+ pretty (length (files s) + 1)%nat +:+ ".jpg",
                              or_default (photo_file_size ph) (Z.eqb 0) 0)
                    | None => None
                    end
                end
              with
              | None => send transport_ok (uid u) UnsupportedFileType
              | Some (fid, fname, fsize) =>
                  if 20 * 1024 * 1024 <? fsize
                  then send transport_ok (uid u) FileTooLarge
                  else
                    let* added := add_file clock l fid fname fsize in
                    if added : bool then
                      let* s' := read l in
                      send transport_ok (uid u) (FileAdded fname fsize (length (files s')))
                    else ret ()
              end)
             (send transport_ok (uid u) FileUploadError)
       else send transport_ok (uid u) UnexpectedFile) w1.
Proof.
  intros Hu Hl Hlive.
  destruct (get_session_live clock w (uid u) l s 0 Hu Hl Hlive)
    as (w1 & t & Hget & Hu1 & Hh1 & _ & (Hs1 & _ & Ho1) & _).
  assert (heap w1 !! l = Some (set_last_activity t s)) as Hl1
    by (rewrite Hh1; eapply lookup_insert_heap, Hl).
  exists w1, t. repeat (split; [assumption|]).
  unfold file_handler. rewrite (bind_Ok _ _ _ _ _ Hget).
  unfold bind at 1. unfold bind at 1. rewrite (read_run _ _ _ Hl1).
  unfold ret at 1. cbn [step set_last_activity].
  destruct (String.eqb (step s) "order_files"); [|reflexivity].
  rewrite (bind_Ok _ _ _ _ _ (read_run _ _ _ Hl1)).
  cbn [files set_last_activity]. reflexivity.
Qed.

Lemma file_handler_store w u att l s fid fname fsize :
  sessions w !! uid u = Some l → heap w !! l = Some s → live clock w s 2 →
  step s = "order_files" → (length (files s) < Config.MAX_FILES_PER_ORDER)%nat →
  (match document att with
   | Some d =>
       Some (doc_file_id d,
             or_default (doc_file_name d) (String.eqb "") "document",
             or_default (doc_file_size d) (Z.eqb 0) 0)
   | None =>
       match last (photo att) with
       | Some ph =>
           Some (photo_file_id ph,
                 "image_" +:+ pretty (length (files s) + 1)%nat +:+ ".jpg",
                 or_default (photo_file_size ph) (Z.eqb 0) 0)
       | None => None
       end
   end) = Some (fid, fname, fsize) →
  fsize ≤ 20 * 1024 * 1024 →
  let w' := (file_handler clock transport_ok u att w).2 in
  sessions w' !! uid u = Some l
  ∧ (∃ s' t, heap w' !! l = Some s'
       ∧ files s' = (files s ++ [{| file_id := fid; file_name := fname;
                                    file_size := fsize; uploaded_at := t |}])%list
       ∧ step s' = step s ∧ data s' = data s)
  ∧ (transport_ok (sent w) = true →
     outbox w' = (outbox w ++ [(uid u, FileAdded fname fsize (S (length (files s))))])%list).
Proof.
  intros Hu Hl Hlive Hstep Hroom Hchosen Hsize. cbv zeta.
  destruct (file_handler_run w u att l s Hu Hl Hlive)
    as (w1 & t & Hu1 & Hl1 & Hs1 & Ho1 & ->).
  rewrite Hstep.
  change (("order_files" =? "order_files")%string) with true. cbn iota beta.
  assert ((Config.MAX_FILES_PER_ORDER <=? length (files s))%nat = false) as ->
    by (apply Nat.leb_gt; exact Hroom).
  rewrite Hchosen.
  assert ((20 * 1024 * 1024 <? fsize) = false) as -> by (apply Z.ltb_ge; exact Hsize).
  set (entry := {| file_id := fid; file_name := fname; file_size := fsize;
                   uploaded_at := clock (ticks w1) |}).
  set (s2 := set_files (files s ++ [entry])%list (set_last_activity t s)).
  set (w2 := {| heap := <[l := s2]> (heap w1); sessions := sessions w1;
                ticks := S (ticks w1); sent := sent w1; tokens := tokens w1;
                outbox := outbox w1 |}).
  assert (add_file clock l fid fname fsize w1 = (Ok true, w2)) as Hadd.
  { rewrite add_file_run, Hl1. cbn [files set_last_activity].
    assert ((length (files s) <? Config.MAX_FILES_PER_ORDER)%nat = true) as ->
      by (apply Nat.ltb_lt; exact Hroom).
    unfold w2. do 2 f_equal.
    rewrite (alter_lookup_insert _ _ _ _ Hl1). reflexivity. }
  assert (heap w2 !! l = Some s2) as Hl2.
  { unfold w2. cbn [heap]. eapply lookup_insert_heap, Hl1. }
  assert (length (files s2) = S (length (files s))) as Hlen.
  { unfold s2. cbn [files set_files]. rewrite length_app. cbn. lia. }
  assert (try_except
            (let* added := add_file clock l fid fname fsize in
             if added : bool then
               let* s' := read l in
               send transport_ok (uid u) (FileAdded fname fsize (length (files s')))
             else ret ())
            (send transport_ok (uid u) FileUploadError) w1
          = try_except
              (send transport_ok (uid u) (FileAdded fname fsize (S (length (files s)))))
              (send transport_ok (uid u) FileUploadError) w2) as ->.
  { unfold try_except. rewrite (bind_Ok _ _ _ _ _ Hadd).
    rewrite (bind_Ok _ _ _ _ _ (read_run _ _ _ Hl2)). rewrite Hlen. reflexivity. }
  unfold try_except.
  pose proof (send_store (uid u) (FileAdded fname fsize (S (length (files s)))) w2)
    as [Hh3 Hs3].
  pose proof (send_outbox (uid u) (FileAdded fname fsize (S (length (files s)))) w2)
    as Ho3.
  destruct (send transport_ok (uid u) (FileAdded fname fsize (S (length (files s)))) w2)
    as [[[]|e] w3] eqn:Hsend; cbn [snd] in *.
  - rewrite Hh3, Hs3. split; [exact Hu1|]. split.
    + exists s2, (clock (ticks w1)). split; [exact Hl2|]. auto.
    + intros Hok. rewrite Ho3 by (cbn [sent w2]; rewrite Hs1; exact Hok).
      cbn [outbox w2]. rewrite Ho1. reflexivity.
  - destruct (send_store (uid u) FileUploadError w3) as [Hh4 Hs4].
    rewrite Hh4, Hs4, Hh3, Hs3. split; [exact Hu1|]. split.
    + exists s2, (clock (ticks w1)). split; [exact Hl2|]. auto.
    + intros Hok. rewrite send_ok in Hsend by (cbn [sent w2]; rewrite Hs1; exact Hok).
      discriminate.
Qed.

(** X9: at the files step with room left, a document of at most 20 MiB is
    appended as one entry, named [document] when it has no name and sized 0
    when it has no size; without a document the largest rendition of the
    photo is appended as [image_N.jpg], N counting from the files already
    held.  The confirmation reports the new count; step and data stay. *)
Theorem upload_appends_one (w : World) (u : User) (l : nat) (s : UserSession)
    (att : Attachment) :
  sessions w !! uid u = Some l → heap w !! l = Some s → live clock w s 2 →
  step s = "order_files" → (length (files s) < Config.MAX_FILES_PER_ORDER)%nat →
  let w' := (file_handler clock transport_ok u att w).2 in
  let appended fid fname fsize :=
    sessions w' !! uid u = Some l
    ∧ (∃ s' t, heap w' !! l = Some s'
         ∧ files s' = (files s ++ [{| file_id := fid; file_name := fname;
                                      file_size := fsize; uploaded_at := t |}])%list
         ∧ step s' = step s ∧ data s' = data s)
    ∧ (transport_ok (sent w) = true →
       outbox w' = (outbox w ++ [(uid u, FileAdded fname fsize
                                           (S (length (files s))))])%list) in
  (∀ d, document att = Some d →
        let fname := or_default (doc_file_name d) (String.eqb "") "document" in
        let fsize := or_default (doc_file_size d) (Z.eqb 0) 0 in
        fsize ≤ 20 * 1024 * 1024 → appended (doc_file_id d) fname fsize)
  ∧ (∀ ph, document att = None → last (photo att) = Some ph →
           let fname := "image_" +:+ pretty (length (files s) + 1)%nat +:+ ".jpg" in
           let fsize := or_default (photo_file_size ph) (Z.eqb 0) 0 in
           fsize ≤ 20 * 1024 * 1024 → appended (photo_file_id ph) fname fsize).
Proof.
  intros Hu Hl Hlive Hstep Hroom. cbv zeta. split.
  - intros d Hd Hsize.
    apply (file_handler_store w u att l s _ _ _ Hu Hl Hlive Hstep Hroom);
      [rewrite Hd; reflexivity|exact Hsize].
  - intros ph Hd Hph Hsize.
    apply (file_handler_store w u att l s _ _ _ Hu Hl Hlive Hstep Hroom);
      [rewrite Hd, Hph; reflexivity|exact Hsize].
Qed.

Lemma try_except_send_store {A} (m : M A) target r w :
  (heap (m w).2 = heap w ∧ sessions (m w).2 = sessions w) →
  heap (try_except (m ;; ret ()) (send transport_ok target r) w).2 = heap w
  ∧ sessions (try_except (m ;; ret ()) (send transport_ok target r) w).2 = sessions w.
Proof.
  intros [Hh Hs]. unfold try_except, bind.
  destruct (m w) as [[a|e] w1]; cbn [snd] in *; [auto|].
  destruct (send_store target r w1) as [Hh1 Hs1]. rewrite Hh1, Hs1. auto.
Qed.

(** X10: a file is turned away, with the matching notice and without any
    change to the files held, when the sender has no session, when the
    session is not at the files step, when the message carries neither a
    document nor a photo, and when the file is larger than 20 MiB. *)
Theorem upload_rejections (w : World) (u : User) (att : Attachment) :
  let w' := (file_handler clock transport_ok u att w).2 in
  let said r := transport_ok (sent w) = true →
                outbox w' = (outbox w ++ [(uid u, r)])%list in
  (sessions w !! uid u = None → sessions w' !! uid u = None ∧ said UnexpectedFile)
  ∧ (∀ l s, sessions w !! uid u = Some l → heap w !! l = Some s → live clock w s 2 →
       let kept := sessions w' !! uid u = Some l
                   ∧ ∃ s', heap w' !! l = Some s' ∧ files s' = files s
                           ∧ step s' = step s ∧ data s' = data s in
       (step s ≠ "order_files" → kept ∧ said UnexpectedFile)
       ∧ (step s = "order_files" →
          (length (files s) < Config.MAX_FILES_PER_ORDER)%nat →
          (document att = None → photo att = [] → kept ∧ said UnsupportedFileType)
          ∧ (∀ d size, document att = Some d → doc_file_size d = Some size →
                       20 * 1024 * 1024 < size → kept ∧ said FileTooLarge)
          ∧ (∀ ph size, document att = None → last (photo att) = Some ph →
                        photo_file_size ph = Some size →
                        20 * 1024 * 1024 < size → kept ∧ said FileTooLarge))).
Proof.
  cbv zeta. split.
  - intros Hu.
    assert (file_handler clock transport_ok u att w
            = send transport_ok (uid u) UnexpectedFile (swept clock w)) as ->.
    { unfold file_handler.
      rewrite (bind_Ok _ _ _ _ _ (get_session_absent clock w (uid u) Hu)).
      reflexivity. }
    destruct (send_store (uid u) UnexpectedFile (swept clock w)) as [Hh Hs].
    rewrite Hs. split.
    + apply swept_lookup_None. exact Hu.
    + intros Hok. rewrite send_outbox.
      * destruct (swept_same_io clock w) as (_ & _ & ->). reflexivity.
      * destruct (swept_same_io clock w) as (-> & _). exact Hok.
  - intros l s Hu Hl Hlive.
    destruct (file_handler_run w u att l s Hu Hl Hlive)
      as (w1 & t & Hu1 & Hl1 & Hs1 & Ho1 & ->).
    assert (∀ r, let w' := (send transport_ok (uid u) r w1).2 in
              (sessions w' !! uid u = Some l
               ∧ ∃ s', heap w' !! l = Some s' ∧ files s' = files s
                       ∧ step s' = step s ∧ data s' = data s)
              ∧ (transport_ok (sent w) = true →
                 outbox w' = (outbox w ++ [(uid u, r)])%list)) as Hsaid.
    { intros r. cbv zeta. destruct (send_store (uid u) r w1) as [Hh Hs].
      rewrite Hh, Hs. split.
      - split; [exact Hu1|]. eexists. split; [exact Hl1|]. auto.
      - intros Hok. rewrite send_outbox by (rewrite Hs1; exact Hok).
        rewrite Ho1. reflexivity. }
    assert (∀ r, let w' := (try_except (send transport_ok (uid u) r)
                              (send transport_ok (uid u) FileUploadError) w1).2 in
              (sessions w' !! uid u = Some l
               ∧ ∃ s', heap w' !! l = Some s' ∧ files s' = files s
                       ∧ step s' = step s ∧ data s' = data s)
              ∧ (transport_ok (sent w) = true →
                 outbox w' = (outbox w ++ [(uid u, r)])%list)) as Htried.
    { intros r. cbv zeta. unfold try_except.
      pose proof (Hsaid r) as Hr. cbv zeta in Hr.
      destruct (send transport_ok (uid u) r w1) as [[[]|e] w2] eqn:Hsend;
        cbn [snd] in *; [exact Hr|].
      destruct (send_store (uid u) FileUploadError w2) as [Hh Hs].
      rewrite Hh, Hs. split; [apply Hr|].
      intros Hok. rewrite send_ok in Hsend by (rewrite Hs1; exact Hok).
      discriminate. }
    split.
    + intros Hstep. rewrite (neq_eqb_false _ _ Hstep).
      apply Hsaid.
    + intros Hstep Hroom. rewrite Hstep in Htried |- *.
      change (("order_files" =? "order_files")%string) with true. cbn iota beta.
      assert ((Config.MAX_FILES_PER_ORDER <=? length (files s))%nat = false) as ->
        by (apply Nat.leb_gt; exact Hroom).
      split; [|split].
      * intros Hd Hp. rewrite Hd, Hp. cbn [last]. apply Htried.
      * intros d size Hd Hsz Hbig. rewrite Hd, Hsz. cbn [or_default].
        assert ((0 =? size) = false) as -> by lia.
        assert ((20 * 1024 * 1024 <? size) = true) as -> by lia.
        apply Htried.
      * intros ph size Hd Hph Hsz Hbig. rewrite Hd, Hph, Hsz. cbn [or_default].
        assert ((0 =? size) = false) as -> by lia.
        assert ((20 * 1024 * 1024 <? size) = true) as -> by lia.
        apply Htried.
Qed.

End Uploads.

(** ** Support and operator messages *)

Section Relay.

Variable clock : nat → Z.
Variable transport_ok : nat → bool.
Variable token_hex : nat → string.
Variable thread_ref : Z → Z → string.
Variable ADMIN_ID : Z.

Lemma text_handler_support w u l s text :
  sessions w !! uid u = Some l → heap w !! l = Some s → live clock w s 2 →
  step s = "support" →
  ∃ w1 t,
    sessions w1 !! uid u = Some l
    ∧ heap w1 !! l = Some (set_last_activity t s)
    ∧ sent w1 = sent w ∧ outbox w1 = outbox w
    ∧ text_handler clock transport_ok thread_ref ADMIN_ID u text w
      = try_except (handle_support_message clock transport_ok thread_ref ADMIN_ID u text)
          (send transport_ok (uid u) TextError) w1.
Proof.
  intros Hu Hl Hlive Hstep.
  destruct (get_session_live clock w (uid u) l s 0 Hu Hl Hlive)
    as (w1 & t & Hget & Hu1 & Hh1 & _ & (Hs1 & _ & Ho1) & _).
  assert (heap w1 !! l = Some (set_last_activity t s)) as Hl1
    by (rewrite Hh1; eapply lookup_insert_heap, Hl).
  exists w1, t. repeat (split; [assumption|]).
  unfold text_handler. rewrite (bind_Ok _ _ _ _ _ Hget).
  rewrite (try_except_read _ _ _ _ _ Hl1).
  cbv zeta. cbn [step set_last_activity]. rewrite Hstep. reflexivity.
Qed.

(** X11: a text sent at the support step goes to the operator with the
    sender's name and id, and the session ends only once both the relay and
    the confirmation were delivered.  If the relay fails the sender is told
    so and stays at the support step; if only the confirmation fails, the
    operator has the message while the sender is told of a failure and stays
    at the support step. *)
Theorem support_message_relayed (w : World) (u : User) (l : nat)
    (s : UserSession) (text : string) :
  sessions w !! uid u = Some l → heap w !! l = Some s → live clock w s 2 →
  step s = "support" →
  let w' := (text_handler clock transport_ok thread_ref ADMIN_ID u text w).2 in
  let name := default "Utilisateur" (truthy_str (username u)) in
  let kept := sessions w' !! uid u = Some l
              ∧ ∃ s', heap w' !! l = Some s' ∧ step s' = "support"
                      ∧ data s' = data s ∧ files s' = files s in
  ∃ thread,
    (transport_ok (sent w) = true → transport_ok (S (sent w)) = true →
     outbox w' = (outbox w ++ [(ADMIN_ID, SupportToAdmin thread name (uid u) text);
                              (uid u, SupportConfirmation thread)])%list
     ∧ sessions w' !! uid u = None)
    ∧ (transport_ok (sent w) = false → transport_ok (S (sent w)) = true →
       outbox w' = (outbox w ++ [(uid u, SupportSendError)])%list ∧ kept)
    ∧ (transport_ok (sent w) = true → transport_ok (S (sent w)) = false →
       transport_ok (S (S (sent w))) = true →
       outbox w' = (outbox w ++ [(ADMIN_ID, SupportToAdmin thread name (uid u) text);
                                (uid u, SupportSendError)])%list
       ∧ kept).
Proof.
  intros Hu Hl Hlive Hstep. cbv zeta.
  destruct (text_handler_support w u l s text Hu Hl Hlive Hstep)
    as (w1 & t & Hu1 & Hl1 & Hs1 & Ho1 & ->).
  exists (thread_ref (uid u) (clock (ticks w1))).
  cbv beta iota zeta delta
    [handle_support_message try_except bind now send clear_session get_sessions
     put_sessions set_sessions].
  cbn [fst snd heap sessions ticks sent tokens outbox]. rewrite Hs1, Ho1.
  assert (sessions w1 !! uid u = Some l
          ∧ ∃ s', heap w1 !! l = Some s' ∧ step s' = "support"
                  ∧ data s' = data s ∧ files s' = files s) as Hkept.
  { split; [exact Hu1|]. eexists. split; [exact Hl1|]. auto. }
  split; [|split].
  - intros H0 H1. rewrite H0. cbn [fst snd heap sessions ticks sent tokens outbox].
    rewrite H1. cbn [fst snd heap sessions ticks sent tokens outbox].
    rewrite <- app_assoc. split; [reflexivity|]. apply lookup_delete_eq.
  - intros H0 H1. rewrite H0. cbn [fst snd heap sessions ticks sent tokens outbox].
    rewrite H1. cbn [fst snd heap sessions ticks sent tokens outbox].
    split; [reflexivity|exact Hkept].
  - intros H0 H1 H2. rewrite H0. cbn [fst snd heap sessions ticks sent tokens outbox].
    rewrite H1. cbn [fst snd heap sessions ticks sent tokens outbox].
    rewrite H2. cbn [fst snd heap sessions ticks sent tokens outbox].
    rewrite <- app_assoc. split; [reflexivity|exact Hkept].
Qed.

(** X12: the reply command is the operator's: from any other sender it
    changes nothing at all and sends nothing.  From the operator it never
    touches a session; with a numeric id and a message it delivers the
    message, words joined by single spaces, to that id and confirms; with
    fewer than two words it shows the usage, and with an id that is not a
    number it says so. *)
Theorem admin_reply_effects (w : World) (u : User) (args : list string) :
  let r := admin_reply transport_ok ADMIN_ID u args w in
  let said rs := transport_ok (sent w) = true → transport_ok (S (sent w)) = true →
                 outbox r.2 = (outbox w ++ rs)%list in
  heap r.2 = heap w ∧ sessions r.2 = sessions w
  ∧ (uid u ≠ ADMIN_ID → r = (Ok (), w))
  ∧ (uid u = ADMIN_ID →
     ((length args < 2)%nat → said [(uid u, ReplyUsage)])
     ∧ (∀ a0 rest target, args = a0 :: rest → rest ≠ [] →
          PyStr.int a0 = Ok target →
          said [(target, AdminAnswer (String.concat " " rest));
                (uid u, ReplySent target)])
     ∧ (∀ a0 rest, args = a0 :: rest → rest ≠ [] →
          PyStr.int a0 = Raise ValueError → said [(uid u, InvalidUserId)])).
Proof.
  cbv zeta.
  assert (heap (admin_reply transport_ok ADMIN_ID u args w).2 = heap w
          ∧ sessions (admin_reply transport_ok ADMIN_ID u args w).2 = sessions w)
    as [Hh Hs].
  { unfold admin_reply. destruct (negb _); [auto|].
    unfold try_except_clauses.
    match goal with
    | |- context [match ?m w with _ => _ end] =>
        assert (heap (m w).2 = heap w ∧ sessions (m w).2 = sessions w) as Hm;
        [|destruct (m w) as [[a|e] w1]]
    end.
    - destruct args as [|a0 [|a1 rest]]; try apply send_store.
      unfold bind, lift. destruct (PyStr.int a0) as [target|e]; [|auto].
      destruct (send_store transport_ok target
                  (AdminAnswer (String.concat " " (tail (a0 :: a1 :: rest)))) w)
        as [H1 H2].
      destruct (send transport_ok target _ w) as [[[]|e] w1]; cbn [snd] in *; [|auto].
      destruct (send_store transport_ok (uid u) (ReplySent target) w1) as [H3 H4].
      rewrite H3, H4. auto.
    - exact Hm.
    - cbn [snd] in Hm. destruct Hm as [H1 H2].
      destruct e;
        match goal with
        | |- context [send transport_ok ?t ?r w1] =>
            destruct (send_store transport_ok t r w1) as [H3 H4]
        end; rewrite H3, H4; auto. }
  split; [exact Hh|]. split; [exact Hs|]. split.
  - intros Hne. unfold admin_reply.
    assert ((uid u =? ADMIN_ID) = false) as -> by (apply Z.eqb_neq; exact Hne).
    reflexivity.
  - intros He. unfold admin_reply.
    assert ((uid u =? ADMIN_ID) = true) as -> by (apply Z.eqb_eq; exact He).
    cbn [negb]. unfold try_except_clauses. split; [|split].
    + intros Hlen Hok _.
      destruct args as [|a0 [|a1 rest]];
        [| |cbn [length] in Hlen; lia];
        rewrite send_ok by exact Hok; reflexivity.
    + intros a0 rest target -> Hrest Hint Hok1 Hok2.
      destruct rest as [|a1 rest]; [congruence|].
      unfold bind, lift. rewrite Hint.
      rewrite send_ok by exact Hok1. rewrite send_ok by exact Hok2.
      cbn [snd outbox tail]. rewrite <- app_assoc. reflexivity.
    + intros a0 rest -> Hrest Hint Hok _.
      destruct rest as [|a1 rest]; [congruence|].
      unfold bind, lift. rewrite Hint.
      rewrite send_ok by exact Hok. reflexivity.
Qed.

End Relay.

(** ** Payment and the operator's copy of the order *)

Section Payment.

Variable clock : nat → Z.
Variable transport_ok : nat → bool.
Variable token_hex : nat → string.
Variable thread_ref : Z → Z → string.
Variable ADMIN_ID : Z.

Lemma only_to_quiet target {A} (m : M A) :
  (∀ w, heap (m w).2 = heap w ∧ sessions (m w).2 = sessions w
        ∧ outbox (m w).2 = outbox w) →
  only_to target m.
Proof.
  intros H w. destruct (H w) as (H1 & H2 & H3). split; [exact H1|].
  split; [exact H2|]. exists []. rewrite app_nil_r. auto.
Qed.

Lemma only_to_send target r : only_to target (send transport_ok target r).
Proof.
  intros w. destruct (send_store transport_ok target r w) as [H1 H2].
  split; [exact H1|]. split; [exact H2|].
  unfold send. destruct (transport_ok (sent w)); cbn [snd outbox].
  - eexists. split; [reflexivity|]. repeat constructor.
  - exists []. rewrite app_nil_r. auto.
Qed.

Lemma only_to_bind target {A B} (m : M A) (k : A → M B) :
  only_to target m → (∀ a, only_to target (k a)) → only_to target (bind m k).
Proof.
  intros Hm Hk w. unfold bind. destruct (Hm w) as (H1 & H2 & r1 & H3 & H4).
  destruct (m w) as [[a|e] w1]; cbn [snd] in *; [|eauto 6].
  destruct (Hk a w1) as (H5 & H6 & r2 & H7 & H8).
  rewrite H5, H6, H7, H3. split; [exact H1|]. split; [exact H2|].
  exists (r1 ++ r2)%list. rewrite app_assoc. split; [reflexivity|].
  apply Forall_app. auto.
Qed.

Lemma only_to_try_except target {A} (m h : M A) :
  only_to target m → only_to target h → only_to target (try_except m h).
Proof.
  intros Hm Hh w. unfold try_except. destruct (Hm w) as (H1 & H2 & r1 & H3 & H4).
  destruct (m w) as [[a|e] w1]; cbn [snd] in *; [eauto 6|].
  destruct (Hh w1) as (H5 & H6 & r2 & H7 & H8).
  rewrite H5, H6, H7, H3. split; [exact H1|]. split; [exact H2|].
  exists (r1 ++ r2)%list. rewrite app_assoc. split; [reflexivity|].
  apply Forall_app. auto.
Qed.

Lemma only_to_ret target {A} (a : A) : only_to target (ret a).
Proof. apply only_to_quiet. auto. Qed.

Lemma only_to_lift target {A} (o : outcome A) : only_to target (lift o).
Proof. apply only_to_quiet. auto. Qed.

Lemma only_to_read target l : only_to target (read l).
Proof.
  apply only_to_quiet. intros w. unfold read. destruct (heap w !! l); auto.
Qed.

Lemma only_to_send_documents order_number files_count index fs :
  only_to ADMIN_ID
    (send_documents transport_ok ADMIN_ID order_number files_count index fs).
Proof.
  revert index. induction fs as [|f fs IH]; intros index; cbn [send_documents].
  - apply only_to_ret.
  - apply only_to_bind; [|intros _; apply IH].
    apply only_to_try_except; [apply only_to_send|apply only_to_ret].
Qed.

Lemma only_to_send_admin_notification u session order_number payment_type :
  only_to ADMIN_ID
    (send_admin_notification transport_ok ADMIN_ID u session order_number payment_type).
Proof.
  unfold send_admin_notification.
  apply only_to_try_except; [|apply only_to_ret].
  apply only_to_bind; [apply only_to_read|intros s].
  repeat (apply only_to_bind; [apply only_to_lift|intros ?]).
  apply only_to_bind; [apply only_to_send|intros _].
  apply only_to_send_documents.
Qed.

Lemma try_except_ret_Ok (m : M unit) w : (try_except m (ret ()) w).1 = Ok ().
Proof. unfold try_except, ret. destruct (m w) as [[[]|e] w1]; reflexivity. Qed.

Lemma send_fail target r w :
  transport_ok (sent w) = false →
  send transport_ok target r w =
  (Raise TransportError,
   {| heap := heap w; sessions := sessions w; ticks := ticks w;
      sent := S (sent w); tokens := tokens w; outbox := outbox w |}).
Proof. intros H. unfold send. rewrite H. reflexivity. Qed.

(** Every file is attempted, whatever happens to the ones before it. *)
Lemma send_documents_total order_number files_count index fs w :
  let r := send_documents transport_ok ADMIN_ID order_number files_count index fs w in
  r.1 = Ok () ∧ sent r.2 = (sent w + length fs)%nat.
Proof.
  revert index w. induction fs as [|f fs IH]; intros index w; cbv zeta.
  - cbn. split; [reflexivity|lia].
  - cbn [send_documents length]. unfold bind, try_except, ret.
    unfold send.
    destruct (transport_ok (sent w)); cbn [fst snd];
      match goal with
      | |- context [send_documents _ _ _ _ _ fs ?w1] =>
          destruct (IH (S index) w1) as [H1 H2]; rewrite H1, H2; cbn [sent];
          split; [reflexivity|lia]
      end.
Qed.

Lemma send_documents_delivered order_number files_count index fs w :
  transport_up_for transport_ok w (length fs) →
  outbox (send_documents transport_ok ADMIN_ID order_number files_count index fs w).2
  = (outbox w ++
     imap (λ i f, (ADMIN_ID, AdminDocument (file_id f) (index + i) files_count
                               order_number (file_name f))) fs)%list.
Proof.
  revert index w. induction fs as [|f fs IH]; intros index w Hup.
  - cbn. rewrite app_nil_r. reflexivity.
  - cbn [send_documents imap]. unfold bind, try_except.
    rewrite send_ok by (rewrite <- (Nat.add_0_r (sent w)); apply Hup; cbn; lia).
    rewrite IH.
    + cbn [outbox]. rewrite <- app_assoc. cbn [app]. rewrite Nat.add_0_r.
      do 2 f_equal. apply imap_ext. intros i x _. cbn. do 2 f_equal. lia.
    + intros i Hi. cbn [sent].
      replace (S (sent w) + i)%nat with (sent w + S i)%nat by lia.
      apply Hup. cbn. lia.
Qed.

(** X13: the operator's copy of an order.  Building and sending it never
    raises and never touches a session, and nothing of it goes to anyone but
    the operator.  With a working transport the operator gets the order
    notice and then every file of the order, in upload order, numbered from
    1; a file that cannot be sent does not stop the ones after it. *)
Theorem order_forwarded_to_operator (w : World) (u : User) (l : nat)
    (order_number payment_type : string) :
  let r := send_admin_notification transport_ok ADMIN_ID u l order_number
             payment_type w in
  r.1 = Ok () ∧ heap r.2 = heap w ∧ sessions r.2 = sessions w
  ∧ (∃ rest, outbox r.2 = (outbox w ++ rest)%list
             ∧ Forall (λ x, x.1 = ADMIN_ID) rest)
  ∧ (∀ s level label price instructions,
       heap w !! l = Some s →
       catalog_level (data s !! "level") = Ok level →
       catalog_deadline_label (data s !! "deadline") = Ok label →
       Utils.format_price (default (VInt 0) (data s !! "final_price")) = Ok price →
       quoted_instructions (data s !! "instructions_text") = Ok instructions →
       transport_ok (sent w) = true →
       sent r.2 = (sent w + 1 + length (files s))%nat
       ∧ (transport_up_for transport_ok w (1 + length (files s)) →
          outbox r.2 =
          (outbox w ++
           (ADMIN_ID,
            AdminNotification order_number
              (default "Sans username" (truthy_str (username u))) (uid u)
              (data s !! "subject") (name level) (data s !! "pages") label price
              payment_type (length (files s)) instructions)
           :: imap (λ i f, (ADMIN_ID,
                            AdminDocument (file_id f) (1 + i) (length (files s))
                              order_number (file_name f))) (files s))%list)).
Proof.
  cbv zeta.
  destruct (only_to_send_admin_notification u l order_number payment_type w)
    as (Hh & Hs & Hrest).
  split; [apply try_except_ret_Ok|]. split; [exact Hh|]. split; [exact Hs|].
  split; [exact Hrest|].
  intros s level label price instructions Hl Hlevel Hlabel Hprice Hinstr Hok.
  set (note := AdminNotification order_number
                 (default "Sans username" (truthy_str (username u))) (uid u)
                 (data s !! "subject") (name level) (data s !! "pages") label price
                 payment_type (length (files s)) instructions).
  assert (send_admin_notification transport_ok ADMIN_ID u l order_number payment_type w
          = try_except
              (send_documents transport_ok ADMIN_ID order_number (length (files s)) 1
                 (files s)) (ret ())
              {| heap := heap w; sessions := sessions w; ticks := ticks w;
                 sent := S (sent w); tokens := tokens w;
                 outbox := outbox w ++ [(ADMIN_ID, note)] |}) as ->.
  { unfold send_admin_notification, try_except.
    rewrite (bind_Ok _ _ _ _ _ (read_run _ _ _ Hl)).
    unfold bind at 1, lift at 1. rewrite Hlevel.
    unfold bind at 1, lift at 1. rewrite Hlabel.
    unfold bind at 1, lift at 1. rewrite Hprice.
    unfold bind at 1, lift at 1. rewrite Hinstr.
    rewrite (bind_Ok _ _ _ _ _ (send_ok _ _ _ _ Hok)). reflexivity. }
  unfold try_except.
  match goal with
  | |- context [send_documents _ _ ?o ?c ?i ?fs ?w1] =>
      pose proof (send_documents_total o c i fs w1) as [Htotal Hsent];
      pose proof (send_documents_delivered o c i fs w1) as Hdelivered;
      destruct (send_documents transport_ok ADMIN_ID o c i fs w1) as [[[]|e] w2];
      cbn [fst snd] in *; [|discriminate]
  end.
  split.
  - rewrite Hsent. cbn [sent]. lia.
  - intros Hup. rewrite Hdelivered.
    + cbn [outbox]. rewrite <- app_assoc. reflexivity.
    + intros i Hi. cbn [sent].
      replace (S (sent w) + i)%nat with (sent w + S i)%nat by lia.
      apply Hup. lia.
Qed.

(** The payment handler once the session has been fetched. *)
Lemma send_payment_info_fetch w u payment_type l s :
  sessions w !! uid u = Some l → heap w !! l = Some s → live clock w s 2 →
  ∃ w2 t,
    sessions w2 !! uid u = Some l
    ∧ heap w2 !! l = Some (set_last_activity t s)
    ∧ sent w2 = sent w ∧ outbox w2 = outbox w
    ∧ send_payment_info clock transport_ok token_hex ADMIN_ID u payment_type w
      = (let order_number := "EDU" +:+ token_hex (tokens w) in
         let* payment_text :=
           if String.eqb payment_type "transfer" then
             let* price :=
               lift (Utils.format_price (default (VInt 0) (data s !! "final_price"))) in
             ret (TransferInstructions order_number price)
           else
             match AcademicConfig.CRYPTO !! payment_type with
             | None => raise KeyError
             | Some crypto_config =>
                 let* price :=
                   lift (Utils.format_price
                           (default (VInt 0) (data s !! "final_price"))) in
                 ret (CryptoInstructions crypto_config order_number price)
             end in
         send transport_ok (uid u) payment_text;;
         send_admin_notification transport_ok ADMIN_ID u l order_number payment_type;;
         clear_session (uid u)) w2.
Proof.
  intros Hu Hl Hlive.
  destruct (get_session_live clock w (uid u) l s 0 Hu Hl Hlive)
    as (w1 & t & Hget & Hu1 & Hh1 & _ & (Hs1 & Hk1 & Ho1) & _).
  assert (heap w1 !! l = Some (set_last_activity t s)) as Hl1
    by (rewrite Hh1; eapply lookup_insert_heap, Hl).
  exists {| heap := heap w1; sessions := sessions w1; ticks := ticks w1;
            sent := sent w1; tokens := S (tokens w1); outbox := outbox w1 |}, t.
  repeat (split; [assumption|]).
  unfold send_payment_info. rewrite (bind_Ok _ _ _ _ _ Hget).
  unfold bind at 1, next_token. cbn beta iota.
  match goal with
  | |- context [bind (read l) _ ?w2] => set (w2' := w2)
  end.
  assert (heap w2' !! l = Some (set_last_activity t s)) as Hl2 by exact Hl1.
  rewrite (bind_Ok _ _ _ _ _ (read_run _ _ _ Hl2)).
  cbn [data set_last_activity]. rewrite Hk1. reflexivity.
Qed.

(** X14: paying closes the order.  Without a session the payment buttons do
    nothing, not even an answer in the chat.  With one, once the payment
    instructions have been delivered the session is gone, whatever happens to
    the operator's copy, and every later message of the handler goes to the
    operator; if the instructions cannot be delivered, or the currency is
    not one of the catalog, the handler raises and the session stays. *)
Theorem payment_closes_order (w : World) (u : User) (payment_type : string) :
  let r := send_payment_info clock transport_ok token_hex ADMIN_ID u payment_type w in
  (sessions w !! uid u = None →
   r.1 = Ok () ∧ outbox r.2 = outbox w ∧ sent r.2 = sent w
   ∧ sessions r.2 !! uid u = None ∧ heap r.2 = heap w)
  ∧ (∀ l s, sessions w !! uid u = Some l → heap w !! l = Some s → live clock w s 2 →
       (∀ price text,
          Utils.format_price (default (VInt 0) (data s !! "final_price")) = Ok price →
          payment_text payment_type ("EDU" +:+ token_hex (tokens w)) price = Some text →
          (transport_ok (sent w) = true →
           r.1 = Ok () ∧ sessions r.2 !! uid u = None
           ∧ ∃ rest, outbox r.2 = (outbox w ++ (uid u, text) :: rest)%list
                     ∧ Forall (λ x, x.1 = ADMIN_ID) rest)
          ∧ (transport_ok (sent w) = false →
             r.1 = Raise TransportError ∧ sessions r.2 !! uid u = Some l
             ∧ outbox r.2 = outbox w))
       ∧ (payment_type ≠ "transfer" → AcademicConfig.CRYPTO !! payment_type = None →
          r.1 = Raise KeyError ∧ sessions r.2 !! uid u = Some l
          ∧ outbox r.2 = outbox w ∧ sent r.2 = sent w)).
Proof.
  cbv zeta. split.
  - intros Hu. unfold send_payment_info.
    rewrite (bind_Ok _ _ _ _ _ (get_session_absent clock w (uid u) Hu)).
    unfold ret. cbn [fst snd].
    destruct (swept_same_io clock w) as (Hs & _ & Ho).
    rewrite Hs, Ho, swept_heap. repeat split.
    apply swept_lookup_None. exact Hu.
  - intros l s Hu Hl Hlive.
    destruct (send_payment_info_fetch w u payment_type l s Hu Hl Hlive)
      as (w2 & t & Hu2 & Hl2 & Hs2 & Ho2 & ->).
    cbv zeta. split.
    + intros price text Hprice Htext.
      assert (∀ k : reply → M unit,
                bind (if String.eqb payment_type "transfer"
                      then let* price := lift (Utils.format_price
                                          (default (VInt 0) (data s !! "final_price"))) in
                           ret (TransferInstructions ("EDU" +:+ token_hex (tokens w)) price)
                      else match AcademicConfig.CRYPTO !! payment_type with
                           | Some crypto_config =>
                               let* price := lift (Utils.format_price
                                               (default (VInt 0) (data s !! "final_price"))) in
                               ret (CryptoInstructions crypto_config
                                      ("EDU" +:+ token_hex (tokens w)) price)
                           | None => raise KeyError
                           end) k w2 = k text w2) as ->.
      { intros k. unfold payment_text in Htext. unfold bind, lift, ret.
        destruct (String.eqb payment_type "transfer").
        - rewrite Hprice. injection Htext as <-. reflexivity.
        - destruct (AcademicConfig.CRYPTO !! payment_type); [|discriminate].
          rewrite Hprice. injection Htext as <-. reflexivity. }
      split.
      * intros Hok.
        rewrite (bind_Ok _ _ _ _ _ (send_ok _ _ _ _ ltac:(rewrite Hs2; exact Hok))).
        match goal with
        | |- context [bind (send_admin_notification _ _ ?u ?l ?o ?p) _ ?w3] =>
            pose proof (try_except_ret_Ok _ w3
                          : (send_admin_notification transport_ok ADMIN_ID u l o p w3).1
                            = Ok ()) as Htotal;
            destruct (only_to_send_admin_notification u l o p w3)
              as (Hh & Hs & rest & Hrest & Hadmin);
            unfold bind;
            destruct (send_admin_notification transport_ok ADMIN_ID u l o p w3)
              as [[[]|e] w4]; cbn [fst snd] in *; [|discriminate]
        end.
        unfold clear_session, bind, get_sessions, put_sessions.
        cbn [fst snd sessions set_sessions outbox].
        split; [reflexivity|]. split; [apply lookup_delete_eq|].
        exists rest. rewrite Hrest. cbn [outbox]. rewrite Ho2, <- app_assoc. auto.
      * intros Hfail.
        rewrite (bind_Raise _ _ _ _ _ (send_fail _ _ _ ltac:(rewrite Hs2; exact Hfail))).
        cbn [fst snd sessions outbox]. auto.
    + intros Hne Hnone.
      rewrite (neq_eqb_false _ _ Hne), Hnone.
      unfold bind, raise. cbn [fst snd]. auto.
Qed.

End Payment.

(** ** Buttons pressed out of turn *)

Section Out_of_turn.

Variable clock : nat → Z.
Variable transport_ok : nat → bool.
Variable token_hex : nat → string.
Variable thread_ref : Z → Z → string.
Variable ADMIN_ID : Z.

Lemma update_session_absent w user st patch :
  sessions w !! user = None →
  ∃ w', update_session clock user st patch w = (Ok (), w')
    ∧ sessions w' !! user = Some (length (heap w))
    ∧ (∃ s, heap w' !! length (heap w) = Some s
            ∧ user_id s = user
            ∧ step s = default "menu" (truthy_str st)
            ∧ data s = default ∅ (truthy_dict patch)
            ∧ files s = [])
    ∧ same_io w w'.
Proof.
  intros Habsent. rewrite update_session_run. cbv zeta.
  rewrite (swept_lookup_None _ _ _ Habsent). eexists. split; [reflexivity|].
  cbn [heap sessions]. rewrite swept_heap.
  split; [apply lookup_insert_eq|]. split.
  - eexists. split; [apply list_lookup_middle; reflexivity|].
    unfold updated, patched, stepped.
    destruct (truthy_str st), (truthy_dict patch);
      cbn [user_id step data files set_step set_data set_last_activity default];
      rewrite ?(right_id_L ∅ (∪)); auto.
  - destruct (swept_same_io clock w) as (H1 & H2 & H3).
    split; [exact H1|]. split; [exact H2|exact H3].
Qed.

Lemma truthy_dict_singleton k (v : value) :
  truthy_dict (Some {[ k := v ]}) = Some {[ k := v ]}.
Proof.
  unfold truthy_dict. destruct (decide _) as [Hempty|_]; [|reflexivity].
  exfalso. exact (map_non_empty_singleton (M := gmap string) k v Hempty).
Qed.

(** X15: a level or deadline button pressed by a user who has no session
    opens one in the middle of the order: at the pages step holding only the
    level, respectively at the instructions step holding only the deadline.
    The deadline press then fails on the missing session object, no price is
    stored, and the user gets the generic error message. *)
Theorem press_without_session (w : World) (u : User) (d : string) :
  sessions w !! uid u = None → transport_ok (sent w) = true →
  let w' := after clock transport_ok token_hex thread_ref ADMIN_ID
              (CallbackQuery u d) w in
  let opened st k :=
    sessions w' !! uid u = Some (length (heap w))
    ∧ ∃ s, heap w' !! length (heap w) = Some s
           ∧ user_id s = uid u ∧ step s = st
           ∧ data s = {[ k := VStr (PyStr.remove_all d (k +:+ "_")) ]}
           ∧ files s = [] in
  (PyStr.startswith d "level_" = true → opened "order_pages" "level")
  ∧ (PyStr.startswith d "deadline_" = true →
     opened "order_instructions" "deadline"
     ∧ (transport_ok (S (sent w)) = true →
        outbox w' = (outbox w ++ [(uid u, TemporaryError)])%list)).
Proof.
  intros Habsent Hok. cbv zeta. unfold after. cbn [handle]. split.
  - intros Hd. rewrite (button_handler_level _ _ _ _ _ _ _ Hd Hok).
    destruct (update_session_absent (acked w) (uid u) (Some "order_pages")
                (Some {[ "level" := VStr (PyStr.remove_all d "level_") ]}) Habsent)
      as (w1 & Hupd & Hu1 & Hs1 & _).
    rewrite truthy_dict_singleton in Hs1. cbn [default truthy_str] in Hs1.
    change (heap (acked w)) with (heap w) in *.
    unfold try_except, handle_level_selection.
    rewrite (bind_Ok _ _ _ _ _ Hupd).
    destruct (AcademicConfig.LEVELS !! PyStr.remove_all d "level_") as [level|].
    + pose proof (send_store transport_ok (uid u) (PagesPrompt level) w1) as [Hh Hs].
      destruct (send transport_ok (uid u) (PagesPrompt level) w1) as [[[]|e] w2];
        cbn [snd] in *.
      * rewrite Hh, Hs. auto.
      * destruct (send_store transport_ok (uid u) TemporaryError w2) as [Hh' Hs'].
        rewrite Hh', Hs', Hh, Hs. auto.
    + unfold raise.
      destruct (send_store transport_ok (uid u) TemporaryError w1) as [Hh' Hs'].
      rewrite Hh', Hs'. auto.
  - intros Hd. rewrite (button_handler_deadline _ _ _ _ _ _ _ Hd Hok).
    assert (sessions (swept clock (acked w)) !! uid u = None) as Habsent1
      by (apply swept_lookup_None; exact Habsent).
    destruct (update_session_absent (swept clock (acked w)) (uid u)
                (Some "order_instructions")
                (Some {[ "deadline" := VStr (PyStr.remove_all d "deadline_") ]})
                Habsent1)
      as (w1 & Hupd & Hu1 & Hs1 & (Hsent1 & _ & Hout1)).
    rewrite truthy_dict_singleton in Hs1. cbn [default truthy_str] in Hs1.
    rewrite swept_heap in Hu1, Hs1.
    change (heap (acked w)) with (heap w) in *.
    destruct (swept_same_io clock (acked w)) as (Hsent0 & _ & Hout0).
    assert (try_except (handle_deadline_selection clock transport_ok u d)
              (send transport_ok (uid u) TemporaryError) (acked w)
            = send transport_ok (uid u) TemporaryError w1) as ->.
    { unfold try_except, handle_deadline_selection.
      rewrite (bind_Ok _ _ _ _ _ (get_session_absent clock (acked w) (uid u) Habsent)).
      rewrite (bind_Ok _ _ _ _ _ Hupd). reflexivity. }
    destruct (send_store transport_ok (uid u) TemporaryError w1) as [Hh' Hs'].
    rewrite Hh', Hs'. split; [auto|].
    intros Hok1. rewrite send_outbox.
    + rewrite Hout1, Hout0. reflexivity.
    + rewrite Hsent1, Hsent0. exact Hok1.
Qed.

Lemma button_handler_summary w u d :
  d = "order_summary" ∨ d = "skip_files" → transport_ok (sent w) = true →
  button_handler clock transport_ok token_hex ADMIN_ID u d w
  = try_except (display_order_summary clock transport_ok u)
               (send transport_ok (uid u) TemporaryError) (acked w).
Proof.
  intros Hd Hok. unfold button_handler.
  rewrite (bind_Ok _ _ _ _ _ (answer_ok _ _ Hok)).
  destruct Hd as [-> | ->]; reflexivity.
Qed.

(** X16: the summary, asked for by [order_summary] or by [skip_files],
    needs a complete order.  Without a session the user is told that the
    session has expired and none is opened.  With a session whose level or
    deadline is missing or not in the catalog the user gets the generic
    error message, and the session keeps its step, data and files. *)
Theorem summary_needs_complete_order (w : World) (u : User) (d : string) :
  d = "order_summary" ∨ d = "skip_files" →
  transport_ok (sent w) = true → transport_ok (S (sent w)) = true →
  let w' := after clock transport_ok token_hex thread_ref ADMIN_ID
              (CallbackQuery u d) w in
  (sessions w !! uid u = None →
   sessions w' !! uid u = None ∧ heap w' = heap w
   ∧ outbox w' = (outbox w ++ [(uid u, SessionExpired)])%list)
  ∧ (∀ l s, sessions w !! uid u = Some l → heap w !! l = Some s → live clock w s 2 →
       AcademicConfig.LEVELS_get (data s !! "level") = None
       ∨ AcademicConfig.DEADLINES_get (data s !! "deadline") = None →
       sessions w' !! uid u = Some l
       ∧ (∃ s', heap w' !! l = Some s' ∧ step s' = step s ∧ data s' = data s
                ∧ files s' = files s)
       ∧ outbox w' = (outbox w ++ [(uid u, TemporaryError)])%list).
Proof.
  intros Hd Hok Hok1. cbv zeta. unfold after. cbn [handle].
  rewrite (button_handler_summary _ _ _ Hd Hok). split.
  - intros Habsent.
    assert (display_order_summary clock transport_ok u (acked w)
            = (Ok (), {| heap := heap w; sessions := sessions (swept clock (acked w));
                         ticks := ticks (swept clock (acked w));
                         sent := S (S (sent w)); tokens := tokens w;
                         outbox := outbox w ++ [(uid u, SessionExpired)] |})) as Hrun.
    { unfold display_order_summary.
      rewrite (bind_Ok _ _ _ _ _ (get_session_absent clock (acked w) (uid u) Habsent)).
      destruct (swept_same_io clock (acked w)) as (Hsent0 & Htok0 & Hout0).
      rewrite send_ok by (rewrite Hsent0; exact Hok1).
      rewrite Hsent0, Htok0, Hout0, swept_heap. reflexivity. }
    rewrite (try_except_Ok _ _ _ _ _ Hrun).
    cbn [snd sessions heap outbox]. split; [|auto].
    apply swept_lookup_None. exact Habsent.
  - intros l s Hu Hl Hlive Hmissing.
    destruct (get_session_live clock (acked w) (uid u) l s 0 Hu Hl Hlive)
      as (w1 & t & Hget & Hu1 & Hh1 & _ & (Hs1 & _ & Ho1) & _).
    assert (heap w1 !! l = Some (set_last_activity t s)) as Hl1
      by (rewrite Hh1; eapply lookup_insert_heap, Hl).
    assert (∃ e, display_order_summary clock transport_ok u (acked w) = (Raise e, w1))
      as [e Hraise].
    { unfold display_order_summary.
      rewrite (bind_Ok _ _ _ _ _ Hget), (bind_Ok _ _ _ _ _ (read_run _ _ _ Hl1)).
      cbn [data files set_last_activity].
      unfold bind, lift, catalog_level, catalog_deadline_label.
      destruct Hmissing as [-> | Hdl]; [eauto|].
      destruct (AcademicConfig.LEVELS_get (data s !! "level")); rewrite ?Hdl; eauto. }
    rewrite (try_except_Raise _ _ _ _ _ Hraise).
    rewrite send_ok by (rewrite Hs1; exact Hok1).
    cbn [snd sessions heap outbox]. rewrite Ho1.
    split; [exact Hu1|]. split; [|reflexivity].
    eexists. split; [exact Hl1|]. auto.
Qed.

End Out_of_turn.

(** ** Keyboards and the button dispatcher *)

Section Keyboards.

Variable clock : nat → Z.
Variable transport_ok : nat → bool.
Variable token_hex : nat → string.
Variable thread_ref : Z → Z → string.
Variable ADMIN_ID : Z.

Ltac buttons H :=
  repeat (apply elem_of_cons in H as [-> | H]); [..|apply elem_of_nil in H; destruct H].

(** X17: the catalog keyboards and the dispatcher agree.  Each button of the
    level, deadline and currency keyboards, the two navigation buttons apart,
    is handed to the handler of its kind, and the key that handler cuts out
    of the callback data is a key of the catalog whose entry is the one
    named on the button. *)
Theorem catalog_buttons_decode (row : list InlineKeyboardButton)
    (b : InlineKeyboardButton) (u : User) :
  let d := callback_data b in
  let navigation := d = "back" ∨ d = "menu" in
  let handled_by (h : string → M unit) :=
    button_handler clock transport_ok token_hex ADMIN_ID u d
    = (answer transport_ok;;
       try_except (h d) (send transport_ok (uid u) TemporaryError)) in
  (row ∈ UI.level_keyboard → b ∈ row →
   navigation
   ∨ (handled_by (handle_level_selection clock transport_ok u)
      ∧ ∃ level, AcademicConfig.LEVELS !! PyStr.remove_all d "level_" = Some level
                 ∧ button_text b = emoji level +:+ " " +:+ name level))
  ∧ (row ∈ UI.deadline_keyboard → b ∈ row →
     navigation
     ∨ (handled_by (handle_deadline_selection clock transport_ok u)
        ∧ ∃ multiplier,
            AcademicConfig.DEADLINES !! PyStr.remove_all d "deadline_"
            = Some (button_text b, multiplier)))
  ∧ (row ∈ UI.crypto_keyboard → b ∈ row →
     navigation
     ∨ (handled_by (handle_crypto_selection clock transport_ok token_hex ADMIN_ID u)
        ∧ ∃ c, AcademicConfig.CRYPTO !! PyStr.remove_all d "crypto_" = Some c
               ∧ button_text b
                 = AcademicConfig.crypto_emoji c +:+ " " +:+ PyStr.remove_all d "crypto_")).
Proof.
  cbv zeta. split; [|split]; intros Hrow Hb.
  - unfold UI.level_keyboard, UI.back_keyboard, AcademicConfig.LEVELS_list in Hrow.
    cbn [fmap list_fmap app fst snd] in Hrow. buttons Hrow; buttons Hb;
      cbn [callback_data button_text];
      try (left; auto; fail);
      right; (split; [reflexivity|]); eexists; (split; [vm_compute; reflexivity|]);
      reflexivity.
  - unfold UI.deadline_keyboard, UI.back_keyboard, AcademicConfig.DEADLINES_list in Hrow.
    cbn [fmap list_fmap app fst snd] in Hrow. buttons Hrow; buttons Hb;
      cbn [callback_data button_text];
      try (left; auto; fail);
      right; (split; [reflexivity|]); eexists; vm_compute; reflexivity.
  - unfold UI.crypto_keyboard, UI.back_keyboard, AcademicConfig.CRYPTO_list in Hrow.
    cbn [fmap list_fmap app fst snd] in Hrow. buttons Hrow; buttons Hb;
      cbn [callback_data button_text];
      try (left; auto; fail);
      right; (split; [reflexivity|]); eexists; (split; [vm_compute; reflexivity|]);
      vm_compute; reflexivity.
Qed.

(** *** Who gets an answer *)

Lemma quiet_ret {A} (a : A) : quiet (ret a).
Proof. intros w. auto. Qed.

Lemma quiet_raise {A} e : quiet (@raise A e).
Proof. intros w. auto. Qed.

Lemma quiet_lift {A} (o : outcome A) : quiet (lift o).
Proof. intros w. auto. Qed.

Lemma quiet_read l : quiet (read l).
Proof. intros w. unfold read. destruct (heap w !! l); auto. Qed.

Lemma quiet_next_token : quiet (next_token token_hex).
Proof. intros w. auto. Qed.

Lemma quiet_bind {A B} (m : M A) (k : A → M B) :
  quiet m → (∀ a, quiet (k a)) → quiet (bind m k).
Proof.
  intros Hm Hk w. unfold bind. destruct (Hm w) as [H1 H2].
  destruct (m w) as [[a|e] w1]; cbn [snd] in *; [|auto].
  destruct (Hk a w1) as [H3 H4]. rewrite H3, H4. auto.
Qed.

Lemma quiet_get_session user : quiet (get_session clock user).
Proof.
  intros w. rewrite get_session_run. cbv zeta.
  destruct (swept_same_io clock w) as (H1 & _ & H2).
  destruct (sessions (swept clock w) !! user); cbn [snd sent outbox]; auto.
Qed.

Lemma quiet_create_session user st : quiet (create_session clock user st).
Proof. intros w. rewrite create_session_run. auto. Qed.

Lemma quiet_update_session user st patch : quiet (update_session clock user st patch).
Proof.
  intros w. rewrite update_session_run. cbv zeta.
  destruct (swept_same_io clock w) as (H1 & _ & H2).
  destruct (sessions (swept clock w) !! user); cbn [snd sent outbox]; auto.
Qed.

Lemma quiet_clear_session user : quiet (clear_session user).
Proof. intros w. auto. Qed.

Lemma quiet_data_get session key : quiet (data_get session key).
Proof.
  destruct session as [l|]; cbn [data_get]; [|apply quiet_raise].
  apply quiet_bind; [apply quiet_read|intros s; apply quiet_ret].
Qed.

Lemma spoken_more user w w1 w2 :
  spoken user w w1 → (∃ rest, outbox w2 = (outbox w1 ++ rest)%list) → spoken user w w2.
Proof.
  intros (r & rest & H1) (rest' & H2). exists r, (rest ++ rest')%list.
  rewrite H2, H1, <- app_assoc. reflexivity.
Qed.

Lemma speaks_send user r : speaks transport_ok user (send transport_ok user r).
Proof.
  intros w Hok. rewrite send_ok by exact Hok. exists r, []. reflexivity.
Qed.

Lemma speaks_raise user {A} e : speaks transport_ok user (@raise A e).
Proof. intros w Hok. left. auto. Qed.

Lemma speaks_after user {A B} (m : M A) (k : A → M B) :
  quiet m → (∀ a, speaks transport_ok user (k a)) → speaks transport_ok user (bind m k).
Proof.
  intros Hm Hk w Hok. unfold bind. destruct (Hm w) as [H1 H2].
  destruct (m w) as [[a|e] w1]; cbn [snd] in *; [|left; auto].
  pose proof (Hk a) as Hka. unfold speaks in Hka. specialize (Hka w1).
  rewrite H1 in Hka. specialize (Hka Hok).
  unfold spoken in *. rewrite H2 in Hka. exact Hka.
Qed.

Lemma speaks_then user {A B} (m : M A) (k : A → M B) :
  speaks transport_ok user m → (∀ a, appends (k a)) →
  speaks transport_ok user (bind m k).
Proof.
  intros Hm Hk w Hok. unfold bind. specialize (Hm w Hok).
  destruct (m w) as [[a|e] w1]; [|exact Hm].
  pose proof (Hk a w1) as Hrest.
  destruct (k a w1) as [[b|e] w2]; cbn [snd] in Hrest;
    [|right]; eapply spoken_more; eauto.
Qed.

Ltac speaks_step :=
  lazymatch goal with
  | |- speaks _ _ (send _ _ _) => apply speaks_send
  | |- speaks _ _ (raise _) => apply speaks_raise
  | |- speaks _ _ (bind (send _ _ _) _) => apply speaks_then; [apply speaks_send|]
  | |- speaks _ _ (bind _ _) => apply speaks_after; [|intros ?]
  | |- speaks _ _ (match ?x with _ => _ end) => destruct x
  | |- quiet (bind _ _) => apply quiet_bind; [|intros ?]
  | |- quiet (match ?x with _ => _ end) => destruct x
  | |- quiet (ret _) => apply quiet_ret
  | |- quiet (raise _) => apply quiet_raise
  | |- quiet (lift _) => apply quiet_lift
  | |- quiet (read _) => apply quiet_read
  | |- quiet (next_token _) => apply quiet_next_token
  | |- quiet (get_session _ _) => apply quiet_get_session
  | |- quiet (create_session _ _ _) => apply quiet_create_session
  | |- quiet (update_session _ _ _ _) => apply quiet_update_session
  | |- quiet (clear_session _) => apply quiet_clear_session
  | |- quiet (data_get _ _) => apply quiet_data_get
  end.

Lemma speaks_main_menu u : speaks transport_ok (uid u) (main_menu transport_ok u).
Proof. unfold main_menu. repeat speaks_step. Qed.

Lemma speaks_start_order_flow u :
  speaks transport_ok (uid u) (start_order_flow clock transport_ok u).
Proof. unfold start_order_flow. repeat speaks_step. Qed.

Lemma speaks_support_interface u :
  speaks transport_ok (uid u) (support_interface clock transport_ok u).
Proof. unfold support_interface. repeat speaks_step. Qed.

Lemma speaks_handle_level_selection u d :
  speaks transport_ok (uid u) (handle_level_selection clock transport_ok u d).
Proof. unfold handle_level_selection. cbv zeta. repeat speaks_step. Qed.

Lemma speaks_handle_deadline_selection u d :
  speaks transport_ok (uid u) (handle_deadline_selection clock transport_ok u d).
Proof. unfold handle_deadline_selection. cbv zeta. repeat speaks_step. Qed.

Lemma speaks_display_order_summary u :
  speaks transport_ok (uid u) (display_order_summary clock transport_ok u).
Proof. unfold display_order_summary. repeat (cbv zeta; speaks_step). Qed.

(** The payment handler answers whoever has a session. *)
Lemma speaks_send_payment_info u payment_type w l s :
  sessions w !! uid u = Some l → heap w !! l = Some s → live clock w s 2 →
  transport_ok (sent w) = true →
  match send_payment_info clock transport_ok token_hex ADMIN_ID u payment_type w with
  | (Ok _, w') => spoken (uid u) w w'
  | (Raise _, w') =>
      (sent w' = sent w ∧ outbox w' = outbox w) ∨ spoken (uid u) w w'
  end.
Proof.
  intros Hu Hl Hlive Hok.
  destruct (send_payment_info_fetch clock transport_ok token_hex ADMIN_ID
              w u payment_type l s Hu Hl Hlive)
    as (w2 & t & _ & _ & Hs2 & Ho2 & ->).
  cbv zeta.
  match goal with
  | |- context [bind ?m ?k w2] =>
      assert (speaks transport_ok (uid u) (bind m k)) as Hspeaks
  end.
  { apply speaks_after.
    - destruct (String.eqb payment_type "transfer"); repeat speaks_step.
    - intros text. apply speaks_then; [apply speaks_send|intros _].
      apply appends_bind; [apply appends_send_admin_notification|intros _].
      apply appends_clear_session. }
  specialize (Hspeaks w2). rewrite Hs2 in Hspeaks. specialize (Hspeaks Hok).
  unfold spoken in *. rewrite Ho2 in Hspeaks. exact Hspeaks.
Qed.

(** What the dispatcher makes of a handler that speaks. *)
Lemma answered user (m : M unit) w :
  transport_ok (sent w) = true →
  match m w with
  | (Ok _, w') => spoken user w w'
  | (Raise _, w') => (sent w' = sent w ∧ outbox w' = outbox w) ∨ spoken user w w'
  end →
  spoken user w (try_except m (send transport_ok user TemporaryError) w).2.
Proof.
  intros Hok Hm. unfold try_except. destruct (m w) as [[[]|e] w1]; [exact Hm|].
  destruct Hm as [[Hs Ho]|Hspoken].
  - rewrite send_ok by (rewrite Hs; exact Hok). exists TemporaryError, [].
    cbn [snd outbox]. rewrite Ho. reflexivity.
  - eapply spoken_more; [exact Hspoken|]. apply appends_send.
Qed.

Lemma spoken_acked user w w' : spoken user (acked w) w' → spoken user w w'.
Proof. exact id. Qed.

(** The callback data of the buttons the bot shows. *)
Lemma shown_callbacks r row b :
  row ∈ reply_markup r → b ∈ row →
  callback_data b ∈
    [ "menu"; "back"; "new_order"; "pricing"; "support"; "info"; "order_summary";
      "skip_files"; "payment_transfer"; "payment_crypto"; "payment_done";
      "level_lycee"; "level_bachelor"; "level_master"; "level_phd";
      "deadline_6h"; "deadline_12h"; "deadline_24h"; "deadline_48h"; "deadline_3d";
      "deadline_7d"; "deadline_14d"; "crypto_BTC"; "crypto_ETH"; "crypto_USDT" ].
Proof.
  intros Hrow Hb.
  destruct r; cbn [reply_markup] in Hrow;
    unfold menu_button, UI.main_keyboard, UI.payment_keyboard, UI.level_keyboard,
      UI.deadline_keyboard, UI.crypto_keyboard, UI.back_keyboard,
      AcademicConfig.LEVELS_list, AcademicConfig.DEADLINES_list,
      AcademicConfig.CRYPTO_list in Hrow;
    cbn [fmap list_fmap app fst snd take] in Hrow;
    buttons Hrow; buttons Hb; cbn [callback_data];
    vm_compute; repeat constructor.
Qed.

(** X18: every button the bot shows is answered, but one.  With a working
    transport, pressing any button of any keyboard sent with a message makes
    the bot send the user something (the payment buttons need the session
    they are about), except [payment_done], the button under the payment
    instructions, which no branch of the dispatcher handles: the press is
    acknowledged and nothing else happens. *)
Theorem shown_buttons_are_answered :
  (∀ r row b w u,
     row ∈ reply_markup r → b ∈ row → callback_data b ≠ "payment_done" →
     transport_ok (sent w) = true → transport_ok (S (sent w)) = true →
     (callback_data b = "payment_transfer"
      ∨ PyStr.startswith (callback_data b) "crypto_" = true →
      ∃ l s, sessions w !! uid u = Some l ∧ heap w !! l = Some s ∧ live clock w s 2) →
     spoken (uid u) w
       (after clock transport_ok token_hex thread_ref ADMIN_ID
          (CallbackQuery u (callback_data b)) w))
  ∧ (∀ order_number price,
       [ {| button_text := "✅ Paiement effectué"; callback_data := "payment_done" |} ]
       ∈ reply_markup (TransferInstructions order_number price))
  ∧ (∀ u w, button_handler clock transport_ok token_hex ADMIN_ID u "payment_done" w
            = answer transport_ok w).
Proof.
  split; [|split].
  - intros r row b w u Hrow Hb Hdone Hok Hok1 Hsession.
    pose proof (shown_callbacks r row b Hrow Hb) as Hd.
    unfold after. cbn [handle].
    assert (∀ m : M unit,
              button_handler clock transport_ok token_hex ADMIN_ID u
                (callback_data b) w
              = try_except m (send transport_ok (uid u) TemporaryError) (acked w) →
              match m (acked w) with
              | (Ok _, w') => spoken (uid u) (acked w) w'
              | (Raise _, w') =>
                  (sent w' = sent (acked w) ∧ outbox w' = outbox (acked w))
                  ∨ spoken (uid u) (acked w) w'
              end →
              spoken (uid u) w
                (button_handler clock transport_ok token_hex ADMIN_ID u
                   (callback_data b) w).2) as Hgo.
    { intros m -> Hm. apply spoken_acked. apply answered; [exact Hok1|exact Hm]. }
    assert (∀ d (m : M unit),
              callback_data b = d →
              (answer transport_ok;;
               try_except m (send transport_ok (uid u) TemporaryError))
              = button_handler clock transport_ok token_hex ADMIN_ID u d →
              button_handler clock transport_ok token_hex ADMIN_ID u
                (callback_data b) w
              = try_except m (send transport_ok (uid u) TemporaryError) (acked w))
      as Hroute.
    { intros d m -> <-. unfold bind. rewrite (answer_ok _ _ Hok). reflexivity. }
    assert (∀ payment_type,
              match send_payment_info clock transport_ok token_hex ADMIN_ID u
                      payment_type (acked w) with
              | (Ok _, w') => spoken (uid u) (acked w) w'
              | (Raise _, w') =>
                  (sent w' = sent (acked w) ∧ outbox w' = outbox (acked w))
                  ∨ spoken (uid u) (acked w) w'
              end ∨ ¬ (callback_data b = "payment_transfer"
                       ∨ PyStr.startswith (callback_data b) "crypto_" = true))
      as Hpay.
    { intros payment_type.
      destruct (decide (callback_data b = "payment_transfer"
                        ∨ PyStr.startswith (callback_data b) "crypto_" = true))
        as [Hp|Hp]; [left|right; exact Hp].
      destruct (Hsession Hp) as (l & s & Hu & Hl & Hlive).
      apply (speaks_send_payment_info u payment_type (acked w) l s Hu Hl Hlive Hok1). }
    assert (∀ d (m : M unit),
              callback_data b = d →
              (answer transport_ok;;
               try_except m (send transport_ok (uid u) TemporaryError))
              = button_handler clock transport_ok token_hex ADMIN_ID u d →
              speaks transport_ok (uid u) m →
              spoken (uid u) w
                (button_handler clock transport_ok token_hex ADMIN_ID u
                   (callback_data b) w).2) as Hspeaks.
    { intros d m Hd' Hm Hs. apply (Hgo m (Hroute d m Hd' Hm)). apply Hs. exact Hok1. }
    assert (∀ d payment_type,
              callback_data b = d →
              (answer transport_ok;;
               try_except
                 (send_payment_info clock transport_ok token_hex ADMIN_ID u payment_type)
                 (send transport_ok (uid u) TemporaryError))
              = button_handler clock transport_ok token_hex ADMIN_ID u d →
              (d = "payment_transfer" ∨ PyStr.startswith d "crypto_" = true) →
              spoken (uid u) w
                (button_handler clock transport_ok token_hex ADMIN_ID u
                   (callback_data b) w).2) as Hpays.
    { intros d payment_type Hd' Hm Hp. apply (Hgo _ (Hroute d _ Hd' Hm)).
      destruct (Hpay payment_type) as [H|H]; [exact H|].
      exfalso. apply H. rewrite Hd'. exact Hp. }
    repeat (apply elem_of_cons in Hd as [Hd | Hd]);
      [..|apply elem_of_nil in Hd; destruct Hd].
    + exact (Hspeaks _ _ Hd eq_refl (speaks_main_menu u)).
    + exact (Hspeaks _ _ Hd eq_refl (speaks_main_menu u)).
    + exact (Hspeaks _ _ Hd eq_refl (speaks_start_order_flow u)).
    + exact (Hspeaks _ _ Hd eq_refl (speaks_send (uid u) PricingText)).
    + exact (Hspeaks _ _ Hd eq_refl (speaks_support_interface u)).
    + exact (Hspeaks _ _ Hd eq_refl (speaks_send (uid u) InfoText)).
    + exact (Hspeaks _ _ Hd eq_refl (speaks_display_order_summary u)).
    + exact (Hspeaks _ _ Hd eq_refl (speaks_display_order_summary u)).
    + exact (Hpays _ "transfer" Hd eq_refl (or_introl eq_refl)).
    + exact (Hspeaks _ _ Hd eq_refl (speaks_send (uid u) CryptoChoice)).
    + exfalso. exact (Hdone Hd).
    + exact (Hspeaks _ _ Hd eq_refl (speaks_handle_level_selection u _)).
    + exact (Hspeaks _ _ Hd eq_refl (speaks_handle_level_selection u _)).
    + exact (Hspeaks _ _ Hd eq_refl (speaks_handle_level_selection u _)).
    + exact (Hspeaks _ _ Hd eq_refl (speaks_handle_level_selection u _)).
    + exact (Hspeaks _ _ Hd eq_refl (speaks_handle_deadline_selection u _)).
    + exact (Hspeaks _ _ Hd eq_refl (speaks_handle_deadline_selection u _)).
    + exact (Hspeaks _ _ Hd eq_refl (speaks_handle_deadline_selection u _)).
    + exact (Hspeaks _ _ Hd eq_refl (speaks_handle_deadline_selection u _)).
    + exact (Hspeaks _ _ Hd eq_refl (speaks_handle_deadline_selection u _)).
    + exact (Hspeaks _ _ Hd eq_refl (speaks_handle_deadline_selection u _)).
    + exact (Hspeaks _ _ Hd eq_refl (speaks_handle_deadline_selection u _)).
    + exact (Hpays _ (PyStr.remove_all "crypto_BTC" "crypto_") Hd eq_refl
               (or_intror eq_refl)).
    + exact (Hpays _ (PyStr.remove_all "crypto_ETH" "crypto_") Hd eq_refl
               (or_intror eq_refl)).
    + exact (Hpays _ (PyStr.remove_all "crypto_USDT" "crypto_") Hd eq_refl
               (or_intror eq_refl)).
  - intros order_number price. cbn [reply_markup]. apply elem_of_cons. left. reflexivity.
  - intros u w. unfold button_handler, bind, try_except, ret.
    change (("payment_done" =? "menu")%string) with false.
    cbn.
    destruct (answer transport_ok w) as [[[]|e] w1]; reflexivity.
Qed.

End Keyboards.

(** ** Prices of the orders the bot accepts *)

Section Price_range.

Lemma price_table :
  forallb (λ p : nat,
    forallb (λ b,
      forallb (λ m,
        let f := py_min (B64.mul (B64.mul b m) (B64.of_Z (Z.of_nat p)))
                        (B64.mul (B64.lit 50 0) (B64.of_Z (Z.of_nat p))) in
        B64.is_finite f && B64.leb (B64.of_Z (16 * Z.of_nat p)) f
        && B64.leb f (B64.of_Z (50 * Z.of_nat p)))
        [B64.lit 18 1; B64.lit 17 1; B64.lit 15 1; B64.lit 13 1; B64.lit 12 1;
         B64.lit 1 0; B64.lit 9 1])
      (base_price <$> AcademicConfig.LEVELS_list.*2))
    (seq 1 50) = true.
Proof. vm_compute. reflexivity. Qed.

(** X19: an order the bot accepts is priced between 16 and 50 per page.
    For a catalog level, any deadline key and a page count from 1 to 50,
    [calculate_price] returns a finite amount, at least [16 * pages] and at
    most [50 * pages]. *)
Theorem accepted_order_price (L D : string) (lvl : AcademicLevel) (P : Z) :
  AcademicConfig.LEVELS !! L = Some lvl → 1 ≤ P ≤ 50 →
  ∃ f, Utils.calculate_price (Some (VStr L)) D (VInt P) = Ok f
       ∧ B64.is_finite f = true
       ∧ B64.leb (B64.of_Z (16 * P)) f = true
       ∧ B64.leb f (B64.of_Z (50 * P)) = true.
Proof.
  intros HL HP.
  destruct (of_int_bounded P) as [f Hf].
  { assert (2 ^ 970 * 2 ^ 54 = 2 ^ 1024) as Hpow by (rewrite <- Z.pow_add_r; [reflexivity|lia|lia]).
    assert (1 < 2 ^ 970) by (apply Z.pow_gt_1; lia).
    assert (2 ^ 54 = 18014398509481984) by reflexivity. lia. }
  assert (f = B64.of_Z P) as ->.
  { unfold B64.of_int in Hf. destruct (B64.of_Z P); congruence. }
  rewrite (calculate_price_known L lvl D P _ HL Hf). eexists. split; [reflexivity|].
  pose proof price_table as Htable.
  rewrite forallb_forall in Htable.
  specialize (Htable (Z.to_nat P)). rewrite Z2Nat.id in Htable by lia.
  assert (In (Z.to_nat P) (seq 1 50)) as Hin by (apply in_seq; lia).
  specialize (Htable Hin). rewrite forallb_forall in Htable.
  specialize (Htable (base_price lvl)).
  assert (In (base_price lvl) (base_price <$> AcademicConfig.LEVELS_list.*2)) as Hbase.
  { apply list_elem_of_In. apply list_elem_of_fmap. exists lvl. split; [reflexivity|].
    apply list_elem_of_fmap. exists (L, lvl). split; [reflexivity|].
    apply LEVELS_inv. exact HL. }
  specialize (Htable Hbase). rewrite forallb_forall in Htable.
  specialize (Htable (multiplier_of D)).
  assert (In (multiplier_of D)
            [B64.lit 18 1; B64.lit 17 1; B64.lit 15 1; B64.lit 13 1; B64.lit 12 1;
             B64.lit 1 0; B64.lit 9 1]) as Hmult
    by (apply list_elem_of_In, multiplier_of_cases).
  specialize (Htable Hmult). cbv zeta in Htable.
  apply andb_true_iff in Htable as [Htable H3].
  apply andb_true_iff in Htable as [H1 H2]. auto.
Qed.

End Price_range.

(** ** The capacity of the store *)

Section Capacity.

Variable clock : nat → Z.
Variable transport_ok : nat → bool.
Variable token_hex : nat → string.
Variable thread_ref : Z → Z → string.
Variable ADMIN_ID : Z.

Lemma new_order_sessions w u :
  transport_ok (sent w) = true →
  sessions (after clock transport_ok token_hex thread_ref ADMIN_ID
              (CallbackQuery u "new_order") w)
  = <[uid u := length (heap w)]> (sessions w).
Proof.
  intros Hok. unfold after. cbn [handle]. unfold button_handler.
  rewrite (bind_Ok _ _ _ _ _ (answer_ok _ _ Hok)).
  change (try_except _ _ (acked w))
    with (try_except (start_order_flow clock transport_ok u)
            (send transport_ok (uid u) TemporaryError) (acked w)).
  unfold try_except, start_order_flow.
  rewrite (bind_Ok _ _ _ _ _ (create_session_run clock (acked w) (uid u) "order_subject")).
  match goal with
  | |- context [send transport_ok (uid u) OrderSubjectPrompt ?w1] =>
      destruct (send_store transport_ok (uid u) OrderSubjectPrompt w1) as [_ Hs];
      destruct (send transport_ok (uid u) OrderSubjectPrompt w1) as [[[]|e] w2];
      cbn [snd] in *
  end.
  - rewrite Hs. reflexivity.
  - destruct (send_store transport_ok (uid u) TemporaryError w2) as [_ Hs'].
    rewrite Hs', Hs. reflexivity.
Qed.

(** X20: the capacity of the store is no limit on new orders.  Opening an
    order never sweeps and never refuses: when users without a session press
    [new_order] one after the other, each of them gets a session and none
    is removed, however many sessions the store already holds and however
    old they are. *)
Theorem new_orders_always_admitted (users : list User) (w : World) :
  (∀ n, transport_ok n = true) →
  NoDup (uid <$> users) →
  (∀ u, u ∈ users → sessions w !! uid u = None) →
  let w' := run clock transport_ok token_hex thread_ref ADMIN_ID
              ((λ u, CallbackQuery u "new_order") <$> users) w in
  size (sessions w') = (size (sessions w) + length users)%nat
  ∧ sessions w ⊆ sessions w'
  ∧ ∀ u, u ∈ users → is_Some (sessions w' !! uid u).
Proof.
  intros Hup. revert w. induction users as [|u users IH]; intros w Hnodup Hnew; cbv zeta.
  - cbn. split; [lia|]. split; [reflexivity|]. intros u Hu. apply elem_of_nil in Hu.
    destruct Hu.
  - cbn [fmap list_fmap run].
    set (w1 := after clock transport_ok token_hex thread_ref ADMIN_ID
                 (CallbackQuery u "new_order") w).
    assert (sessions w1 = <[uid u := length (heap w)]> (sessions w)) as Hs1
      by (apply new_order_sessions, Hup).
    cbn [fmap list_fmap] in Hnodup. apply NoDup_cons in Hnodup as [Hfresh Hnodup].
    assert (sessions w !! uid u = None) as Hu by (apply Hnew; left).
    destruct (IH w1 Hnodup) as (Hsize & Hsub & Hall).
    { intros u' Hu'. rewrite Hs1, lookup_insert_ne; [apply Hnew; right; exact Hu'|].
      intros Heq. apply Hfresh. rewrite Heq. apply list_elem_of_fmap. eauto. }
    split; [|split].
    + change (list_fmap User event (λ u0, CallbackQuery u0 "new_order") users)
        with ((λ u0, CallbackQuery u0 "new_order") <$> users).
      rewrite Hsize, Hs1, map_size_insert_None by exact Hu. cbn [length]. lia.
    + etrans; [|exact Hsub]. rewrite Hs1. apply insert_subseteq. exact Hu.
    + intros u' Hu'. apply elem_of_cons in Hu' as [-> | Hu']; [|apply Hall, Hu'].
      assert (sessions w1 !! uid u = Some (length (heap w))) as Hl
        by (rewrite Hs1; apply lookup_insert_eq).
      eapply lookup_weaken in Hl; [|exact Hsub]. eauto.
Qed.

End Capacity.

(** ** The further properties on concrete worlds *)

Section Scenarios.

Import Sample Scenario.

Lemma duo_well_formed : well_formed duo.
Proof.
  intros user l Hl. unfold duo in Hl. cbn [sessions] in Hl.
  apply lookup_insert_Some in Hl as [[<- <-]|[_ Hl]].
  - eexists. split; reflexivity.
  - apply lookup_singleton_Some in Hl as [<- <-]. eexists. split; reflexivity.
Qed.

Lemma update_session_merges_witness :
  let w' := (update_session clock 7 (Some "order_deadline")
               (Some {[ "pages" := VInt 5 ]}) (world_with at_pages)).2 in
  sessions w' !! 7 = Some 0%nat
  ∧ ∃ s', heap w' !! 0%nat = Some s'
          ∧ (∀ k, data s' !! k
                  = match ({[ "pages" := VInt 5 ]} : gmap string value) !! k with
                    | Some v => Some v
                    | None => data at_pages !! k
                    end)
          ∧ step s' = default (step at_pages) (truthy_str (Some "order_deadline"))
          ∧ files s' = files at_pages ∧ created_at s' = created_at at_pages
          ∧ user_id s' = user_id at_pages.
Proof.
  apply (update_session_merges clock (world_with at_pages) 7 0%nat at_pages
           (Some "order_deadline") {[ "pages" := VInt 5 ]}).
  - reflexivity.
  - reflexivity.
  - apply world_with_live.
Defined.

Lemma other_users_untouched_witness :
  let w' := after clock transport_up token_hex thread_ref ADMIN_ID
              (TextMessage alice "Essay") duo in
  sessions duo !! 1000 = Some 1%nat ∧ heap w' !! 1%nat = heap duo !! 1%nat.
Proof.
  apply (other_users_untouched clock transport_up token_hex thread_ref ADMIN_ID
           duo (TextMessage alice "Essay") 1000 1%nat).
  - exact duo_well_formed.
  - cbn. lia.
  - vm_compute. reflexivity.
Defined.

Lemma text_ignored_at_other_steps_witness :
  let r := text_handler clock transport_up thread_ref ADMIN_ID alice "hello"
             (world_with at_level) in
  r.1 = Ok ()
  ∧ outbox r.2 = outbox (world_with at_level) ∧ sent r.2 = sent (world_with at_level)
  ∧ sessions r.2 !! uid alice = Some 0%nat
  ∧ ∃ s', heap r.2 !! 0%nat = Some s' ∧ step s' = step at_level
          ∧ data s' = data at_level ∧ files s' = files at_level.
Proof.
  apply (text_ignored_at_other_steps clock transport_up thread_ref ADMIN_ID
           (world_with at_level) alice 0%nat at_level "hello").
  - reflexivity.
  - reflexivity.
  - apply world_with_live.
  - vm_compute. discriminate.
  - vm_compute. discriminate.
  - vm_compute. discriminate.
  - vm_compute. discriminate.
Defined.

Lemma free_text_steps_witness :
  let w' := (text_handler clock transport_up thread_ref ADMIN_ID alice "Essay"
               (world_with at_subject)).2 in
  sessions w' !! uid alice = Some 0%nat
  ∧ (∃ s', heap w' !! 0%nat = Some s' ∧ step s' = "order_level"
           ∧ data s' = <["subject" := VStr "Essay"]> (data at_subject)
           ∧ files s' = files at_subject)
  ∧ (transport_up (sent (world_with at_subject)) = true →
     outbox w' = (outbox (world_with at_subject)
                  ++ [(uid alice, SubjectConfirmation "Essay")])%list).
Proof.
  apply (proj1 (free_text_steps clock transport_up thread_ref ADMIN_ID
                  (world_with at_subject) alice 0%nat at_subject "Essay"
                  eq_refl eq_refl (world_with_live clock at_subject 5))).
  reflexivity.
Defined.

Lemma upload_appends_one_witness :
  let w' := (file_handler clock transport_up alice report (world_with at_files)).2 in
  sessions w' !! uid alice = Some 0%nat
  ∧ (∃ s' t, heap w' !! 0%nat = Some s'
       ∧ files s' = (files at_files
                     ++ [{| file_id := "d"; file_name := "document";
                            file_size := 4096; uploaded_at := t |}])%list
       ∧ step s' = step at_files ∧ data s' = data at_files)
  ∧ (transport_up (sent (world_with at_files)) = true →
     outbox w' = (outbox (world_with at_files)
                  ++ [(uid alice, FileAdded "document" 4096 1)])%list).
Proof.
  apply (proj1 (upload_appends_one clock transport_up (world_with at_files) alice
                  0%nat at_files report eq_refl eq_refl
                  (world_with_live clock at_files 2) eq_refl
                  ltac:(vm_compute; lia))
           {| doc_file_id := "d"; doc_file_name := None; doc_file_size := Some 4096 |}).
  - reflexivity.
  - vm_compute. discriminate.
Defined.

Lemma support_message_relayed_witness :
  let w' := (text_handler clock transport_up thread_ref ADMIN_ID alice "Help"
               (world_with at_support)).2 in
  ∃ thread,
    outbox w' = [(ADMIN_ID, SupportToAdmin thread "alice" 7 "Help");
                 (7, SupportConfirmation thread)]
    ∧ sessions w' !! 7 = None.
Proof.
  destruct (support_message_relayed clock transport_up thread_ref ADMIN_ID
              (world_with at_support) alice 0%nat at_support "Help"
              eq_refl eq_refl (world_with_live clock at_support 2) eq_refl)
    as (thread & Hrelayed & _).
  exists thread. apply Hrelayed; reflexivity.
Defined.

Lemma press_without_session_witness :
  let w' := after clock transport_up token_hex thread_ref ADMIN_ID
              (CallbackQuery alice "level_master") initial_world in
  sessions w' !! 7 = Some 0%nat
  ∧ ∃ s, heap w' !! 0%nat = Some s
         ∧ user_id s = 7 ∧ step s = "order_pages"
         ∧ data s = {[ "level" := VStr (PyStr.remove_all "level_master" "level_") ]}
         ∧ files s = [].
Proof.
  apply (proj1 (press_without_session clock transport_up token_hex thread_ref ADMIN_ID
                  initial_world alice "level_master" eq_refl eq_refl)).
  reflexivity.
Defined.

Lemma summary_needs_complete_order_witness :
  let w' := after clock transport_up token_hex thread_ref ADMIN_ID
              (CallbackQuery alice "order_summary") initial_world in
  sessions w' !! 7 = None ∧ heap w' = []
  ∧ outbox w' = [(7, SessionExpired)].
Proof.
  apply (proj1 (summary_needs_complete_order clock transport_up token_hex thread_ref
                  ADMIN_ID initial_world alice "order_summary"
                  (or_introl eq_refl) eq_refl eq_refl)).
  reflexivity.
Defined.

Lemma accepted_order_price_witness :
  ∃ f, Utils.calculate_price (Some (VStr "master")) "3d" (VInt 10) = Ok f
       ∧ B64.is_finite f = true
       ∧ B64.leb (B64.of_Z (16 * 10)) f = true
       ∧ B64.leb f (B64.of_Z (50 * 10)) = true.
Proof.
  apply (accepted_order_price "master" "3d"
           {| name := "Master"; emoji := "🎯"; base_price := B64.lit 26 0 |} 10).
  - reflexivity.
  - lia.
Defined.

Lemma new_orders_always_admitted_witness :
  let w' := run late_clock transport_up token_hex thread_ref ADMIN_ID
              ((λ u, CallbackQuery u "new_order") <$> [bob]) crowd in
  size (sessions w') = (size (sessions crowd) + length [bob])%nat
  ∧ sessions crowd ⊆ sessions w'
  ∧ ∀ u, u ∈ [bob] → is_Some (sessions w' !! uid u).
Proof.
  apply (new_orders_always_admitted late_clock transport_up token_hex thread_ref
           ADMIN_ID [bob] crowd).
  - intros n. reflexivity.
  - apply NoDup_singleton.
  - intros u Hu. apply list_elem_of_singleton in Hu as ->. vm_compute. reflexivity.
Defined.

End Scenarios.

(** ** The types of the session data *)

Section Typed_data.

Variable clock : nat → Z.
Variable transport_ok : nat → bool.
Variable token_hex : nat → string.
Variable thread_ref : Z → Z → string.
Variable ADMIN_ID : Z.

Lemma typed_alter (f : UserSession → UserSession) l h :
  (∀ s, well_typed s → well_typed (f s)) →
  Forall well_typed h → Forall well_typed (alter f l h).
Proof. intros Hf Hh. apply Forall_alter; [exact Hh|]. intros s _. apply Hf. Qed.

Lemma typed_touch h l t :
  Forall well_typed h → Forall well_typed (alter (set_last_activity t) l h).
Proof. apply typed_alter. intros s Hs. exact Hs. Qed.

Lemma typed_step h l st :
  Forall well_typed h → Forall well_typed (alter (set_step st) l h).
Proof. apply typed_alter. intros s Hs. exact Hs. Qed.

Lemma typed_no_patch h l (d : gmap string value) :
  (∀ k, is_Some (d !! k) → False) →
  Forall well_typed h →
  Forall well_typed (alter (λ s, set_data (d ∪ data s) s) l h).
Proof.
  intros Hd. apply typed_alter. intros s Hs k v Hk. cbn [data set_data] in Hk.
  apply lookup_union_Some_raw in Hk as [Hk|[_ Hk]]; [|exact (Hs k v Hk)].
  destruct (Hd k). eauto.
Qed.

Lemma typed_file h l s e :
  h !! l = Some s → (length (files s) < Config.MAX_FILES_PER_ORDER)%nat →
  Forall well_typed h →
  Forall well_typed (alter (λ s0, set_files (files s0 ++ [e]) s0) l h).
Proof. intros _ _. apply typed_alter. intros s0 Hs. exact Hs. Qed.

Lemma typed_alloc h user st t1 t2 :
  Forall well_typed h →
  Forall well_typed
    (h ++ [{| user_id := user; step := st; data := ∅; created_at := t1;
              last_activity := t2; files := [] |}])%list.
Proof.
  intros Hh. apply Forall_app. split; [exact Hh|]. apply Forall_singleton.
  intros k v Hk. cbn [data] in Hk. rewrite lookup_empty in Hk. discriminate.
Qed.

Lemma typed_modify l (f : UserSession → UserSession) :
  (∀ s, well_typed s → well_typed (f s)) →
  keeps (Forall well_typed) (modify l f).
Proof. intros Hf w Hw. cbn. apply typed_alter; assumption. Qed.

Lemma typed_get_session user : keeps (Forall well_typed) (get_session clock user).
Proof. apply keeps_get_session. exact typed_touch. Qed.

Lemma typed_create_session user st :
  keeps (Forall well_typed) (create_session clock user st).
Proof. apply keeps_create_session. exact typed_alloc. Qed.

(** [update_session] with a patch of one well-typed entry. *)
Lemma typed_update_session user st k v :
  well_typed_entry k v →
  keeps (Forall well_typed) (update_session clock user st (Some {[ k := v ]})).
Proof.
  intros Hkv. unfold update_session.
  apply keeps_bind; [apply typed_get_session|intros found].
  apply keeps_bind.
  { destruct found; [apply keeps_ret|apply typed_create_session]. }
  intros l. apply keeps_bind.
  { destruct (truthy_str st) as [st'|]; [|apply keeps_ret].
    apply typed_modify. intros s Hs. exact Hs. }
  intros _. apply keeps_bind.
  { rewrite truthy_dict_singleton. apply typed_modify. intros s Hs k' v' Hk'.
    cbn [data set_data] in Hk'. rewrite <- insert_union_singleton_l in Hk'.
    apply lookup_insert_Some in Hk' as [[<- <-]|[_ Hk']]; [exact Hkv|exact (Hs _ _ Hk')]. }
  intros _. apply keeps_bind; [apply keeps_now|intros t].
  apply typed_modify. intros s Hs. exact Hs.
Qed.

Lemma keeps_raise_bind (P : list UserSession → Prop) {A B} e (k : A → M B) :
  keeps P (bind (raise e) k).
Proof. intros w Hw. exact Hw. Qed.

Lemma typed_handle_level_selection u d :
  keeps (Forall well_typed) (handle_level_selection clock transport_ok u d).
Proof.
  unfold handle_level_selection. cbv zeta.
  apply keeps_bind; [apply typed_update_session; constructor|intros _].
  destruct (AcademicConfig.LEVELS !! _); [apply keeps_send|apply keeps_raise].
Qed.

Lemma typed_handle_deadline_selection u d :
  keeps (Forall well_typed) (handle_deadline_selection clock transport_ok u d).
Proof.
  unfold handle_deadline_selection. cbv zeta.
  apply keeps_bind; [apply typed_get_session|intros session].
  apply keeps_bind; [apply typed_update_session; constructor|intros _].
  apply keeps_bind; [apply keeps_data_get|intros level].
  apply keeps_bind; [apply keeps_data_get|intros pages].
  apply keeps_bind; [apply keeps_lift|intros final_price].
  apply keeps_bind; [apply typed_update_session; constructor|intros _].
  apply keeps_send.
Qed.

Lemma typed_text_handler u text :
  keeps (Forall well_typed)
    (text_handler clock transport_ok thread_ref ADMIN_ID u text).
Proof.
  unfold text_handler.
  apply keeps_bind; [apply typed_get_session|intros [l|]]; [|apply keeps_send].
  apply keeps_try_except; [|apply keeps_send].
  apply keeps_bind; [apply keeps_read|intros s]. cbv zeta.
  destruct (String.eqb (step s) "order_subject").
  { apply keeps_bind; [apply typed_update_session; constructor|intros _].
    apply keeps_send. }
  destruct (String.eqb (step s) "order_pages").
  { apply keeps_try_except_ValueError; [|apply keeps_send].
    apply keeps_bind; [apply keeps_lift|intros pages].
    destruct ((pages <=? 0) || (50 <? pages)) eqn:Hrange.
    - apply keeps_raise_bind.
    - apply orb_false_iff in Hrange as [H1 H2].
      apply keeps_bind; [apply keeps_ret|intros _].
      apply keeps_bind; [|intros _; apply keeps_send].
      apply typed_update_session. constructor. lia. }
  destruct (String.eqb (step s) "order_instructions").
  { apply keeps_bind; [apply typed_update_session; constructor|intros _].
    apply keeps_send. }
  destruct (String.eqb (step s) "support"); [|apply keeps_ret].
  apply keeps_handle_support_message.
Qed.

Lemma typed_button_handler u d :
  keeps (Forall well_typed)
    (button_handler clock transport_ok token_hex ADMIN_ID u d).
Proof.
  unfold button_handler.
  apply keeps_bind; [apply keeps_answer|intros _].
  apply keeps_try_except; [|apply keeps_send].
  repeat match goal with
         | |- keeps _ (if ?b then _ else _) => destruct b
         end;
    first [ apply keeps_main_menu
          | apply keeps_start_order_flow; exact typed_alloc
          | apply keeps_pricing_display | apply keeps_info_display
          | apply (keeps_support_interface clock transport_ok (Forall well_typed)
                     (λ _, False));
            [exact typed_touch|exact typed_step|exact typed_no_patch|exact typed_alloc]
          | apply typed_handle_level_selection
          | apply typed_handle_deadline_selection
          | apply keeps_display_order_summary; exact typed_touch
          | apply keeps_send_payment_info; exact typed_touch
          | apply keeps_send
          | apply keeps_ret ].
Qed.

Lemma typed_handle ev :
  keeps (Forall well_typed)
    (handle clock transport_ok token_hex thread_ref ADMIN_ID ev).
Proof.
  destruct ev as [u|u|u args|u d|u att|u text]; cbn [handle].
  - apply keeps_start_command.
  - apply keeps_main_menu.
  - apply keeps_admin_reply.
  - apply typed_button_handler.
  - apply keeps_file_handler; [exact typed_touch|exact typed_file].
  - apply typed_text_handler.
Qed.

Lemma typed_run evs w :
  Forall well_typed (heap w) →
  Forall well_typed
    (heap (run clock transport_ok token_hex thread_ref ADMIN_ID evs w)).
Proof.
  revert w. induction evs as [|ev evs IH]; intros w Hw; [exact Hw|].
  cbn [run]. apply IH. apply typed_handle. exact Hw.
Qed.

(** X21: session data is well typed in every reachable state: [subject],
    [level], [deadline] and [instructions_text] hold texts, [pages] holds
    an integer from 1 to 50, [final_price] holds a float, and there is no
    other key.  Hence formatting the stored price, cutting and quoting the
    stored instructions and pricing the stored level and pages never
    raise. *)
Theorem session_data_well_typed (evs : list event) (l : nat) (s : UserSession) :
  heap (run clock transport_ok token_hex thread_ref ADMIN_ID evs initial_world) !! l
  = Some s →
  well_typed s
  ∧ (∃ text,
       Utils.format_price (default (VInt 0) (data s !! "final_price")) = Ok text)
  ∧ (∃ text,
       first_50 (default (VStr "Aucune") (data s !! "instructions_text")) = Ok text)
  ∧ (∃ quoted, quoted_instructions (data s !! "instructions_text") = Ok quoted)
  ∧ (∀ D, ∃ price,
       Utils.calculate_price (data s !! "level") D
         (default (VInt 1) (data s !! "pages")) = Ok price).
Proof.
  intros Hl.
  assert (well_typed s) as Hs.
  { pose proof (typed_run evs initial_world (Forall_nil_2 _)) as Hall.
    rewrite Forall_lookup in Hall. exact (Hall l s Hl). }
  split; [exact Hs|]. split; [|split; [|split]].
  - destruct (data s !! "final_price") as [v|] eqn:Hv; cbn [default].
    + pose proof (Hs _ _ Hv) as Ht. inversion Ht; subst. cbn. eauto.
    + vm_compute. eauto.
  - destruct (data s !! "instructions_text") as [v|] eqn:Hv; cbn [default].
    + pose proof (Hs _ _ Hv) as Ht. inversion Ht; subst. cbn. eauto.
    + cbn. eauto.
  - destruct (data s !! "instructions_text") as [v|] eqn:Hv.
    + pose proof (Hs _ _ Hv) as Ht. inversion Ht; subst.
      destruct text; cbn; eauto.
    + cbn. eauto.
  - intros D.
    assert (∃ f, B64.of_int
                   match default (VInt 1) (data s !! "pages") with
                   | VInt z => z
                   | _ => 1
                   end = Ok f
                 ∧ ∃ z, default (VInt 1) (data s !! "pages") = VInt z) as (f & Hf & z & Hz).
    { destruct (data s !! "pages") as [v|] eqn:Hv; cbn [default].
      - pose proof (Hs _ _ Hv) as Ht. inversion Ht; subst.
        destruct (of_int_bounded pages) as [f Hf]; [|eauto].
        assert (2 ^ 970 * 2 ^ 54 = 2 ^ 1024) as Hpow
          by (rewrite <- Z.pow_add_r; [reflexivity|lia|lia]).
        assert (1 < 2 ^ 970) by (apply Z.pow_gt_1; lia).
        assert (2 ^ 54 = 18014398509481984) by reflexivity. lia.
      - exists (B64.lit 1 0). split; [apply of_int_1|eauto]. }
    rewrite Hz in *.
    unfold Utils.calculate_price.
    destruct (AcademicConfig.LEVELS_get (data s !! "level")); [|eauto].
    unfold float_mul. rewrite Hf. cbn [obind]. eauto.
Qed.

End Typed_data.

(** ** An order from the first button to the operator *)

Section Order_flow.

Variable clock : nat → Z.
Variable transport_ok : nat → bool.
Variable token_hex : nat → string.
Variable thread_ref : Z → Z → string.
Variable ADMIN_ID : Z.

Hypothesis transport_up : ∀ n, transport_ok n = true.

Lemma sent_ok target r w :
  send transport_ok target r w =
  (Ok (), {| heap := heap w; sessions := sessions w; ticks := ticks w;
             sent := S (sent w); tokens := tokens w;
             outbox := outbox w ++ [(target, r)] |}).
Proof. apply send_ok, transport_up. Qed.

(** [get_session] on a session of a store within capacity. *)
Lemma fetched w user l s :
  sessions w !! user = Some l → heap w !! l = Some s →
  (size (sessions w) ≤ Config.MAX_SESSIONS)%nat →
  ∃ w1 t, get_session clock user w = (Ok (Some l), w1)
    ∧ sessions w1 !! user = Some l
    ∧ heap w1 !! l = Some (set_last_activity t s)
    ∧ outbox w1 = outbox w ∧ tokens w1 = tokens w
    ∧ (size (sessions w1) ≤ Config.MAX_SESSIONS)%nat.
Proof.
  intros Hu Hl Hsz.
  destruct (get_session_live clock w user l s 0 Hu Hl (or_introl Hsz))
    as (w1 & t & Hget & Hu1 & Hh1 & _ & (_ & Hk1 & Ho1) & Hsz1 & _).
  exists w1, t. split; [exact Hget|]. split; [exact Hu1|].
  split; [rewrite Hh1; eapply lookup_insert_heap, Hl|].
  split; [exact Ho1|]. split; [exact Hk1|lia].
Qed.

(** [update_session] on a session of a store within capacity. *)
Lemma stored w user l s st patch :
  sessions w !! user = Some l → heap w !! l = Some s →
  (size (sessions w) ≤ Config.MAX_SESSIONS)%nat →
  ∃ w1 t, update_session clock user st patch w = (Ok (), w1)
    ∧ sessions w1 !! user = Some l
    ∧ heap w1 !! l = Some (set_last_activity t (patched patch (stepped st s)))
    ∧ outbox w1 = outbox w ∧ tokens w1 = tokens w
    ∧ (size (sessions w1) ≤ Config.MAX_SESSIONS)%nat.
Proof.
  intros Hu Hl Hsz.
  destruct (update_session_live clock w user l s st patch 0 Hu Hl (or_introl Hsz))
    as (w1 & t & Hupd & Hu1 & Hh1 & _ & (_ & Hk1 & Ho1) & Hsz1 & _).
  exists w1, t. split; [exact Hupd|]. split; [exact Hu1|].
  split; [rewrite Hh1; eapply lookup_insert_heap, Hl|].
  split; [exact Ho1|]. split; [exact Hk1|lia].
Qed.

Lemma said_more (u : User) (out : list (Z * reply)) said r :
  ((out ++ ((λ r, (uid u, r)) <$> said)) ++ [(uid u, r)])%list
  = (out ++ ((λ r, (uid u, r)) <$> (said ++ [r])%list))%list.
Proof. rewrite fmap_app, app_assoc. reflexivity. Qed.

(** One entry stored, the step moved, the next prompt sent. *)
Lemma stored_and_said w0 w u l s st k v said r :
  sessions w !! uid u = Some l → heap w !! l = Some s → files s = [] →
  outbox w = (outbox w0 ++ ((λ r, (uid u, r)) <$> said))%list →
  tokens w = tokens w0 →
  (size (sessions w) ≤ Config.MAX_SESSIONS)%nat →
  st ≠ "" →
  ∃ w', (update_session clock (uid u) (Some st) (Some {[ k := v ]});;
         send transport_ok (uid u) r) w = (Ok (), w')
        ∧ order_at w0 w' u st (<[k := v]> (data s)) (said ++ [r]).
Proof.
  intros Hu Hl Hf Ho Hk Hsz Hst.
  destruct (stored w (uid u) l s (Some st) (Some {[ k := v ]}) Hu Hl Hsz)
    as (w1 & t & Hupd & Hu1 & Hl1 & Ho1 & Hk1 & Hsz1).
  rewrite patched_singleton in Hl1.
  assert (stepped (Some st) s = set_step st s) as Hstepped
    by (unfold stepped; destruct st; [congruence|reflexivity]).
  rewrite Hstepped in Hl1.
  eexists. split.
  - rewrite (bind_Ok _ _ _ _ _ Hupd). apply sent_ok.
  - split; [|split; [|split]].
    + exists l. eexists. split; [exact Hu1|]. split; [exact Hl1|]. auto.
    + cbn [outbox]. rewrite Ho1, Ho. apply said_more.
    + cbn [tokens]. congruence.
    + exact Hsz1.
Qed.

(** The first button opens the order. *)
Lemma order_opened w u :
  (size (sessions w) < Config.MAX_SESSIONS)%nat →
  order_at w
    (after clock transport_ok token_hex thread_ref ADMIN_ID
       (CallbackQuery u "new_order") w)
    u "order_subject" ∅ [OrderSubjectPrompt].
Proof.
  intros Hsz. unfold after. cbn [handle]. unfold button_handler.
  rewrite (bind_Ok _ _ _ _ _ (answer_ok _ _ (transport_up _))).
  change (try_except _ _ (acked w))
    with (try_except (start_order_flow clock transport_ok u)
            (send transport_ok (uid u) TemporaryError) (acked w)).
  unfold try_except, start_order_flow.
  rewrite (bind_Ok _ _ _ _ _ (create_session_run clock (acked w) (uid u) "order_subject")).
  rewrite sent_ok. cbn [snd acked heap sessions tokens outbox].
  split; [|split; [|split]].
  - exists (length (heap w)). eexists.
    split; [apply lookup_insert_eq|].
    split; [apply list_lookup_middle; reflexivity|]. auto.
  - reflexivity.
  - reflexivity.
  - change (size (<[uid u := length (heap w)]> (sessions w)) ≤ Config.MAX_SESSIONS)%nat.
    destruct (sessions w !! uid u) as [l0|] eqn:Hl0.
    + rewrite map_size_insert_Some by (rewrite Hl0; eauto). lia.
    + rewrite map_size_insert_None by exact Hl0. lia.
Qed.

(** A text at the subject or at the instructions step. *)
Lemma text_stored w0 w u d said text :
  let next st k r :=
    order_at w0
      (after clock transport_ok token_hex thread_ref ADMIN_ID (TextMessage u text) w)
      u st (<[k := VStr text]> d) (said ++ [r]) in
  (order_at w0 w u "order_subject" d said →
   next "order_level" "subject" (SubjectConfirmation text))
  ∧ (order_at w0 w u "order_instructions" d said →
     next "order_files" "instructions_text" FilesPrompt).
Proof.
  cbv zeta. unfold after. cbn [handle].
  split; intros ((l & s & Hu & Hl & Hst & Hd & Hf) & Ho & Hk & Hsz);
    destruct (fetched w (uid u) l s Hu Hl Hsz)
      as (w1 & t & Hget & Hu1 & Hl1 & Ho1 & Hk1 & Hsz1);
    unfold text_handler; rewrite (bind_Ok _ _ _ _ _ Hget);
    rewrite (try_except_read _ _ _ _ _ Hl1);
    cbv zeta; cbn [step set_last_activity]; rewrite Hst.
  - change (("order_subject" =? "order_subject")%string) with true. cbn beta iota.
    destruct (stored_and_said w0 w1 u l _ "order_level" "subject" (VStr text) said
                (SubjectConfirmation text) Hu1 Hl1 Hf
                ltac:(congruence) ltac:(congruence) Hsz1 ltac:(discriminate))
      as (w' & Hrun & Hat).
    rewrite (try_except_Ok _ _ _ _ _ Hrun). cbn [snd data set_last_activity] in *.
    rewrite <- Hd. exact Hat.
  - change (("order_instructions" =? "order_subject")%string) with false.
    change (("order_instructions" =? "order_pages")%string) with false.
    change (("order_instructions" =? "order_instructions")%string) with true.
    cbn beta iota.
    destruct (stored_and_said w0 w1 u l _ "order_files" "instructions_text"
                (VStr text) said FilesPrompt Hu1 Hl1 Hf
                ltac:(congruence) ltac:(congruence) Hsz1 ltac:(discriminate))
      as (w' & Hrun & Hat).
    rewrite (try_except_Ok _ _ _ _ _ Hrun). cbn [snd data set_last_activity] in *.
    rewrite <- Hd. exact Hat.
Qed.

(** A catalog level chosen. *)
Lemma level_stored w0 w u st d said query_data lvl :
  PyStr.startswith query_data "level_" = true →
  AcademicConfig.LEVELS !! PyStr.remove_all query_data "level_" = Some lvl →
  order_at w0 w u st d said →
  order_at w0
    (after clock transport_ok token_hex thread_ref ADMIN_ID
       (CallbackQuery u query_data) w)
    u "order_pages" (<["level" := VStr (PyStr.remove_all query_data "level_")]> d)
    (said ++ [PagesPrompt lvl]).
Proof.
  intros Hq Hlvl ((l & s & Hu & Hl & Hst & Hd & Hf) & Ho & Hk & Hsz).
  unfold after. cbn [handle].
  rewrite (button_handler_level _ _ _ _ _ _ _ Hq (transport_up _)).
  destruct (stored_and_said w0 (acked w) u l s "order_pages" "level"
              (VStr (PyStr.remove_all query_data "level_")) said (PagesPrompt lvl)
              Hu Hl Hf Ho Hk Hsz ltac:(discriminate))
    as (w' & Hrun & Hat).
  assert (handle_level_selection clock transport_ok u query_data (acked w) = (Ok (), w'))
    as Hrun'.
  { unfold handle_level_selection. cbv zeta. rewrite <- Hrun.
    unfold bind. destruct (update_session _ _ _ _ _) as [[[]|e] w1]; [|reflexivity].
    rewrite Hlvl. reflexivity. }
  rewrite (try_except_Ok _ _ _ _ _ Hrun'). cbn [snd]. rewrite <- Hd. exact Hat.
Qed.

(** A page count accepted. *)
Lemma pages_stored w0 w u d said text pages :
  PyStr.int (PyStr.strip text) = Ok pages → 1 ≤ pages ≤ 50 →
  order_at w0 w u "order_pages" d said →
  order_at w0
    (after clock transport_ok token_hex thread_ref ADMIN_ID (TextMessage u text) w)
    u "order_deadline" (<["pages" := VInt pages]> d)
    (said ++ [PagesConfirmation pages]).
Proof.
  intros Hint Hrange ((l & s & Hu & Hl & Hst & Hd & Hf) & Ho & Hk & Hsz).
  unfold after. cbn [handle].
  destruct (fetched w (uid u) l s Hu Hl Hsz)
    as (w1 & t & Hget & Hu1 & Hl1 & Ho1 & Hk1 & Hsz1).
  unfold text_handler. rewrite (bind_Ok _ _ _ _ _ Hget).
  rewrite (try_except_read _ _ _ _ _ Hl1).
  cbv zeta. cbn [step set_last_activity]. rewrite Hst.
  change (("order_pages" =? "order_subject")%string) with false.
  change (("order_pages" =? "order_pages")%string) with true.
  cbn beta iota.
  destruct (stored_and_said w0 w1 u l _ "order_deadline" "pages" (VInt pages) said
              (PagesConfirmation pages) Hu1 Hl1 Hf
              ltac:(congruence) ltac:(congruence) Hsz1 ltac:(discriminate))
    as (w' & Hrun & Hat).
  assert (try_except_ValueError
            (let* pages := lift (PyStr.int (PyStr.strip text)) in
             (if (pages <=? 0) || (50 <? pages) then raise ValueError else ret ());;
             update_session clock (uid u) (Some "order_deadline")
               (Some {[ "pages" := VInt pages ]});;
             send transport_ok (uid u) (PagesConfirmation pages))
            (send transport_ok (uid u) PagesFormatError) w1 = (Ok (), w')) as Hrun'.
  { unfold try_except_ValueError. unfold bind at 1, lift at 1. rewrite Hint.
    assert ((pages <=? 0) || (50 <? pages) = false) as ->
      by (apply orb_false_iff; split; lia).
    unfold bind at 1, ret at 1. rewrite Hrun. reflexivity. }
  rewrite (try_except_Ok _ _ _ _ _ Hrun'). cbn [snd data set_last_activity] in *.
  rewrite <- Hd. exact Hat.
Qed.

(** A deadline chosen: the price is computed from what the session holds. *)
Lemma deadline_stored w0 w u st d said query_data price :
  PyStr.startswith query_data "deadline_" = true →
  Utils.calculate_price (d !! "level") (PyStr.remove_all query_data "deadline_")
    (default (VInt 1) (d !! "pages")) = Ok price →
  order_at w0 w u st d said →
  order_at w0
    (after clock transport_ok token_hex thread_ref ADMIN_ID
       (CallbackQuery u query_data) w)
    u "order_instructions"
    (<["final_price" := VFloat price]>
       (<["deadline" := VStr (PyStr.remove_all query_data "deadline_")]> d))
    (said ++ [InstructionsPrompt]).
Proof.
  intros Hq Hprice ((l & s & Hu & Hl & Hst & Hd & Hf) & Ho & Hk & Hsz).
  unfold after. cbn [handle].
  rewrite (button_handler_deadline _ _ _ _ _ _ _ Hq (transport_up _)).
  destruct (fetched (acked w) (uid u) l s Hu Hl Hsz)
    as (w1 & t & Hget & Hu1 & Hl1 & Ho1 & Hk1 & Hsz1).
  destruct (stored w1 (uid u) l _ (Some "order_instructions")
              (Some {[ "deadline" := VStr (PyStr.remove_all query_data "deadline_") ]})
              Hu1 Hl1 Hsz1)
    as (w2 & t2 & Hupd & Hu2 & Hl2 & Ho2 & Hk2 & Hsz2).
  rewrite patched_singleton in Hl2.
  change (stepped (Some "order_instructions") (set_last_activity t s))
    with (set_step "order_instructions" (set_last_activity t s)) in Hl2.
  match type of Hl2 with _ = Some ?x => set (s2 := x) in * end.
  assert (data s2 = <["deadline" := VStr (PyStr.remove_all query_data "deadline_")]> d)
    as Hd2 by (subst s2; cbn; rewrite Hd; reflexivity).
  assert (files s2 = []) as Hf2 by exact Hf.
  assert (step s2 = "order_instructions") as Hst2 by reflexivity.
  clearbody s2.
  destruct (stored w2 (uid u) l s2 None (Some {[ "final_price" := VFloat price ]})
              Hu2 Hl2 Hsz2)
    as (w3 & t3 & Hupd3 & Hu3 & Hl3 & Ho3 & Hk3 & Hsz3).
  rewrite patched_singleton in Hl3.
  change (stepped None s2) with s2 in Hl3.
  assert (handle_deadline_selection clock transport_ok u query_data (acked w)
          = send transport_ok (uid u) InstructionsPrompt w3) as Hrun3.
  { unfold handle_deadline_selection. cbv zeta.
    rewrite (bind_Ok _ _ _ _ _ Hget), (bind_Ok _ _ _ _ _ Hupd).
    rewrite (bind_Ok _ _ _ _ _ (data_get_run _ _ _ "level" Hl2)).
    rewrite (bind_Ok _ _ _ _ _ (data_get_run _ _ _ "pages" Hl2)).
    rewrite Hd2.
    rewrite (lookup_insert_ne d "deadline" "level") by discriminate.
    rewrite (lookup_insert_ne d "deadline" "pages") by discriminate.
    unfold bind at 1, lift. rewrite Hprice. cbn beta iota.
    rewrite (bind_Ok _ _ _ _ _ Hupd3). reflexivity. }
  unfold try_except. rewrite Hrun3, sent_ok. cbn [snd].
  split; [|split; [|split]].
  - exists l. eexists. cbn [sessions heap]. split; [exact Hu3|].
    split; [exact Hl3|].
    cbn [step data files set_last_activity set_data]. rewrite Hd2. auto.
  - cbn [outbox]. rewrite Ho3, Ho2, Ho1. cbn [outbox acked]. rewrite Ho.
    apply said_more.
  - cbn [tokens]. rewrite Hk3, Hk2, Hk1. exact Hk.
  - exact Hsz3.
Qed.

(** The summary shows what the session holds. *)
Lemma summary_shown w0 w u st d said query_data lvl label instructions amount :
  query_data = "order_summary" ∨ query_data = "skip_files" →
  catalog_level (d !! "level") = Ok lvl →
  catalog_deadline_label (d !! "deadline") = Ok label →
  first_50 (default (VStr "Aucune") (d !! "instructions_text")) = Ok instructions →
  Utils.format_price (default (VInt 0) (d !! "final_price")) = Ok amount →
  order_at w0 w u st d said →
  order_at w0
    (after clock transport_ok token_hex thread_ref ADMIN_ID
       (CallbackQuery u query_data) w)
    u st d
    (said ++ [SummaryText (default (VStr "Non défini") (d !! "subject")) lvl
                (d !! "pages") label instructions 0 amount]).
Proof.
  intros Hq Hlvl Hlabel Hinstr Hamount
    ((l & s & Hu & Hl & Hst & Hd & Hf) & Ho & Hk & Hsz).
  unfold after. cbn [handle].
  rewrite (button_handler_summary _ _ _ _ _ _ _ Hq (transport_up _)).
  destruct (fetched (acked w) (uid u) l s Hu Hl Hsz)
    as (w1 & t & Hget & Hu1 & Hl1 & Ho1 & Hk1 & Hsz1).
  assert (display_order_summary clock transport_ok u (acked w)
          = send transport_ok (uid u)
              (SummaryText (default (VStr "Non défini") (d !! "subject")) lvl
                 (d !! "pages") label instructions 0 amount) w1) as Hrun.
  { unfold display_order_summary.
    rewrite (bind_Ok _ _ _ _ _ Hget), (bind_Ok _ _ _ _ _ (read_run _ _ _ Hl1)).
    cbn [data files set_last_activity]. rewrite Hd, Hf.
    unfold bind, lift. rewrite Hlvl, Hlabel, Hinstr, Hamount. reflexivity. }
  unfold try_except. rewrite Hrun, sent_ok. cbn [snd].
  split; [|split; [|split]].
  - exists l. eexists. cbn [sessions heap]. split; [exact Hu1|].
    split; [exact Hl1|]. cbn. auto.
  - cbn [outbox]. rewrite Ho1. cbn [outbox acked]. rewrite Ho. apply said_more.
  - cbn [tokens]. rewrite Hk1. exact Hk.
  - exact Hsz1.
Qed.

Lemma button_handler_transfer w u :
  button_handler clock transport_ok token_hex ADMIN_ID u "payment_transfer" w
  = try_except (send_payment_info clock transport_ok token_hex ADMIN_ID u "transfer")
      (send transport_ok (uid u) TemporaryError) (acked w).
Proof.
  unfold button_handler.
  rewrite (bind_Ok _ _ _ _ _ (answer_ok _ _ (transport_up _))). reflexivity.
Qed.

(** Payment by transfer: the instructions to the user, the order to the
    operator, the session closed. *)
Lemma order_paid w0 w u st d said lvl label amount quoted :
  catalog_level (d !! "level") = Ok lvl →
  catalog_deadline_label (d !! "deadline") = Ok label →
  Utils.format_price (default (VInt 0) (d !! "final_price")) = Ok amount →
  quoted_instructions (d !! "instructions_text") = Ok quoted →
  order_at w0 w u st d said →
  let w' := after clock transport_ok token_hex thread_ref ADMIN_ID
              (CallbackQuery u "payment_transfer") w in
  let order_number := "EDU" +:+ token_hex (tokens w0) in
  sessions w' !! uid u = None
  ∧ outbox w' =
    (outbox w0 ++ ((λ r, (uid u, r)) <$> said)
     ++ [(uid u, TransferInstructions order_number amount);
         (ADMIN_ID,
          AdminNotification order_number
            (default "Sans username" (truthy_str (username u))) (uid u)
            (d !! "subject") (name lvl) (d !! "pages") label amount "transfer" 0
            quoted)])%list.
Proof.
  intros Hlvl Hlabel Hamount Hquoted
    ((l & s & Hu & Hl & Hst & Hd & Hf) & Ho & Hk & Hsz).
  cbv zeta. unfold after. cbn [handle]. rewrite button_handler_transfer.
  destruct (send_payment_info_fetch clock transport_ok token_hex ADMIN_ID
              (acked w) u "transfer" l s Hu Hl (or_introl Hsz))
    as (w2 & t & Hu2 & Hl2 & Hs2 & Ho2 & Hrun).
  set (order_number := "EDU" +:+ token_hex (tokens w0)).
  set (note := AdminNotification order_number
                 (default "Sans username" (truthy_str (username u))) (uid u)
                 (d !! "subject") (name lvl) (d !! "pages") label amount
                 "transfer" 0 quoted).
  assert (send_payment_info clock transport_ok token_hex ADMIN_ID u "transfer" (acked w)
          = (Ok (),
             {| heap := heap w2; sessions := delete (uid u) (sessions w2);
                ticks := ticks w2; sent := S (S (sent w2)); tokens := tokens w2;
                outbox := (outbox w2
                           ++ [(uid u, TransferInstructions order_number amount)])
                          ++ [(ADMIN_ID, note)] |})) as Hpaid.
  { rewrite Hrun. cbv zeta.
    change (("transfer" =? "transfer")%string) with true. cbn beta iota.
    change (tokens (acked w)) with (tokens w). rewrite Hd, Hk, Hamount.
    fold order_number.
    unfold bind at 1. unfold bind at 1, lift at 1, ret at 1. cbn beta iota.
    rewrite (bind_Ok _ _ _ _ _ (sent_ok _ _ _)).
    match goal with
    | |- context [bind (send_admin_notification _ _ u l _ _) _ ?w] => set (w3 := w)
    end.
    assert (heap w3 !! l = Some (set_last_activity t s)) as Hl3 by exact Hl2.
    assert (send_admin_notification transport_ok ADMIN_ID u l order_number
              "transfer" w3
            = (Ok (),
               {| heap := heap w3; sessions := sessions w3; ticks := ticks w3;
                  sent := S (sent w3); tokens := tokens w3;
                  outbox := outbox w3 ++ [(ADMIN_ID, note)] |})) as Hnote.
    { unfold send_admin_notification, try_except.
      rewrite (bind_Ok _ _ _ _ _ (read_run _ _ _ Hl3)).
      cbn [data files set_last_activity]. rewrite Hd, Hf.
      unfold bind at 1, lift at 1. rewrite Hlvl.
      unfold bind at 1, lift at 1. rewrite Hlabel.
      unfold bind at 1, lift at 1. rewrite Hamount.
      unfold bind at 1, lift at 1. rewrite Hquoted.
      rewrite (bind_Ok _ _ _ _ _ (sent_ok _ _ _)). reflexivity. }
    rewrite (bind_Ok _ _ _ _ _ Hnote). reflexivity. }
  rewrite (try_except_Ok _ _ _ _ _ Hpaid). cbn [snd sessions outbox].
  split; [apply lookup_delete_eq|].
  rewrite Ho2. cbn [outbox acked]. rewrite Ho, <- !app_assoc. reflexivity.
Qed.

End Order_flow.

Section Complete_order.

Variable clock : nat → Z.
Variable transport_ok : nat → bool.
Variable token_hex : nat → string.
Variable thread_ref : Z → Z → string.
Variable ADMIN_ID : Z.

(** X22: a complete order reaches the operator as it was entered.  With a
    working transport and a store below capacity, a user who presses
    [new_order], types a subject, presses a catalog level, types a page
    count from 1 to 50, presses a catalog deadline, types instructions,
    skips the files and chooses the bank transfer receives the eight
    messages of the flow, the summary and the payment instructions showing
    the price [calculate_price] gives for the chosen level, deadline and
    pages; the operator receives one notice with the same order number,
    subject, level, pages, deadline and price; and the session is closed. *)
Theorem complete_order_reaches_operator (w : World) (u : User)
    (subject level_button pages_text deadline_button instructions : string)
    (lvl : AcademicLevel) (pages : Z) (label : string) (multiplier : spec_float) :
  (∀ n, transport_ok n = true) →
  (size (sessions w) < Config.MAX_SESSIONS)%nat →
  PyStr.startswith level_button "level_" = true →
  AcademicConfig.LEVELS !! PyStr.remove_all level_button "level_" = Some lvl →
  PyStr.int (PyStr.strip pages_text) = Ok pages → 1 ≤ pages ≤ 50 →
  PyStr.startswith deadline_button "deadline_" = true →
  AcademicConfig.DEADLINES !! PyStr.remove_all deadline_button "deadline_"
  = Some (label, multiplier) →
  let w' := run clock transport_ok token_hex thread_ref ADMIN_ID
              [ CallbackQuery u "new_order"; TextMessage u subject;
                CallbackQuery u level_button; TextMessage u pages_text;
                CallbackQuery u deadline_button; TextMessage u instructions;
                CallbackQuery u "skip_files"; CallbackQuery u "payment_transfer" ]
              w in
  let order_number := "EDU" +:+ token_hex (tokens w) in
  ∃ price amount quoted,
    Utils.calculate_price (Some (VStr (PyStr.remove_all level_button "level_")))
      (PyStr.remove_all deadline_button "deadline_") (VInt pages) = Ok price
    ∧ Utils.format_price (VFloat price) = Ok amount
    ∧ quoted_instructions (Some (VStr instructions)) = Ok quoted
    ∧ outbox w' =
      (outbox w ++
       [ (uid u, OrderSubjectPrompt);
         (uid u, SubjectConfirmation subject);
         (uid u, PagesPrompt lvl);
         (uid u, PagesConfirmation pages);
         (uid u, InstructionsPrompt);
         (uid u, FilesPrompt);
         (uid u, SummaryText (VStr subject) lvl (Some (VInt pages)) label
                   (PyStr.take_chars 50 instructions) 0 amount);
         (uid u, TransferInstructions order_number amount);
         (ADMIN_ID,
          AdminNotification order_number
            (default "Sans username" (truthy_str (username u))) (uid u)
            (Some (VStr subject)) (name lvl) (Some (VInt pages)) label amount
            "transfer" 0 quoted) ])%list
    ∧ sessions w' !! uid u = None.
Proof.
  intros Hup Hsz Hlevel Hlvl Hint Hrange Hdeadline Hlabel. cbv zeta.
  set (L := PyStr.remove_all level_button "level_") in *.
  set (D := PyStr.remove_all deadline_button "deadline_") in *.
  destruct (of_int_bounded pages) as [f Hf].
  { assert (2 ^ 970 * 2 ^ 54 = 2 ^ 1024) as Hpow
      by (rewrite <- Z.pow_add_r; [reflexivity|lia|lia]).
    assert (1 < 2 ^ 970) by (apply Z.pow_gt_1; lia).
    assert (2 ^ 54 = 18014398509481984) by reflexivity. lia. }
  pose proof (calculate_price_known L lvl D pages f Hlvl Hf) as Hprice.
  match type of Hprice with _ = Ok ?x => set (price := x) in * end.
  assert (∃ quoted, quoted_instructions (Some (VStr instructions)) = Ok quoted)
    as [quoted Hquoted] by (destruct instructions; cbn; eauto).
  exists price, (Utils.format_2f price +:+ "€"), quoted.
  split; [exact Hprice|]. split; [reflexivity|]. split; [exact Hquoted|].
  cbn [run].
  pose proof (order_opened clock transport_ok token_hex thread_ref ADMIN_ID Hup w u Hsz)
    as H1.
  match type of H1 with order_at _ ?x _ _ _ _ => set (w1 := x) in * end.
  pose proof (proj1 (text_stored clock transport_ok token_hex thread_ref ADMIN_ID Hup
                       w w1 u ∅ _ subject) H1) as H2.
  cbv beta zeta in H2.
  match type of H2 with order_at _ ?x _ _ _ _ => set (w2 := x) in * end.
  pose proof (level_stored clock transport_ok token_hex thread_ref ADMIN_ID Hup
                w w2 u _ _ _ level_button lvl Hlevel Hlvl H2) as H3.
  match type of H3 with order_at _ ?x _ _ _ _ => set (w3 := x) in * end.
  pose proof (pages_stored clock transport_ok token_hex thread_ref ADMIN_ID Hup
                w w3 u _ _ pages_text pages Hint Hrange H3) as H4.
  match type of H4 with order_at _ ?x _ _ _ _ => set (w4 := x) in * end.
  match type of H4 with order_at _ _ _ _ ?x _ => set (d4 := x) in * end.
  assert (Utils.calculate_price (d4 !! "level") D (default (VInt 1) (d4 !! "pages"))
          = Ok price) as Hprice4 by exact Hprice.
  pose proof (deadline_stored clock transport_ok token_hex thread_ref ADMIN_ID Hup
                w w4 u _ d4 _ deadline_button price Hdeadline Hprice4 H4) as H5.
  subst d4.
  match type of H5 with order_at _ ?x _ _ _ _ => set (w5 := x) in * end.
  pose proof (proj2 (text_stored clock transport_ok token_hex thread_ref ADMIN_ID Hup
                       w w5 u _ _ instructions) H5) as H6.
  cbv beta zeta in H6.
  match type of H6 with order_at _ ?x _ _ _ _ => set (w6 := x) in * end.
  fold L D in H6.
  match type of H6 with order_at _ _ _ _ ?x _ => set (d := x) in * end.
  assert (d !! "subject" = Some (VStr subject)) as Hd1 by reflexivity.
  assert (d !! "level" = Some (VStr L)) as Hd2 by reflexivity.
  assert (d !! "pages" = Some (VInt pages)) as Hd3 by reflexivity.
  assert (d !! "deadline" = Some (VStr D)) as Hd4 by reflexivity.
  assert (d !! "final_price" = Some (VFloat price)) as Hd5 by reflexivity.
  assert (d !! "instructions_text" = Some (VStr instructions)) as Hd6 by reflexivity.
  assert (catalog_level (d !! "level") = Ok lvl) as Hc1
    by (rewrite Hd2; unfold catalog_level, AcademicConfig.LEVELS_get; rewrite Hlvl;
        reflexivity).
  assert (catalog_deadline_label (d !! "deadline") = Ok label) as Hc2
    by (rewrite Hd4; unfold catalog_deadline_label, AcademicConfig.DEADLINES_get;
        rewrite Hlabel; reflexivity).
  assert (Utils.format_price (default (VInt 0) (d !! "final_price"))
          = Ok (Utils.format_2f price +:+ "€")) as Hc3 by (rewrite Hd5; reflexivity).
  pose proof (summary_shown clock transport_ok token_hex thread_ref ADMIN_ID Hup
                w w6 u _ d _ "skip_files" lvl label
                (PyStr.take_chars 50 instructions) _
                (or_intror eq_refl) Hc1 Hc2 ltac:(rewrite Hd6; reflexivity) Hc3 H6)
    as H7.
  match type of H7 with order_at _ ?x _ _ _ _ => set (w7 := x) in * end.
  destruct (order_paid clock transport_ok token_hex thread_ref ADMIN_ID Hup
              w w7 u _ d _ lvl label _ quoted Hc1 Hc2 Hc3
              ltac:(rewrite Hd6; exact Hquoted) H7) as [Hgone Hout].
  split; [|exact Hgone].
  rewrite Hout, Hd1, Hd3. reflexivity.
Qed.

End Complete_order.

(** ** File sizes as the confirmation shows them *)

Section File_sizes.

(** Rounding to the nearest integer does not depend on how the binary
    fraction is written. *)
Lemma round_half_even_scaled_shift a e k :
  0 ≤ k → e ≤ 0 →
  Utils.round_half_even_scaled (a * 2 ^ k) (e - k) = Utils.round_half_even_scaled a e.
Proof.
  intros Hk He. unfold Utils.round_half_even_scaled.
  destruct (Z.leb_spec 0 (e - k)) as [H0|H0].
  - assert (k = 0 ∧ e = 0) as [-> ->] by lia. cbn. lia.
  - destruct (Z.leb_spec 0 e) as [H1|H1].
    + assert (e = 0) as -> by lia. cbn [Z.pow]. rewrite Z.mul_1_r.
      replace (- (0 - k)) with k by lia. cbv zeta.
      assert (0 < 2 ^ k) as Hpow by (apply Z.pow_pos_nonneg; lia).
      rewrite Z.div_mul, Z.mod_mul by lia.
      destruct (Z.ltb_spec (2 * 0) (2 ^ k)); [reflexivity|lia].
    + cbv zeta. replace (- (e - k)) with (k + - e) by lia.
      rewrite Z.pow_add_r by lia.
      assert (0 < 2 ^ k) as Hpk by (apply Z.pow_pos_nonneg; lia).
      assert (0 < 2 ^ (- e)) as Hpe by (apply Z.pow_pos_nonneg; lia).
      rewrite (Z.mul_comm a (2 ^ k)).
      rewrite Z.div_mul_cancel_l by lia.
      rewrite Z.mul_mod_distr_l by lia.
      set (r := a mod 2 ^ (- e)). set (d := 2 ^ (- e)) in *. set (c := 2 ^ k) in *.
      assert ((2 * (c * r) <? c * d) = (2 * r <? d)) as ->.
      { destruct (Z.ltb_spec (2 * r) d), (Z.ltb_spec (2 * (c * r)) (c * d)); nia. }
      assert ((c * d <? 2 * (c * r)) = (d <? 2 * r)) as ->.
      { destruct (Z.ltb_spec d (2 * r)), (Z.ltb_spec (c * d) (2 * (c * r))); nia. }
      reflexivity.
Qed.

(** An integer of at most 53 bits divided by a power of two is a float,
    exactly. *)
Lemma true_div_pow2_exact p k :
  Z.pos p < 2 ^ 53 → 0 ≤ k ≤ 1000 →
  ∃ m e, true_div_pow2 (Z.pos p) k = Ok (S754_finite false m e)
         ∧ ∃ j, 0 ≤ j ∧ Z.pos m = Z.pos p * 2 ^ j ∧ e = - k - j.
Proof.
  intros Hp Hk. pose proof (digits2_pos_bounds p) as [Blo Bhi].
  set (d := Z.pos (digits2_pos p)) in *.
  assert (1 ≤ d) as Hd1 by (unfold d; lia).
  assert (d ≤ 53) as Hd2.
  { destruct (Z_lt_le_dec 53 d) as [Hgt|]; [|lia].
    assert (2 ^ 53 ≤ 2 ^ (d - 1)) by (apply Z.pow_le_mono_r; lia). lia. }
  unfold true_div_pow2, binary_normalize, binary_round. fold d.
  rewrite fexp_normal by lia. unfold shl_align.
  destruct (d + - k - 53 - - k) as [|n|j] eqn:Hn.
  - rewrite binary_round_aux_canonical; [|unfold d in *; lia|lia].
    exists p, (- k). split; [reflexivity|]. exists 0. cbn. lia.
  - lia.
  - rewrite binary_round_aux_canonical; [| |lia].
    + eexists _, _. split; [reflexivity|]. exists (Z.pos j).
      rewrite Pos_iter_xO. lia.
    + apply digits2_pos_unique. rewrite Pos_iter_xO.
      assert (2 ^ (53 - 1) = 2 ^ (d - 1) * 2 ^ Z.pos j) as ->.
      { rewrite <- Z.pow_add_r by lia. f_equal. lia. }
      assert (2 ^ 53 = 2 ^ d * 2 ^ Z.pos j) as ->.
      { rewrite <- Z.pow_add_r by lia. f_equal. lia. }
      assert (0 < 2 ^ Z.pos j) by (apply Z.pow_pos_nonneg; lia).
      nia.
Qed.

Lemma format_true_div size k :
  0 < size < 2 ^ 53 → 0 ≤ k ≤ 1000 →
  ∃ x, true_div_pow2 size k = Ok x
       ∧ format_1f x = tenths (Utils.round_half_even_scaled (size * 10) (- k)).
Proof.
  intros Hsize Hk. destruct size as [|p|p]; try lia.
  destruct (true_div_pow2_exact p k ltac:(lia) Hk) as (m & e & Hx & j & Hj & Hm & He).
  eexists. split; [exact Hx|]. cbn [format_1f]. rewrite Hm, He.
  replace (Z.pos p * 2 ^ j * 10) with (Z.pos p * 10 * 2 ^ j) by lia.
  rewrite round_half_even_scaled_shift by lia. reflexivity.
Qed.

(** X23: the size shown for a file.  For a size below 2^53 bytes the float
    division and the one-decimal format are exact: the text is the size in
    bytes below 1024, else the size in tenths of a KiB (below 1024^2) or of
    a MiB, the nearest number of tenths with ties to even.  The unit is
    chosen before rounding, so a size from 1048525 to 1048575 bytes is
    shown as [1024.0 KB]; a file of the largest accepted size, 20 MiB, is
    shown as [20.0 MB]. *)
Theorem format_file_size_exact (size : Z) :
  0 ≤ size < 2 ^ 53 →
  format_file_size size
  = Ok (if size <? 1024 then pretty size +:+ " B"
        else if size <? 1024 ^ 2
             then tenths (Utils.round_half_even_scaled (size * 10) (- 10)) +:+ " KB"
             else tenths (Utils.round_half_even_scaled (size * 10) (- 20)) +:+ " MB")
  ∧ (1048525 ≤ size < 1048576 → format_file_size size = Ok "1024.0 KB")
  ∧ (size = 20 * 1024 * 1024 → format_file_size size = Ok "20.0 MB").
Proof.
  intros Hsize.
  assert (format_file_size size
          = Ok (if size <? 1024 then pretty size +:+ " B"
                else if size <? 1024 ^ 2
                     then tenths (Utils.round_half_even_scaled (size * 10) (- 10))
                          +:+ " KB"
                     else tenths (Utils.round_half_even_scaled (size * 10) (- 20))
                          +:+ " MB")) as Hexact.
  { unfold format_file_size.
    destruct (Z.ltb_spec size 1024) as [|H1]; [reflexivity|].
    destruct (Z.ltb_spec size (1024 ^ 2)) as [|H2].
    - destruct (format_true_div size 10 ltac:(lia) ltac:(lia)) as (x & -> & Hx).
      cbn [obind]. rewrite Hx. reflexivity.
    - destruct (format_true_div size 20 ltac:(lia) ltac:(lia)) as (x & -> & Hx).
      cbn [obind]. rewrite Hx. reflexivity. }
  split; [exact Hexact|]. split.
  - intros Hrange. rewrite Hexact.
    destruct (Z.ltb_spec size 1024) as [|_]; [lia|].
    destruct (Z.ltb_spec size (1024 ^ 2)) as [_|H2]; [|change (1024 ^ 2) with 1048576 in H2; lia].
    assert (Utils.round_half_even_scaled (size * 10) (- 10) = 10240) as ->.
    { unfold Utils.round_half_even_scaled.
      change (0 <=? - 10) with false. change (2 ^ (- - 10)) with 1024.
      cbv beta iota zeta.
      assert (size * 10 = 1024 * 10239 + (size * 10 - 10484736)) as Hdm by lia.
      assert (size * 10 / 1024 = 10239) as ->
        by (symmetry; apply (Z.div_unique _ _ _ (size * 10 - 10484736)); lia).
      assert ((size * 10) mod 1024 = size * 10 - 10484736) as ->
        by (symmetry; apply (Z.mod_unique _ _ 10239); lia).
      destruct (Z.ltb_spec (2 * (size * 10 - 10484736)) 1024); [lia|].
      destruct (Z.ltb_spec 1024 (2 * (size * 10 - 10484736))); [reflexivity|lia]. }
    vm_compute. reflexivity.
  - intros ->. vm_compute. reflexivity.
Qed.

End File_sizes.

Section Scenarios_more.

Import Sample Scenario.

Lemma session_data_well_typed_witness :
  ∃ s, heap (run clock transport_up token_hex thread_ref ADMIN_ID upload_session
               initial_world) !! 0%nat = Some s
       ∧ data s !! "pages" = Some (VInt 2)
       ∧ well_typed s
       ∧ ∃ text, Utils.format_price (default (VInt 0) (data s !! "final_price"))
                 = Ok text.
Proof.
  eexists. split; [vm_compute; reflexivity|]. split; [vm_compute; reflexivity|].
  refine (let H := session_data_well_typed clock transport_up token_hex thread_ref
                     ADMIN_ID upload_session 0%nat _ _ in
          conj (proj1 H) (proj1 (proj2 H))).
  vm_compute. reflexivity.
Defined.

Lemma admin_reply_effects_witness :
  outbox (admin_reply transport_up ADMIN_ID operator ["١٢"; "Bonjour"; "Alice"]
            initial_world).2
  = [(12, AdminAnswer "Bonjour Alice"); (uid operator, ReplySent 12)]
  ∧ outbox (admin_reply transport_up ADMIN_ID operator ["12a"; "Bonjour"]
              initial_world).2
    = [(uid operator, InvalidUserId)]
  ∧ outbox (admin_reply transport_up ADMIN_ID operator ["12"] initial_world).2
    = [(uid operator, ReplyUsage)].
Proof.
  split; [|split].
  - destruct (admin_reply_effects transport_up ADMIN_ID initial_world operator
                ["١٢"; "Bonjour"; "Alice"]) as (_ & _ & _ & Hoperator).
    destruct (Hoperator eq_refl) as (_ & Hdelivered & _).
    refine (Hdelivered "١٢" ["Bonjour"; "Alice"] 12 eq_refl _ eq_refl eq_refl eq_refl).
    discriminate.
  - destruct (admin_reply_effects transport_up ADMIN_ID initial_world operator
                ["12a"; "Bonjour"]) as (_ & _ & _ & Hoperator).
    destruct (Hoperator eq_refl) as (_ & _ & Hinvalid).
    refine (Hinvalid "12a" ["Bonjour"] eq_refl _ eq_refl eq_refl eq_refl).
    discriminate.
  - destruct (admin_reply_effects transport_up ADMIN_ID initial_world operator ["12"])
      as (_ & _ & _ & Hoperator).
    destruct (Hoperator eq_refl) as (Husage & _).
    refine (Husage _ eq_refl eq_refl). cbn. lia.
Defined.

Lemma complete_order_reaches_operator_witness :
  let w' := run clock transport_up token_hex thread_ref ADMIN_ID
              [ CallbackQuery alice "new_order"; TextMessage alice "Essay";
                CallbackQuery alice "level_master"; TextMessage alice "10";
                CallbackQuery alice "deadline_3d"; TextMessage alice "APA";
                CallbackQuery alice "skip_files";
                CallbackQuery alice "payment_transfer" ]
              initial_world in
  ∃ price amount quoted,
    Utils.calculate_price (Some (VStr (PyStr.remove_all "level_master" "level_")))
      (PyStr.remove_all "deadline_3d" "deadline_") (VInt 10) = Ok price
    ∧ Utils.format_price (VFloat price) = Ok amount
    ∧ quoted_instructions (Some (VStr "APA")) = Ok quoted
    ∧ outbox w' =
      (outbox initial_world ++
       [ (uid alice, OrderSubjectPrompt);
         (uid alice, SubjectConfirmation "Essay");
         (uid alice,
          PagesPrompt {| name := "Master"; emoji := "🎯"; base_price := B64.lit 26 0 |});
         (uid alice, PagesConfirmation 10);
         (uid alice, InstructionsPrompt);
         (uid alice, FilesPrompt);
         (uid alice,
          SummaryText (VStr "Essay")
            {| name := "Master"; emoji := "🎯"; base_price := B64.lit 26 0 |}
            (Some (VInt 10)) "Normal - 3j" (PyStr.take_chars 50 "APA") 0 amount);
         (uid alice,
          TransferInstructions ("EDU" +:+ token_hex (tokens initial_world)) amount);
         (ADMIN_ID,
          AdminNotification ("EDU" +:+ token_hex (tokens initial_world))
            (default "Sans username" (truthy_str (username alice))) (uid alice)
            (Some (VStr "Essay")) "Master" (Some (VInt 10)) "Normal - 3j" amount
            "transfer" 0 quoted) ])%list
    ∧ sessions w' !! uid alice = None.
Proof.
  apply (complete_order_reaches_operator clock transport_up token_hex thread_ref
           ADMIN_ID initial_world alice "Essay" "level_master" "10" "deadline_3d"
           "APA" {| name := "Master"; emoji := "🎯"; base_price := B64.lit 26 0 |}
           10 "Normal - 3j" (B64.lit 12 1)).
  - intros n. reflexivity.
  - vm_compute. lia.
  - reflexivity.
  - reflexivity.
  - reflexivity.
  - lia.
  - reflexivity.
  - reflexivity.
Defined.

Lemma format_file_size_exact_witness :
  format_file_size 1048575 = Ok "1024.0 KB".
Proof.
  apply (proj1 (proj2 (format_file_size_exact 1048575 ltac:(lia)))). lia.
Defined.

End Scenarios_more.
